(** * Multi-tenant authentication core of AI-HUB

    Shallow embedding of [server/tenant-auth.ts], the tenant and hub routes
    of [server/tenant-routes.ts] they guard, and the tables of
    [shared/tenant-schema.ts] they read and write.

    The relational store is a record of tables (lists of rows, in storage
    order).  A middleware is a function from the store and the request to
    an outcome and the new store: it either answers ([Fail] / [Done]) or
    calls [next()] with the (possibly updated) request ([Next]). *)

From Stdlib Require Import String Ascii List ZArith Bool Lia Sorted.
Import ListNotations.
Open Scope string_scope.
Open Scope Z_scope.

(** ** JavaScript values that flow into headers and column assignments *)

Inductive JsVal : Type :=
| JUndef
| JNum (n : Z)
| JStr (s : string)
| JFun (name : string)       (** a built-in function, e.g. [Object.prototype.toString] *)
| JObj (text : string).      (** an object, with the text [String(obj)] gives *)

(** JavaScript truthiness (NaN does not arise in this code). *)
Definition truthy (v : JsVal) : bool :=
  match v with
  | JUndef => false
  | JNum n => negb (n =? 0)
  | JStr s => negb (String.eqb s "")
  | JFun _ | JObj _ => true
  end.

(** A header or query value of type [string | undefined]. *)
Definition truthy_str (o : option string) : bool :=
  match o with
  | Some s => negb (String.eqb s "")
  | None => false
  end.

(** [a || b] on [string | undefined]. *)
Definition js_or (a b : option string) : option string :=
  if truthy_str a then a else b.

(** Decimal rendering of an integer, as template literals do. *)
Fixpoint digits_of_nat (fuel : nat) (n : nat) (acc : string) : string :=
  match fuel with
  | O => acc
  | S fuel' =>
      let d := Nat.modulo n 10 in
      let acc' := String (Ascii.ascii_of_nat (48 + d)) acc in
      if Nat.ltb n 10 then acc' else digits_of_nat fuel' (Nat.div n 10) acc'
  end.

Definition Z_to_string (z : Z) : string :=
  let n := Z.to_nat (Z.abs z) in
  let s := digits_of_nat (S n) n "" in
  if z <? 0 then String.append "-" s else s.

Fixpoint all_chars (p : ascii -> bool) (s : string) : bool :=
  match s with
  | EmptyString => true
  | String c s' => p c && all_chars p s'
  end.

(** Strings of this development are sequences of Latin-1 characters
    (code points 0 to 255), one [ascii] each. *)

(** PostgreSQL text cannot hold the character NUL: a statement with a
    parameter holding one fails ("invalid byte sequence for encoding
    UTF8: 0x00"), and no stored value holds one. *)
Definition pg_text_ok (s : string) : bool := all_chars (fun c => negb (Ascii.eqb c Ascii.zero)) s.

Definition pg_opt_text_ok (o : option string) : bool :=
  match o with Some s => pg_text_ok s | None => true end.

(** A [jsonb] value, by the strings it holds (its keys and its string
    values; the rest of the value plays no part here).  [JSON.stringify]
    writes NUL as the escape [\u0000], which the [jsonb] input refuses. *)
Definition json_strings_ok (o : option (list string)) : bool :=
  match o with Some l => forallb pg_text_ok l | None => true end.

(** Characters Node's [res.setHeader] accepts in a header value (its
    [checkInvalidHeaderChar]: tab, and [\x20-\x7e], [\x80-\xff]); any
    other one makes it throw [ERR_INVALID_CHAR]. *)
Definition header_char_ok (c : ascii) : bool :=
  let n := nat_of_ascii c in
  Nat.eqb n 9 || (Nat.leb 32 n && negb (Nat.eqb n 127)).

Definition header_value_ok (s : string) : bool := all_chars header_char_ok s.

(** ** Tables of [shared/tenant-schema.ts] *)

Record Tenant := mkTenant {
  tenant_id : Z;
  tenant_name : string;
  tenant_slug : string;
  tenant_apiKey : string;
  tenant_subscriptionTier : string;
  tenant_maxHubs : Z;
  tenant_maxCameras : Z;
  tenant_status : string   (** active, suspended, cancelled *)
}.

Record HubLicense := mkHubLicense {
  lic_id : Z;
  lic_tenantId : Z;
  lic_hubSerial : string;
  lic_licenseKey : string;
  lic_hubName : option string;
  lic_deploymentLocation : option string;
  lic_status : string;     (** active, suspended, revoked *)
  lic_maxCameras : Z;
  lic_expiresAt : option Z (** milliseconds since the epoch *)
}.

(** Table [hubs] ([tenantsHubs]). *)
Record HubRow := mkHubRow {
  hub_id : Z;
  hub_tenantId : Z;
  hub_name : string;
  hub_serialNumber : string;
  hub_status : string;
  hub_lastHeartbeat : option Z;
  hub_ipAddress : option string;
  hub_version : option string
}.

Record ApiUsageRow := mkApiUsageRow {
  usage_id : Z;
  usage_tenantId : Z;
  usage_endpoint : string;
  usage_method : string;
  usage_requestCount : Z;
  usage_month : string
}.

(** Every stored API key is PostgreSQL text, so it holds no NUL. *)
Definition tenant_keys_ok (ts : list Tenant) : bool :=
  forallb (fun t => pg_text_ok (tenant_apiKey t)) ts.

Record Store := mkStore {
  tenants : list Tenant;
  hubLicenses : list HubLicense;
  tenantsHubs : list HubRow;
  apiUsage : list ApiUsageRow;
  tenants_keys_ok : tenant_keys_ok tenants = true
}.

(** Unique constraints declared by the schema, as column lists (the
    primary key included).  [api_usage] declares only indexes
    ([idx_api_usage_tenant_month], [idx_api_usage_endpoint]), which are
    not unique. *)
Definition apiUsage_unique_constraints : list (list string) := [["id"]].

(** Value of a [serial] primary key for the next inserted row. *)
Definition next_serial (ids : list Z) : Z := fold_right Z.max 0 ids + 1.

(** ** Request context ([TenantContext]) *)

Record TenantSnapshot := mkSnapshot {
  snap_id : Z;
  snap_name : string;
  snap_slug : string;
  snap_subscriptionTier : string;
  snap_maxHubs : Z;
  snap_maxCameras : Z;
  snap_status : string
}.

Record TenantUser := mkTenantUser {
  user_id : Z;
  user_email : string;
  user_role : string;
  user_permissions : list string
}.

Record TenantContext := mkTenantContext {
  ctx_tenantId : Z;
  ctx_tenant : TenantSnapshot;
  ctx_user : option TenantUser
}.

Definition snapshot_of (t : Tenant) : TenantSnapshot :=
  {| snap_id := tenant_id t; snap_name := tenant_name t; snap_slug := tenant_slug t;
     snap_subscriptionTier := tenant_subscriptionTier t;
     snap_maxHubs := tenant_maxHubs t; snap_maxCameras := tenant_maxCameras t;
     snap_status := tenant_status t |}.

(** ** Requests, responses and middleware *)

(** JSON body fields read by the handlers below. *)
Record Body := mkBody {
  body_status : option string;
  body_ipAddress : option string;
  body_version : option string;
  body_configuration : option (list string);
  body_tenantId : option Z;
  body_hubSerial : option string;
  body_hubName : option string;
  body_deploymentLocation : option string;
  body_licenseStatus : option string;
  body_maxCameras : option Z;
  body_features : option (list string);
  body_activatedAt : option Z;  (** a JSON value given for [activatedAt] *)
  body_expiresAt : option Z     (** a JSON value given for [expiresAt] *)
}.

Record Request := mkRequest {
  hdr_x_api_key : option string;
  query_api_key : option string;
  hdr_x_license_key : option string;
  hdr_x_hub_serial : option string;
  req_method : string;
  req_endpoint : string;   (** [req.route?.path || req.path] *)
  req_now : Z;             (** [new Date()] in milliseconds *)
  req_month : string;      (** [new Date().toISOString().slice(0, 7)] *)
  req_body : Body;
  req_tenant : option TenantContext;   (** [req.tenant] *)
  res_headers : list (string * JsVal)  (** headers set with [res.setHeader] *)
}.

Inductive Outcome : Type :=
| Fail (status : Z) (error message : string)  (** [res.status(s).json({error, message})] *)
| Done (status : Z) (message : string)        (** a handler's success response *)
| Next (r : Request).                         (** [next()] *)

Definition Middleware := Store -> Request -> Outcome * Store.

(** Express runs a route's handlers in order until one responds. *)
Fixpoint run_chain (ms : list Middleware) (st : Store) (r : Request) : Outcome * Store :=
  match ms with
  | [] => (Fail 404 "Not Found" "", st)
  | m :: ms' =>
      match m st r with
      | (Next r', st') => run_chain ms' st' r'
      | res => res
      end
  end.

Definition set_tenant (r : Request) (c : TenantContext) : Request :=
  {| hdr_x_api_key := hdr_x_api_key r; query_api_key := query_api_key r;
     hdr_x_license_key := hdr_x_license_key r; hdr_x_hub_serial := hdr_x_hub_serial r;
     req_method := req_method r; req_endpoint := req_endpoint r;
     req_now := req_now r; req_month := req_month r; req_body := req_body r;
     req_tenant := Some c; res_headers := res_headers r |}.

Definition set_header (r : Request) (name : string) (v : JsVal) : Request :=
  {| hdr_x_api_key := hdr_x_api_key r; query_api_key := query_api_key r;
     hdr_x_license_key := hdr_x_license_key r; hdr_x_hub_serial := hdr_x_hub_serial r;
     req_method := req_method r; req_endpoint := req_endpoint r;
     req_now := req_now r; req_month := req_month r; req_body := req_body r;
     req_tenant := req_tenant r; res_headers := app (res_headers r) [(name, v)] |}.

Definition with_apiUsage (st : Store) (rows : list ApiUsageRow) : Store :=
  mkStore (tenants st) (hubLicenses st) (tenantsHubs st) rows (tenants_keys_ok st).

Definition with_hubLicenses (st : Store) (ls : list HubLicense) : Store :=
  mkStore (tenants st) ls (tenantsHubs st) (apiUsage st) (tenants_keys_ok st).

Definition with_tenantsHubs (st : Store) (hs : list HubRow) : Store :=
  mkStore (tenants st) (hubLicenses st) hs (apiUsage st) (tenants_keys_ok st).

Definition tenant_keys_ok_filter (f : Tenant -> bool) (ts : list Tenant)
    (H : tenant_keys_ok ts = true) : tenant_keys_ok (filter f ts) = true.
Proof.
  unfold tenant_keys_ok in *. rewrite forallb_forall in *.
  intros t Ht. apply filter_In in Ht as [Ht _]. exact (H t Ht).
Qed.

Definition tenant_keys_ok_snoc (ts : list Tenant) (t : Tenant)
    (H : tenant_keys_ok ts = true) (Ht : pg_text_ok (tenant_apiKey t) = true)
    : tenant_keys_ok (app ts [t]) = true.
Proof. unfold tenant_keys_ok in *. rewrite forallb_app, H. simpl. now rewrite Ht. Qed.

(** The store after a tenant row is appended; only a row PostgreSQL
    accepted is ever appended (see [insert_tenant]), so the other case
    does not arise. *)
Definition add_tenant (st : Store) (t : Tenant) : Store :=
  match Bool.bool_dec (pg_text_ok (tenant_apiKey t)) true with
  | left Ht =>
      mkStore (app (tenants st) [t]) (hubLicenses st) (tenantsHubs st) (apiUsage st)
              (tenant_keys_ok_snoc (tenants st) t (tenants_keys_ok st) Ht)
  | right _ => st
  end.

(** ** The store's [INSERT ... ON CONFLICT (target) DO UPDATE] *)

Inductive DbResult (A : Type) : Type :=
| DbOk (a : A)
| DbError (msg : string).
Arguments DbOk {A} a.
Arguments DbError {A} msg.

Definition same_columns (a b : list string) : bool :=
  forallb (fun c => existsb (String.eqb c) b) a
  && forallb (fun c => existsb (String.eqb c) a) b.

Definition jsval_eqb (a b : JsVal) : bool :=
  match a, b with
  | JUndef, JUndef => true
  | JNum x, JNum y => Z.eqb x y
  | JStr x, JStr y | JFun x, JFun y | JObj x, JObj y => String.eqb x y
  | _, _ => false
  end.

(** Column of an [api_usage] row, by its Drizzle name. *)
Definition usage_column (c : string) (r : ApiUsageRow) : JsVal :=
  if String.eqb c "id" then JNum (usage_id r)
  else if String.eqb c "tenantId" then JNum (usage_tenantId r)
  else if String.eqb c "endpoint" then JStr (usage_endpoint r)
  else if String.eqb c "method" then JStr (usage_method r)
  else if String.eqb c "requestCount" then JNum (usage_requestCount r)
  else if String.eqb c "month" then JStr (usage_month r)
  else JUndef.

Definition usage_conflicts (target : list string) (a b : ApiUsageRow) : bool :=
  forallb (fun c => jsval_eqb (usage_column c a) (usage_column c b)) target.

(** An integer column accepts a number, or a string holding a decimal numeral. *)
Fixpoint parse_digits (cs : list Ascii.ascii) (acc : Z) : option Z :=
  match cs with
  | [] => Some acc
  | c :: cs' =>
      let d := Z.of_nat (Ascii.nat_of_ascii c) - 48 in
      if (0 <=? d) && (d <=? 9) then parse_digits cs' (10 * acc + d) else None
  end.

Definition pg_integer_of (v : JsVal) : option Z :=
  match v with
  | JNum n => Some n
  | JStr s =>
      match list_ascii_of_string s with
      | [] => None
      | cs => parse_digits cs 0
      end
  | _ => None
  end.

Definition set_requestCount (n : Z) (r : ApiUsageRow) : ApiUsageRow :=
  {| usage_id := usage_id r; usage_tenantId := usage_tenantId r;
     usage_endpoint := usage_endpoint r; usage_method := usage_method r;
     usage_requestCount := n; usage_month := usage_month r |}.

(** The conflict target must be the column list of a unique constraint of
    the table, otherwise the statement is rejected before any row is
    looked at. *)
Definition apiUsage_insert_on_conflict_do_update
    (target : list string) (set_value : JsVal) (row : ApiUsageRow)
    (rows : list ApiUsageRow) : DbResult (list ApiUsageRow) :=
  if negb (existsb (same_columns target) apiUsage_unique_constraints) then
    DbError "there is no unique or exclusion constraint matching the ON CONFLICT specification"
  else if existsb (usage_conflicts target row) rows then
    match pg_integer_of set_value with
    | Some n =>
        DbOk (map (fun r => if usage_conflicts target row r then set_requestCount n r else r) rows)
    | None => DbError "invalid input syntax for type integer"
    end
  else DbOk (app rows [row]).

(** ** [trackApiUsage] *)

(** [apiUsage.requestCount + 1] is JavaScript [+] on a Drizzle column
    object and a number: the object is turned into its text and the digit
    appended, which yields a string, not an SQL expression. *)
Definition column_object_text : string := "[object Object]".

Definition requestCount_plus_1 : JsVal :=
  JStr (String.append column_object_text (Z_to_string 1)).

Definition usage_target : list string := ["tenantId"; "endpoint"; "method"; "month"].

(** A failure of the statement is caught and logged: the store is left as it was. *)
Definition trackApiUsage (st : Store) (r : Request) (tenantId : Z) : Store :=
  let row := {| usage_id := next_serial (map usage_id (apiUsage st));
                usage_tenantId := tenantId; usage_endpoint := req_endpoint r;
                usage_method := req_method r; usage_requestCount := 1;
                usage_month := req_month r |} in
  match apiUsage_insert_on_conflict_do_update usage_target requestCount_plus_1 row (apiUsage st) with
  | DbOk rows => with_apiUsage st rows
  | DbError _ => st
  end.

(** ** [authenticateApiKey] *)

(** [req.headers['x-api-key'] || req.query.api_key], then [if (!apiKey)]. *)
Definition extractApiKey (r : Request) : option string :=
  let k := js_or (hdr_x_api_key r) (query_api_key r) in
  if truthy_str k then k else None.

(** [SELECT * FROM tenants WHERE api_key = k AND status = 'active'], first row. *)
Definition findActiveByApiKey (st : Store) (k : string) : option Tenant :=
  find (fun t => String.eqb (tenant_apiKey t) k && String.eqb (tenant_status t) "active")
       (tenants st).

(** The lookup fails when the key holds NUL, and the [catch] answers 500.
    Node's HTTP parser refuses a header value holding NUL (400, before
    Express runs), so only a key taken from [req.query.api_key] (where
    [%00] decodes to NUL) can reach the lookup with one. *)
Definition authenticateApiKey : Middleware := fun st r =>
  match extractApiKey r with
  | None =>
      (Fail 401 "API key required"
            "Provide API key in X-API-Key header or api_key query parameter", st)
  | Some k =>
      if truthy_str (hdr_x_api_key r) || pg_text_ok k then
        match findActiveByApiKey st k with
        | None => (Fail 401 "Invalid API key" "API key not found or tenant is inactive", st)
        | Some t =>
            let r' := set_tenant r (mkTenantContext (tenant_id t) (snapshot_of t) None) in
            (Next r', trackApiUsage st r' (tenant_id t))
        end
      else (Fail 500 "Authentication failed" "Internal server error during authentication", st)
  end.

(** ** [authenticateHubLicense] *)

(** [hub_licenses INNER JOIN tenants ON hub_licenses.tenant_id = tenants.id]. *)
Definition license_join (st : Store) : list (HubLicense * Tenant) :=
  flat_map (fun l => map (fun t => (l, t))
                         (filter (fun t => tenant_id t =? lic_tenantId l) (tenants st)))
           (hubLicenses st).

Definition license_row_matches (lk hs : string) (p : HubLicense * Tenant) : bool :=
  let '(l, t) := p in
  String.eqb (lic_licenseKey l) lk && String.eqb (lic_hubSerial l) hs
  && String.eqb (lic_status l) "active" && String.eqb (tenant_status t) "active".

Definition findActiveByKeyAndSerial (st : Store) (lk hs : string) : option (HubLicense * Tenant) :=
  find (license_row_matches lk hs) (license_join st).

(** [license.expiresAt && new Date() > license.expiresAt] *)
Definition license_expired (now : Z) (l : HubLicense) : bool :=
  match lic_expiresAt l with
  | Some e => now >? e
  | None => false
  end.

Definition authenticateHubLicense : Middleware := fun st r =>
  let missing :=
    (Fail 401 "Hub authentication required" "Provide X-License-Key and X-Hub-Serial headers", st) in
  if negb (truthy_str (hdr_x_license_key r)) || negb (truthy_str (hdr_x_hub_serial r)) then missing
  else
    match hdr_x_license_key r, hdr_x_hub_serial r with
    | Some lk, Some hs =>
        match findActiveByKeyAndSerial st lk hs with
        | None =>
            (Fail 401 "Invalid hub license"
                  "License key/serial combination not found or inactive", st)
        | Some (l, t) =>
            if license_expired (req_now r) l then
              (Fail 401 "License expired" "Hub license has expired, please renew", st)
            else
              let r' := set_tenant r (mkTenantContext (lic_tenantId l) (snapshot_of t) None) in
              (Next r', trackApiUsage st r' (lic_tenantId l))
        end
    | _, _ => missing
    end.

(** ** [requireRole] *)

Definition roleHierarchy : list string := ["viewer"; "user"; "manager"; "admin"].

(** [Array.prototype.indexOf]: position of the first equal element, or -1. *)
Fixpoint indexOf (l : list string) (x : string) : Z :=
  match l with
  | [] => -1
  | y :: l' =>
      if String.eqb y x then 0
      else let i := indexOf l' x in if i <? 0 then -1 else i + 1
  end.

Definition requireRole (minRole : string) : Middleware := fun st r =>
  let no_user :=
    (Fail 403 "User authentication required"
          "This endpoint requires user-level authentication", st) in
  match req_tenant r with
  | None => no_user
  | Some c =>
      match ctx_user c with
      | None => no_user
      | Some u =>
          let userRoleIndex := indexOf roleHierarchy (user_role u) in
          let requiredRoleIndex := indexOf roleHierarchy minRole in
          if userRoleIndex <? requiredRoleIndex then
            (Fail 403 "Insufficient permissions"
                  (String.append "This action requires "
                                 (String.append minRole " role or higher")), st)
          else (Next r, st)
      end
  end.

(** ** [rateLimitByTier] *)

(** Properties every object literal inherits from [Object.prototype]. *)
Definition object_prototype_methods : list string :=
  ["constructor"; "hasOwnProperty"; "isPrototypeOf"; "propertyIsEnumerable";
   "toLocaleString"; "toString"; "valueOf"; "__defineGetter__";
   "__defineSetter__"; "__lookupGetter__"; "__lookupSetter__"].

(** [rateLimits[k]] for [const rateLimits = {basic: 100, pro: 500, enterprise: 2000}]:
    own properties first, then the prototype chain. *)
Definition rateLimits_get (k : string) : JsVal :=
  if String.eqb k "basic" then JNum 100
  else if String.eqb k "pro" then JNum 500
  else if String.eqb k "enterprise" then JNum 2000
  else if String.eqb k "__proto__" then JObj "[object Object]"
  else if existsb (String.eqb k) object_prototype_methods then JFun k
  else JUndef.

(** [rateLimits[tier] || 100] *)
Definition tierLimit (tier : string) : JsVal :=
  let v := rateLimits_get tier in
  if truthy v then v else JNum 100.

Definition rateLimitByTier : Middleware := fun st r =>
  match req_tenant r with
  | None => (Next r, st)
  | Some c =>
      let tier := snap_subscriptionTier (ctx_tenant c) in
      let r1 := set_header r "X-RateLimit-Limit" (tierLimit tier) in
      if header_value_ok tier then
        let r2 := set_header r1 "X-RateLimit-Tier" (JStr tier) in
        (Next r2, st)
      else
        (* [setHeader] throws; Express passes the error to its handler. *)
        (Fail 500 "Internal Server Error" "Invalid character in header content [X-RateLimit-Tier]", st)
  end.

(** ** [POST /api/tenant/hub-licenses] *)

Record LicenseDraft := mkLicenseDraft {
  draft_tenantId : Z;
  draft_hubSerial : string;
  draft_hubName : option string;
  draft_deploymentLocation : option string;
  draft_status : option string;
  draft_maxCameras : option Z;
  draft_features : option (list string)
}.

Definition fits (n : nat) (o : option string) : bool :=
  match o with
  | Some s => Nat.leb (String.length s) n
  | None => true
  end.

Definition opt_default {A : Type} (o : option A) (d : A) : A :=
  match o with Some v => v | None => d end.

(** drizzle-zod's check of an [integer] column: a 32-bit integer. *)
Definition int32_ok (o : option Z) : bool :=
  match o with
  | Some n => (-2147483648 <=? n) && (n <=? 2147483647)
  | None => true
  end.

(** [insertHubLicenseSchema.parse(req.body)]: the insert schema of
    [hub_licenses] without [id], [createdAt], [updatedAt], [licenseKey].
    [tenantId] and [hubSerial] are not null and have no default, so they
    are required; varchar columns are bounded by their length, integer
    columns by the 32-bit range; a [timestamp] column asks for a [Date],
    which no JSON value is, so a body giving [activatedAt] or [expiresAt]
    is refused. *)
Definition parseInsertHubLicense (b : Body) : option LicenseDraft :=
  match body_tenantId b, body_hubSerial b, body_activatedAt b, body_expiresAt b with
  | Some tid, Some hs, None, None =>
      if int32_ok (Some tid) && fits 100 (Some hs) && fits 255 (body_hubName b)
         && fits 255 (body_deploymentLocation b) && fits 20 (body_licenseStatus b)
         && int32_ok (body_maxCameras b)
      then Some (mkLicenseDraft tid hs (body_hubName b) (body_deploymentLocation b)
                                (body_licenseStatus b) (body_maxCameras b) (body_features b))
      else None
  | _, _, _, _ => None
  end.

(** The [INSERT INTO hub_licenses] of the row [l] with [features]:
    [hub_serial] is [varchar(100)], [license_key] [varchar(128)], text
    holds no NUL, and [hub_serial] and [license_key] are unique. *)
Definition insert_hubLicense (ls : list HubLicense) (l : HubLicense)
    (features : option (list string)) : DbResult (list HubLicense) :=
  if negb (fits 100 (Some (lic_hubSerial l)) && fits 128 (Some (lic_licenseKey l))
           && fits 255 (lic_hubName l) && fits 255 (lic_deploymentLocation l)
           && fits 20 (Some (lic_status l)) && int32_ok (Some (lic_maxCameras l))) then
    DbError "value too long for type character varying"
  else if negb (pg_text_ok (lic_hubSerial l) && pg_text_ok (lic_licenseKey l)
                && pg_opt_text_ok (lic_hubName l) && pg_opt_text_ok (lic_deploymentLocation l)
                && pg_text_ok (lic_status l) && json_strings_ok features) then
    DbError "invalid byte sequence for encoding UTF8: 0x00"
  else if existsb (fun x => String.eqb (lic_hubSerial x) (lic_hubSerial l)
                            || String.eqb (lic_licenseKey x) (lic_licenseKey l)) ls
  then DbError "duplicate key value violates unique constraint"
  else DbOk (app ls [l]).

(** [SELECT count( * ) FROM hub_licenses WHERE tenant_id = tenantId] *)
Definition license_count (st : Store) (tenantId : Z) : Z :=
  Z.of_nat (length (filter (fun l => lic_tenantId l =? tenantId) (hubLicenses st))).

(** The handler, given the values [generateLicenseKey()] and
    [generateHubSerial(...)] return for this request (random and
    time-dependent). *)
Definition createHubLicense (licenseKey hubSerial : string) : Middleware := fun st r =>
  let internal := (Fail 500 "Failed to create hub license" "", st) in
  match req_tenant r with
  | None => internal
  | Some c =>
      match parseInsertHubLicense (req_body r) with
      | None => (Fail 400 "Validation error" "", st)
      | Some d =>
          let tenantId := ctx_tenantId c in
          let maxHubs := snap_maxHubs (ctx_tenant c) in
          if maxHubs <=? license_count st tenantId then
            (Fail 400 "Hub limit exceeded"
                  (String.append "Your subscription allows maximum "
                                 (String.append (Z_to_string maxHubs) " hubs")), st)
          else
            let l := {| lic_id := next_serial (map lic_id (hubLicenses st));
                        lic_tenantId := tenantId; lic_hubSerial := hubSerial;
                        lic_licenseKey := licenseKey; lic_hubName := draft_hubName d;
                        lic_deploymentLocation := draft_deploymentLocation d;
                        lic_status := "active";
                        lic_maxCameras := match draft_maxCameras d with
                                          | Some m => m | None => 16 end;
                        lic_expiresAt := None |} in
            match insert_hubLicense (hubLicenses st) l (draft_features d) with
            | DbOk ls => (Done 201 "license", with_hubLicenses st ls)
            | DbError _ => internal
            end
      end
  end.

(** The generated key and serial and the body's text fit the columns of
    [hub_licenses]. *)
Definition license_text_ok (licenseKey hubSerial : string) (b : Body) : bool :=
  fits 100 (Some hubSerial) && fits 128 (Some licenseKey)
  && pg_text_ok hubSerial && pg_text_ok licenseKey
  && pg_opt_text_ok (body_hubName b) && pg_opt_text_ok (body_deploymentLocation b)
  && json_strings_ok (body_features b).

(** [app.use("/api/tenant", authenticateApiKey, rateLimitByTier)] followed by
    [app.post("/api/tenant/hub-licenses", requireRole("admin"), handler)]. *)
Definition postHubLicensesRoute (licenseKey hubSerial : string) : list Middleware :=
  [authenticateApiKey; rateLimitByTier; requireRole "admin"; createHubLicense licenseKey hubSerial].

(** ** [POST /api/hub/heartbeat] *)

(** [s.split('-').pop()] *)
Fixpoint after_last_dash (s : string) (cur : string) : string :=
  match s with
  | EmptyString => cur
  | String ch s' =>
      if Ascii.eqb ch "-"%char then after_last_dash s' ""
      else after_last_dash s' (String.append cur (String ch EmptyString))
  end.

Definition keep_or (o : option string) (old : option string) : option string :=
  match o with Some v => Some v | None => old end.

(** The values a heartbeat writes besides the name and serial: [status]
    ([varchar(50)]), [ipAddress] ([varchar(45)]), [version]
    ([varchar(50)]) and [configuration] ([jsonb]), all free of NUL. *)
Definition heartbeat_fields_ok (status : string) (b : Body) : bool :=
  fits 50 (Some status) && fits 45 (body_ipAddress b) && fits 50 (body_version b)
  && pg_text_ok status && pg_opt_text_ok (body_ipAddress b) && pg_opt_text_ok (body_version b)
  && json_strings_ok (body_configuration b).

(** The [INSERT INTO hubs] of the row [h] with [configuration]: [name] is
    [varchar(255)], [serial_number] [varchar(100)], and [hubs] has the
    unique constraint [(tenant_id, serial_number)]. *)
Definition insert_hub (hs : list HubRow) (h : HubRow) (configuration : option (list string))
    : DbResult (list HubRow) :=
  if negb (fits 255 (Some (hub_name h)) && fits 100 (Some (hub_serialNumber h))
           && fits 50 (Some (hub_status h)) && fits 45 (hub_ipAddress h)
           && fits 50 (hub_version h)) then
    DbError "value too long for type character varying"
  else if negb (pg_text_ok (hub_name h) && pg_text_ok (hub_serialNumber h)
                && pg_text_ok (hub_status h) && pg_opt_text_ok (hub_ipAddress h)
                && pg_opt_text_ok (hub_version h) && json_strings_ok configuration) then
    DbError "invalid byte sequence for encoding UTF8: 0x00"
  else if existsb (fun x => (hub_tenantId x =? hub_tenantId h)
                            && String.eqb (hub_serialNumber x) (hub_serialNumber h)) hs
  then DbError "duplicate key value violates unique constraint"
  else DbOk (app hs [h]).

(** [status || "online"] *)
Definition heartbeat_status (b : Body) : string :=
  if truthy_str (body_status b) then
    match body_status b with Some s => s | None => "online" end
  else "online".

(** The [UPDATE] sets [status], [lastHeartbeat] and those of [ipAddress],
    [version], [configuration] the body gives (Drizzle leaves out an
    [undefined] value); it fails when one of them does not fit its column.
    The insert stores [configuration || {}]. *)
Definition hubHeartbeat : Middleware := fun st r =>
  let internal := (Fail 500 "Failed to process heartbeat" "", st) in
  match req_tenant r, hdr_x_hub_serial r with
  | Some c, Some hubSerial =>
      let b := req_body r in
      let status := heartbeat_status b in
      match find (fun h => (hub_tenantId h =? ctx_tenantId c)
                           && String.eqb (hub_serialNumber h) hubSerial) (tenantsHubs st) with
      | Some existing =>
          if negb (heartbeat_fields_ok status b) then internal else
          let upd h :=
            if hub_id h =? hub_id existing then
              {| hub_id := hub_id h; hub_tenantId := hub_tenantId h; hub_name := hub_name h;
                 hub_serialNumber := hub_serialNumber h; hub_status := status;
                 hub_lastHeartbeat := Some (req_now r);
                 hub_ipAddress := keep_or (body_ipAddress b) (hub_ipAddress h);
                 hub_version := keep_or (body_version b) (hub_version h) |}
            else h in
          (Done 200 "Heartbeat received", with_tenantsHubs st (map upd (tenantsHubs st)))
      | None =>
          let h := {| hub_id := next_serial (map hub_id (tenantsHubs st));
                      hub_tenantId := ctx_tenantId c;
                      hub_name := String.append "Hub-" (after_last_dash hubSerial "");
                      hub_serialNumber := hubSerial; hub_status := status;
                      hub_lastHeartbeat := Some (req_now r);
                      hub_ipAddress := body_ipAddress b; hub_version := body_version b |} in
          match insert_hub (tenantsHubs st) h (Some (opt_default (body_configuration b) [])) with
          | DbOk hs => (Done 201 "Hub registered", with_tenantsHubs st hs)
          | DbError _ => internal
          end
      end
  | _, _ => internal
  end.

(** The values of a heartbeat that registers a hub fit their columns. *)
Definition heartbeat_insert_ok (hubSerial : string) (b : Body) : bool :=
  fits 100 (Some hubSerial) && pg_text_ok hubSerial && heartbeat_fields_ok (heartbeat_status b) b.

(** [app.use("/api/hub", authenticateHubLicense)] followed by
    [app.post("/api/hub/heartbeat", handler)]. *)
Definition postHeartbeatRoute : list Middleware := [authenticateHubLicense; hubHeartbeat].

(** ** Key and serial generators *)

(** One lowercase hexadecimal digit ([Buffer.prototype.toString('hex')]). *)
Definition hex_digit (n : N) : ascii :=
  ascii_of_N (if (n <? 10)%N then 48 + n else 87 + n)%N.

Definition byte_hex (b : Byte.byte) : string :=
  let n := Byte.to_N b in
  String (hex_digit (n / 16)%N) (String (hex_digit (n mod 16)%N) EmptyString).

Fixpoint hex_of_bytes (bs : list Byte.byte) : string :=
  match bs with
  | [] => EmptyString
  | b :: bs' => String.append (byte_hex b) (hex_of_bytes bs')
  end.

(** [generateApiKey()] and [generateLicenseKey()], given the bytes
    [crypto.randomBytes(32)] returned. *)
Definition generateApiKey (randomBytes : list Byte.byte) : string :=
  String.append "ak_" (hex_of_bytes randomBytes).

Definition generateLicenseKey (randomBytes : list Byte.byte) : string :=
  String.append "lk_" (hex_of_bytes randomBytes).

(** Reading hexadecimal text back into bytes. *)
Definition hex_value (c : ascii) : option N :=
  let n := N_of_ascii c in
  if ((48 <=? n) && (n <=? 57))%N then Some (n - 48)%N
  else if ((97 <=? n) && (n <=? 102))%N then Some (n - 87)%N
  else None.

Fixpoint bytes_of_hex (s : string) : option (list Byte.byte) :=
  match s with
  | EmptyString => Some []
  | String a (String b s') =>
      match hex_value a, hex_value b, bytes_of_hex s' with
      | Some x, Some y, Some bs =>
          match Byte.of_N (16 * x + y)%N with
          | Some byte => Some (byte :: bs)
          | None => None
          end
      | _, _, _ => None
      end
  | String _ EmptyString => None
  end.

Definition is_lower_hex (c : ascii) : bool :=
  match hex_value c with Some _ => true | None => false end.

(** [n.toString(36)] for a non-negative integer. *)
Definition digit36 (d : Z) : ascii :=
  if d <? 10 then ascii_of_nat (Z.to_nat (48 + d)) else ascii_of_nat (Z.to_nat (87 + d)).

Fixpoint base36_digits (fuel : nat) (n : Z) (acc : string) : string :=
  match fuel with
  | O => acc
  | S fuel' =>
      let acc' := String (digit36 (n mod 36)) acc in
      if n <? 36 then acc' else base36_digits fuel' (n / 36) acc'
  end.

Definition toString36 (n : Z) : string :=
  base36_digits (S (Z.to_nat (Z.log2 n))) n EmptyString.

Definition value36 (c : ascii) : option Z :=
  let n := Z.of_nat (nat_of_ascii c) in
  if (48 <=? n) && (n <=? 57) then Some (n - 48)
  else if (97 <=? n) && (n <=? 122) then Some (n - 87)
  else None.

Definition is_base36 (c : ascii) : bool :=
  match value36 c with Some _ => true | None => false end.

(** [parseInt(s, 36)] on text made of base-36 digits only, from an
    accumulated value. *)
Fixpoint parse36_from (s : string) (acc : Z) : option Z :=
  match s with
  | EmptyString => Some acc
  | String c s' =>
      match value36 c with
      | Some d => parse36_from s' (36 * acc + d)
      | None => None
      end
  end.

(** [String.prototype.toUpperCase] on ASCII letters. *)
Definition upper_ascii (c : ascii) : ascii :=
  let n := nat_of_ascii c in
  if (Nat.leb 97 n) && (Nat.leb n 122) then ascii_of_nat (n - 32) else c.

Fixpoint map_chars (f : ascii -> ascii) (s : string) : string :=
  match s with
  | EmptyString => EmptyString
  | String c s' => String (f c) (map_chars f s')
  end.

Fixpoint repeat_char (n : nat) (c : ascii) : string :=
  match n with
  | O => EmptyString
  | S n' => String c (repeat_char n' c)
  end.

(** [s.padStart(3, '0')] *)
Definition padStart3 (s : string) : string :=
  String.append (repeat_char (3 - String.length s) "0"%char) s.

(** [generateHubSerial(tenantSlug, sequence)] with [Date.now()] = [now]. *)
Definition generateHubSerial (tenantSlug : string) (sequence : Z) (now : Z) : string :=
  String.append "AO-"
    (String.append (map_chars upper_ascii tenantSlug)
      (String.append "-"
        (String.append (padStart3 (Z_to_string sequence))
          (String.append "-" (toString36 now))))).

(** ** [requirePermission] *)

Definition requirePermission (permission : string) : Middleware := fun st r =>
  let no_user :=
    (Fail 403 "User authentication required"
          "This endpoint requires user-level authentication", st) in
  match req_tenant r with
  | None => no_user
  | Some c =>
      match ctx_user c with
      | None => no_user
      | Some u =>
          if negb (existsb (String.eqb permission) (user_permissions u)) then
            (Fail 403 "Permission denied"
                  (String.append "This action requires '"
                                 (String.append permission "' permission")), st)
          else (Next r, st)
      end
  end.

(** ** [requireSubscriptionTier] *)

Definition tierHierarchy : list string := ["basic"; "pro"; "enterprise"].

Definition requireSubscriptionTier (minTier : string) : Middleware := fun st r =>
  match req_tenant r with
  | None => (Fail 403 "Authentication required" "Tenant authentication required", st)
  | Some c =>
      let tenantTierIndex := indexOf tierHierarchy (snap_subscriptionTier (ctx_tenant c)) in
      let requiredTierIndex := indexOf tierHierarchy minTier in
      if tenantTierIndex <? requiredTierIndex then
        (Fail 403 "Subscription upgrade required"
              (String.append "This feature requires "
                             (String.append minTier " subscription or higher")), st)
      else (Next r, st)
  end.

(** [app.use("/api/tenant", authenticateApiKey, rateLimitByTier)] followed by
    [app.get("/api/tenant/analytics/usage", requireSubscriptionTier("pro"), handler)],
    for any handler. *)
Definition analyticsRoute (handler : Middleware) : list Middleware :=
  [authenticateApiKey; rateLimitByTier; requireSubscriptionTier "pro"; handler].

(** ** [POST /api/tenants] (signup) *)

(** [String.prototype.toLowerCase] on Latin-1 characters: [A-Z] and
    [À-Þ] but the multiplication sign move up by 32.  Names are modelled
    as Latin-1 strings; outside Latin-1 [toLowerCase] can lengthen a
    string ([İ] gives [i] and a combining dot) or give an ASCII letter
    (the Kelvin sign gives [k]), which this model does not cover. *)
Definition js_lower (c : ascii) : ascii :=
  let n := nat_of_ascii c in
  if (Nat.leb 65 n && Nat.leb n 90)
     || (Nat.leb 192 n && Nat.leb n 222 && negb (Nat.eqb n 215))
  then ascii_of_nat (n + 32) else c.

(** Membership in the class [[a-z0-9]]. *)
Definition slug_char (c : ascii) : bool :=
  let n := nat_of_ascii c in
  (Nat.leb 97 n && Nat.leb n 122) || (Nat.leb 48 n && Nat.leb n 57).

(** [.replace(/[^a-z0-9]/g, '-')] *)
Definition dash_others (c : ascii) : ascii := if slug_char c then c else "-"%char.

(** [.replace(/-+/g, '-')]: every maximal run of dashes becomes one dash;
    [in_run] tells whether the previous character was a dash. *)
Fixpoint collapse_dashes (s : string) (in_run : bool) : string :=
  match s with
  | EmptyString => EmptyString
  | String c s' =>
      if Ascii.eqb c "-"%char then
        if in_run then collapse_dashes s' true else String c (collapse_dashes s' true)
      else String c (collapse_dashes s' false)
  end.

(** White space [String.prototype.trim] removes, among Latin-1 characters. *)
Definition js_space (c : ascii) : bool :=
  let n := nat_of_ascii c in
  (Nat.leb 9 n && Nat.leb n 13) || Nat.eqb n 32 || Nat.eqb n 160.

Fixpoint trim_start (s : string) : string :=
  match s with
  | EmptyString => EmptyString
  | String c s' => if js_space c then trim_start s' else s
  end.

Fixpoint rev_str (s : string) : string :=
  match s with
  | EmptyString => EmptyString
  | String c s' => String.append (rev_str s') (String c EmptyString)
  end.

(** [.trim('-')]: [trim] takes no argument, the ['-'] is ignored. *)
Definition js_trim (s : string) : string := rev_str (trim_start (rev_str (trim_start s))).

(** Characters a slug is made of, and the absence of two dashes in a row. *)
Definition slug_or_dash (c : ascii) : bool := slug_char c || Ascii.eqb c "-"%char.

Fixpoint no_double_dash (s : string) : bool :=
  match s with
  | String a ((String b _) as s') =>
      negb (Ascii.eqb a "-"%char && Ascii.eqb b "-"%char) && no_double_dash s'
  | _ => true
  end.

Definition starts_with_dash (s : string) : bool :=
  match s with String c _ => Ascii.eqb c "-"%char | EmptyString => false end.

Definition slugify (name : string) : string :=
  js_trim (collapse_dashes (map_chars dash_others (map_chars js_lower name)) false).

(** The fields of [req.body] the insert schema of [tenants] knows
    ([id], [createdAt], [updatedAt] and [apiKey] are omitted from it, so
    they are stripped from the body). *)
Record TenantBody := mkTenantBody {
  tb_name : option string;
  tb_slug : option string;
  tb_subscriptionTier : option string;
  tb_maxHubs : option Z;
  tb_maxCameras : option Z;
  tb_status : option string;
  tb_billingEmail : option string;
  tb_contactPhone : option string;
  tb_address : option (list string);
  tb_settings : option (list string)
}.

(** [insertTenantSchema.parse(req.body)]: [name] and [slug] are not null
    without a default, hence required; varchar columns are bounded by
    their length, integer columns by the 32-bit range. *)
Definition parseInsertTenant (b : TenantBody) : option TenantBody :=
  match tb_name b, tb_slug b with
  | Some n, Some s =>
      if fits 255 (Some n) && fits 100 (Some s) && fits 50 (tb_subscriptionTier b)
         && fits 20 (tb_status b) && fits 255 (tb_billingEmail b) && fits 50 (tb_contactPhone b)
         && int32_ok (tb_maxHubs b) && int32_ok (tb_maxCameras b)
      then Some b else None
  | _, _ => None
  end.

(** The [INSERT INTO tenants] of the row [t] with the other columns of
    the validated body [v]: [tenants.slug] is [varchar(100)] and
    [api_key] [varchar(128)], text holds no NUL, [slug] and [api_key]
    are unique. *)
Definition insert_tenant (st : Store) (v : TenantBody) (t : Tenant) : DbResult Store :=
  if negb (fits 100 (Some (tenant_slug t)) && fits 128 (Some (tenant_apiKey t))) then
    DbError "value too long for type character varying"
  else if negb (pg_text_ok (tenant_name t) && pg_text_ok (tenant_slug t)
                && pg_text_ok (tenant_apiKey t) && pg_text_ok (tenant_subscriptionTier t)
                && pg_text_ok (tenant_status t)
                && pg_opt_text_ok (tb_billingEmail v) && pg_opt_text_ok (tb_contactPhone v)
                && json_strings_ok (tb_address v) && json_strings_ok (tb_settings v)) then
    DbError "invalid byte sequence for encoding UTF8: 0x00"
  else if existsb (fun x => String.eqb (tenant_slug x) (tenant_slug t)
                            || String.eqb (tenant_apiKey x) (tenant_apiKey t)) (tenants st)
  then DbError "duplicate key value violates unique constraint"
  else DbOk (add_tenant st t).

(** The handler, given the value [generateApiKey()] returned. *)
Definition createTenant (apiKey : string) (b : TenantBody) (st : Store) : Outcome * Store :=
  match parseInsertTenant b with
  | None => (Fail 400 "Validation error" "", st)
  | Some v =>
      let name := opt_default (tb_name v) "" in
      let slug := slugify name in
      if existsb (fun t => String.eqb (tenant_slug t) slug) (tenants st) then
        (Fail 400 "Tenant name already exists" "Please choose a different company name", st)
      else
        let t := {| tenant_id := next_serial (map tenant_id (tenants st));
                    tenant_name := name; tenant_slug := slug; tenant_apiKey := apiKey;
                    tenant_subscriptionTier := opt_default (tb_subscriptionTier v) "basic";
                    tenant_maxHubs := opt_default (tb_maxHubs v) 5;
                    tenant_maxCameras := opt_default (tb_maxCameras v) 50;
                    tenant_status := "active" |} in
        match insert_tenant st v t with
        | DbOk st' => (Done 201 "Tenant created successfully. Save your API key securely!", st')
        | DbError _ => (Fail 500 "Failed to create tenant" "", st)
        end
  end.

(** The text of a signup as the [INSERT] sends it: the generated key fits
    [varchar(128)], and no string of the row holds a NUL. *)
Definition signup_text_ok (apiKey : string) (b : TenantBody) : bool :=
  fits 128 (Some apiKey) && pg_text_ok apiKey && pg_opt_text_ok (tb_name b)
  && pg_opt_text_ok (tb_subscriptionTier b) && pg_opt_text_ok (tb_billingEmail b)
  && pg_opt_text_ok (tb_contactPhone b) && json_strings_ok (tb_address b)
  && json_strings_ok (tb_settings b).

(** ** Hub ingestion: [POST /api/hub/cameras] and [POST /api/hub/events] *)

(** The [cameras] and [events] tables, next to the tables above. *)
Record CameraRow := mkCameraRow {
  cam_id : Z;
  cam_tenantId : Z;
  cam_hubId : Z;
  cam_name : string;
  cam_ipAddress : string;
  cam_status : string
}.

Record EventRow := mkEventRow {
  ev_id : Z;
  ev_tenantId : Z;
  ev_hubId : Z;
  ev_type : string;
  ev_severity : string;
  ev_title : string;
  ev_timestamp : Z
}.

Record HubStore := mkHubStore {
  hs_db : Store;
  hs_cameras : list CameraRow;
  hs_events : list EventRow
}.

(** An element of [req.body.cameras] / [req.body.events]: the columns it
    may carry, [tenantId] and [hubId] included (they are overwritten by
    the spread [{...camera, tenantId, hubId}]). *)
Record CameraInput := mkCameraInput {
  ci_tenantId : option Z;
  ci_hubId : option Z;
  ci_name : option string;
  ci_ipAddress : option string;
  ci_status : option string
}.

Record EventInput := mkEventInput {
  ei_tenantId : option Z;
  ei_hubId : option Z;
  ei_type : option string;
  ei_severity : option string;
  ei_title : option string;
  ei_timestamp : option Z
}.

(** [SELECT * FROM hubs WHERE tenant_id = tid AND serial_number = hs], first row. *)
Definition find_hub (st : Store) (tid : Z) (hs : string) : option HubRow :=
  find (fun h => (hub_tenantId h =? tid) && String.eqb (hub_serialNumber h) hs) (tenantsHubs st).

(** The value a [count( * )] column has in JavaScript: [bigint] comes back
    from the PostgreSQL driver as its decimal text ([count_as_text]), or as
    a number from a driver that converts it. *)
Definition pg_count (count_as_text : bool) (n : Z) : JsVal :=
  if count_as_text then JStr (Z_to_string n) else JNum n.

(** JavaScript [v + k] for a number [k]. *)
Definition js_add_num (v : JsVal) (k : Z) : JsVal :=
  match v with
  | JNum n => JNum (n + k)
  | JStr s => JStr (String.append s (Z_to_string k))
  | other => other
  end.

(** [Number(s)] on a string of decimal digits (NaN otherwise). *)
Definition js_number_of_string (s : string) : option Z :=
  match list_ascii_of_string s with
  | [] => Some 0
  | cs => parse_digits cs 0
  end.

(** JavaScript [v > m] for a number [m]; a comparison with NaN is false. *)
Definition js_gt_num (v : JsVal) (m : Z) : bool :=
  match v with
  | JNum n => n >? m
  | JStr s => match js_number_of_string s with Some n => n >? m | None => false end
  | _ => false
  end.

(** The multi-row [INSERT INTO cameras]: one statement, so one bad row
    rejects all of them; Drizzle refuses an empty [values([])] before
    sending anything. *)
Definition camera_row_of (tid hubId id : Z) (ci : CameraInput) : option CameraRow :=
  match ci_name ci, ci_ipAddress ci with
  | Some n, Some ip =>
      if fits 255 (Some n) && fits 45 (Some ip) && fits 50 (ci_status ci)
         && pg_text_ok n && pg_text_ok ip && pg_opt_text_ok (ci_status ci) then
        Some {| cam_id := id; cam_tenantId := tid; cam_hubId := hubId; cam_name := n;
                cam_ipAddress := ip; cam_status := opt_default (ci_status ci) "offline" |}
      else None
  | _, _ => None
  end.

Fixpoint camera_rows (tid hubId id : Z) (cs : list CameraInput) : option (list CameraRow) :=
  match cs with
  | [] => Some []
  | ci :: cs' =>
      match camera_row_of tid hubId id ci, camera_rows tid hubId (id + 1) cs' with
      | Some row, Some rows => Some (row :: rows)
      | _, _ => None
      end
  end.

Definition insert_cameras (rows : list CameraRow) (tid hubId : Z) (cs : list CameraInput)
    : DbResult (list CameraRow) :=
  match cs with
  | [] => DbError "values() must be called with at least one value"
  | _ =>
      match camera_rows tid hubId (next_serial (map cam_id rows)) cs with
      | Some new => DbOk (app rows new)
      | None => DbError "a row is refused"
      end
  end.

(** An event giving its own [timestamp] (a JSON value, never a [Date])
    makes Drizzle's [timestamp] column call [toISOString] on it, which
    throws: the statement is never sent. *)
Definition event_row_of (tid hubId id now : Z) (ei : EventInput) : option EventRow :=
  match ei_type ei, ei_severity ei, ei_title ei, ei_timestamp ei with
  | Some ty, Some sev, Some ti, None =>
      if fits 100 (Some ty) && fits 20 (Some sev) && fits 255 (Some ti)
         && pg_text_ok ty && pg_text_ok sev && pg_text_ok ti then
        Some {| ev_id := id; ev_tenantId := tid; ev_hubId := hubId; ev_type := ty;
                ev_severity := sev; ev_title := ti; ev_timestamp := now |}
      else None
  | _, _, _, _ => None
  end.

Fixpoint event_rows (tid hubId id now : Z) (es : list EventInput) : option (list EventRow) :=
  match es with
  | [] => Some []
  | ei :: es' =>
      match event_row_of tid hubId id now ei, event_rows tid hubId (id + 1) now es' with
      | Some row, Some rows => Some (row :: rows)
      | _, _ => None
      end
  end.

Definition insert_events (rows : list EventRow) (tid hubId now : Z) (es : list EventInput)
    : DbResult (list EventRow) :=
  match es with
  | [] => DbError "values() must be called with at least one value"
  | _ =>
      match event_rows tid hubId (next_serial (map ev_id rows)) now es with
      | Some new => DbOk (app rows new)
      | None => DbError "a row is refused"
      end
  end.

Definition with_cameras (hst : HubStore) (cs : list CameraRow) : HubStore :=
  mkHubStore (hs_db hst) cs (hs_events hst).

Definition with_events (hst : HubStore) (es : list EventRow) : HubStore :=
  mkHubStore (hs_db hst) (hs_cameras hst) es.

(** [SELECT count( * ) FROM cameras WHERE tenant_id = tid] *)
Definition camera_count (hst : HubStore) (tid : Z) : Z :=
  Z.of_nat (length (filter (fun c => cam_tenantId c =? tid) (hs_cameras hst))).

(** The camera handler; [cameras] is [req.body.cameras] ([None] when the
    body has no such field, and [cameras.length] throws). *)
Definition addCameras (count_as_text : bool) (cameras : option (list CameraInput))
    (hst : HubStore) (r : Request) : Outcome * HubStore :=
  let internal := (Fail 500 "Failed to add cameras" "", hst) in
  match req_tenant r, hdr_x_hub_serial r with
  | Some c, Some hubSerial =>
      match find_hub (hs_db hst) (ctx_tenantId c) hubSerial with
      | None => (Fail 404 "Hub not found" "", hst)
      | Some hub =>
          match cameras with
          | None => internal
          | Some cs =>
              let maxCameras := snap_maxCameras (ctx_tenant c) in
              let existing := pg_count count_as_text (camera_count hst (ctx_tenantId c)) in
              if js_gt_num (js_add_num existing (Z.of_nat (length cs))) maxCameras then
                (Fail 400 "Camera limit exceeded"
                      (String.append "Your subscription allows maximum "
                                     (String.append (Z_to_string maxCameras) " cameras")), hst)
              else
                match insert_cameras (hs_cameras hst) (ctx_tenantId c) (hub_id hub) cs with
                | DbOk rows => (Done 201 "cameras", with_cameras hst rows)
                | DbError _ => internal
                end
          end
      end
  | _, _ => internal
  end.

Definition addEvents (events : option (list EventInput)) (hst : HubStore) (r : Request)
    : Outcome * HubStore :=
  let internal := (Fail 500 "Failed to add events" "", hst) in
  match req_tenant r, hdr_x_hub_serial r with
  | Some c, Some hubSerial =>
      match find_hub (hs_db hst) (ctx_tenantId c) hubSerial with
      | None => (Fail 404 "Hub not found" "", hst)
      | Some hub =>
          match events with
          | None => internal
          | Some es =>
              match insert_events (hs_events hst) (ctx_tenantId c) (hub_id hub) (req_now r) es with
              | DbOk rows => (Done 201 "events", with_events hst rows)
              | DbError _ => internal
              end
          end
      end
  | _, _ => internal
  end.

(** ** [GET /api/tenant/events] *)

(** [parseInt(q)] on an ASCII query value: leading white space, an
    optional sign, then the longest run of decimal digits; [None] is NaN. *)
Fixpoint digits_prefix (s : string) (acc : Z) (seen : bool) : option Z :=
  match s with
  | String c s' =>
      let d := Z.of_nat (nat_of_ascii c) - 48 in
      if (0 <=? d) && (d <=? 9) then digits_prefix s' (10 * acc + d) true
      else if seen then Some acc else None
  | EmptyString => if seen then Some acc else None
  end.

(** The number nearest to an integer among doubles (ties to even): the
    integer itself below [2^53], a multiple of [2^(log2 |n| - 52)] above. *)
Definition round_double (n : Z) : Z :=
  let a := Z.abs n in
  if a <? 2 ^ 53 then n
  else
    let e := Z.log2 a - 52 in
    let q := a / 2 ^ e in
    let rm := a mod 2 ^ e in
    let h := 2 ^ (e - 1) in
    let q' := if rm <? h then q else if h <? rm then q + 1 else if Z.even q then q else q + 1 in
    Z.sgn n * (q' * 2 ^ e).

Definition parseInt (q : option string) : option Z :=
  match q with
  | None => None
  | Some s =>
      option_map round_double
        match trim_start s with
        | String "-"%char s' => option_map Z.opp (digits_prefix s' 0 false)
        | String "+"%char s' => digits_prefix s' 0 false
        | s' => digits_prefix s' 0 false
        end
  end.

(** [parseInt(q) || d]: NaN and 0 are falsy. *)
Definition parseInt_or (q : option string) (d : Z) : Z :=
  match parseInt q with
  | Some n => if n =? 0 then d else n
  | None => d
  end.

(** [ORDER BY timestamp DESC] (an insertion sort; rows with equal
    timestamps keep their storage order). *)
Fixpoint insert_desc (e : EventRow) (es : list EventRow) : list EventRow :=
  match es with
  | [] => [e]
  | x :: es' => if ev_timestamp x <? ev_timestamp e then e :: es else x :: insert_desc e es'
  end.

Definition sort_desc (es : list EventRow) : list EventRow := fold_right insert_desc [] es.

(** The [WHERE] of the events query: the tenant's rows, of the given
    severity when [severity] is truthy. *)
Definition event_matches (c : TenantContext) (severity_q : option string) (e : EventRow) : bool :=
  (ev_tenantId e =? ctx_tenantId c)
  && (if truthy_str severity_q
      then String.eqb (ev_severity e) (opt_default severity_q "")
      else true).

(** [query.orderBy(...).limit(limit).offset(offset)]: Drizzle writes
    [LIMIT] only for a number [>= 0] and [OFFSET] only for a truthy one,
    as a [bigint] parameter; PostgreSQL refuses a value out of the
    [bigint] range and a negative [OFFSET]. *)
Definition listEvents (hst : HubStore) (r : Request) (limit_q offset_q severity_q : option string)
    : DbResult (list EventRow) :=
  match req_tenant r with
  | None => DbError "Cannot read properties of undefined"
  | Some c =>
      let limit := parseInt_or limit_q 50 in
      let offset := parseInt_or offset_q 0 in
      let rows := sort_desc (filter (event_matches c severity_q) (hs_events hst)) in
      if (0 <=? limit) && (2 ^ 63 <=? limit) then DbError "bigint out of range"
      else if offset <? 0 then DbError "OFFSET must not be negative"
      else if 2 ^ 63 <=? offset then DbError "bigint out of range"
      else
        let after := skipn (Z.to_nat offset) rows in
        DbOk (if limit <? 0 then after else firstn (Z.to_nat limit) after)
  end.

(** The order of [orderBy(desc(tenantsEvents.timestamp))]. *)
Definition newer_first (a b : EventRow) : Prop := ev_timestamp b <= ev_timestamp a.

(** Proof automation for the tier table. *)
Ltac tier_in := unfold tierHierarchy; simpl; repeat (first [left; reflexivity | right]).

Ltac tier_solve :=
  first [ reflexivity | discriminate | assumption | tauto | contradiction
        | match goal with E : ?t = _ |- In ?t _ => rewrite E; tier_in end
        | match goal with E : ?t = _ |- context [?t] =>
            rewrite E; repeat (first [left; reflexivity | right]) end
        | match goal with N : ~ In _ _, H : _ = _ \/ _ |- _ =>
            exfalso; apply N; unfold tierHierarchy; simpl; exact H end
        | match goal with E : ?t = _, H : ?t = _ \/ ?t = _ |- _ =>
            rewrite E in H; destruct H as [H|H]; discriminate end
        | match goal with E : ?t = _, H : ?t = _ |- _ => rewrite E in H; discriminate end
        | match goal with N : ~ In ?t _, H : ?t = _ \/ ?t = _ |- _ =>
            exfalso; apply N; destruct H as [H|H]; rewrite H; tier_in end
        | match goal with N : ~ In ?t _, H : ?t = _ |- _ =>
            exfalso; apply N; rewrite H; tier_in end ].

(** ** Sample data *)

Definition empty_body : Body :=
  mkBody None None None None None None None None None None None None None.

(** A request made at 2023-11-14 with the given credentials, body and endpoint. *)
Definition sample_request (apiKey licenseKey hubSerial : option string) (endpoint : string)
    (b : Body) : Request :=
  mkRequest apiKey None licenseKey hubSerial "POST" endpoint 1700000000000 "2023-11" b None [].

Definition acme : Tenant :=
  mkTenant 1 "Acme Security" "acme-security" "ak_acme" "pro" 1 50 "active".

Definition acme_suspended : Tenant :=
  mkTenant 1 "Acme Security" "acme-security" "ak_acme" "pro" 1 50 "suspended".

Definition tostring_tenant : Tenant :=
  mkTenant 2 "Proto" "proto" "ak_proto" "toString" 5 50 "active".

Definition acme_license (n : Z) (serial key : string) : HubLicense :=
  mkHubLicense n 1 serial key None None "active" 16 None.

(** Acme holds two active licenses while its cap is one hub. *)
Definition acme_store : Store :=
  mkStore [acme; tostring_tenant]
          [acme_license 1 "AO-ACME-SECURITY-001-a" "lk_one";
           acme_license 2 "AO-ACME-SECURITY-002-b" "lk_two"]
          [] [] eq_refl.

Definition license_body : Body :=
  mkBody None None None None (Some 1) (Some "AO-ACME-SECURITY-003-c") (Some "Main Office Hub")
         None None (Some 16) None None None.

Definition heartbeat_request (serial key : string) : Request :=
  sample_request None (Some key) (Some serial) "/heartbeat" empty_body.

Definition suspended_store : Store := mkStore [acme_suspended] [] [] [] eq_refl.

Definition manager_context : TenantContext :=
  mkTenantContext 1 (snapshot_of acme) (Some (mkTenantUser 7 "m@acme.com" "manager" [])).

Definition manager_request : Request :=
  set_tenant (sample_request (Some "ak_acme") None None "/hub-licenses" empty_body) manager_context.

Definition guest_context : TenantContext :=
  mkTenantContext 1 (snapshot_of acme) (Some (mkTenantUser 8 "g@acme.com" "guest" [])).

Definition expired_license : HubLicense :=
  mkHubLicense 9 1 "AO-ACME-SECURITY-009-z" "lk_old" None None "active" 16 (Some 1600000000000).

Definition expired_store : Store := mkStore [acme] [expired_license] [] [] eq_refl.

Definition revoked_license : HubLicense :=
  mkHubLicense 9 1 "AO-ACME-SECURITY-009-z" "lk_old" None None "revoked" 16 None.

Definition revoked_store : Store := mkStore [acme] [revoked_license] [] [] eq_refl.

(** [then_mw m1 m2]: [m1] followed by [m2], as a path prefix's
    middleware followed by the route's own. *)
Definition then_mw (m1 m2 : Middleware) : Middleware := fun st r =>
  match m1 st r with
  | (Next r', st') => m2 st' r'
  | res => res
  end.

Definition acme_context : TenantContext := mkTenantContext 1 (snapshot_of acme) None.

Definition admin_api_request : Request :=
  sample_request (Some "ak_acme") None None "/hub-licenses" license_body.

(** A signup body with a name and, optionally, a slug. *)
Definition signup_body (name : string) (slug : option string) : TenantBody :=
  mkTenantBody (Some name) slug None None None None None None None None.

(** A request carrying only an [X-API-Key] header. *)
Definition key_request (k : string) : Request :=
  sample_request (Some k) None None "/info" empty_body.

(** A handler answering 200, standing for the usage query. *)
Definition analytics_handler : Middleware := fun st _ => (Done 200 "usage", st).

(** Acme's hub, known under its first license's serial. *)
Definition acme_hub : HubRow :=
  mkHubRow 1 1 "Hub-a" "AO-ACME-SECURITY-001-a" "online" (Some 1690000000000) None None.

Definition acme_camera (n : Z) : CameraRow := mkCameraRow n 1 1 "Cam" "10.0.0.9" "online".

(** The store with Acme's hub and [n] cameras of Acme. *)
Definition hub_store (n : nat) : HubStore :=
  mkHubStore (with_tenantsHubs acme_store [acme_hub])
             (map (fun i => acme_camera (Z.of_nat i)) (seq 1 n)) [].

(** A camera report naming some other tenant and hub. *)
Definition camera_input (name : string) : CameraInput :=
  mkCameraInput (Some 99) (Some 42) (Some name) (Some "10.0.0.5") None.

Definition event_input (title : string) : EventInput :=
  mkEventInput (Some 99) (Some 42) (Some "motion") (Some "high") (Some title) None.

(** A hub request once [authenticateHubLicense] has set Acme's context. *)
Definition hub_request (serial : string) : Request :=
  set_tenant (heartbeat_request serial "lk_one") acme_context.

(** A license that expires exactly at the time of the sample requests. *)
Definition boundary_license : HubLicense :=
  mkHubLicense 9 1 "AO-ACME-SECURITY-009-z" "lk_edge" None None "active" 16 (Some 1700000000000).

Definition boundary_store : Store := mkStore [acme] [boundary_license] [] [] eq_refl.

(** A request with both an [X-API-Key] header and an [api_key] query value. *)
Definition two_key_request (header query : string) : Request :=
  mkRequest (Some header) (Some query) None None "GET" "/info" 1700000000000 "2023-11"
            empty_body None [].

(** A context for a tenant whose tier is not in the rate-limit table. *)
Definition free_context : TenantContext :=
  mkTenantContext 3 (mkSnapshot 3 "Free" "free" "free" 5 50 "active") None.

(** A heartbeat from Acme's registered hub reporting status and address. *)
Definition status_request (status : option string) : Request :=
  set_tenant (sample_request None (Some "lk_one") (Some "AO-ACME-SECURITY-001-a") "/heartbeat"
                (mkBody status (Some "10.0.0.2") None None None None None None None None None None None))
             acme_context.

(** A store where Acme has no license yet. *)
Definition beta_store : Store := mkStore [acme] [] [] [] eq_refl.

Definition beta_request : Request :=
  set_tenant (sample_request (Some "ak_acme") None None "/hub-licenses" license_body) acme_context.

(** The license issuance of the integration guide: only an [X-API-Key]
    header, and a body with [hubName], [deploymentLocation] and
    [maxCameras]. *)
Definition guide_body : Body :=
  mkBody None None None None None None (Some "Main Office Hub") (Some "123 Main St, Anytown USA")
         None (Some 16) None None None.

Definition guide_request : Request :=
  sample_request (Some "ak_acme") None None "/hub-licenses" guide_body.

(** An administrator of Acme, as a user-level authentication would set it. *)
Definition admin_context : TenantContext :=
  mkTenantContext 1 (snapshot_of acme) (Some (mkTenantUser 1 "admin@acme.com" "admin" [])).

(** A tier holding a line feed: signup takes any tier of at most 50
    characters. *)
Definition newline_tier : string := String.append "basic" (String (ascii_of_nat 10) EmptyString).

Definition newline_signup : TenantBody :=
  mkTenantBody (Some "Newline Co") (Some "newline-co") (Some newline_tier)
               None None None None None None None.

(** ** Stores with some rows left out, to compare against *)

Definition drop_tenants_with_key (st : Store) (k : string) : Store :=
  mkStore (filter (fun t => negb (String.eqb (tenant_apiKey t) k)) (tenants st))
          (hubLicenses st) (tenantsHubs st) (apiUsage st)
          (tenant_keys_ok_filter _ _ (tenants_keys_ok st)).

Definition drop_licenses_with_key (st : Store) (lk : string) : Store :=
  mkStore (tenants st)
          (filter (fun l => negb (String.eqb (lic_licenseKey l) lk)) (hubLicenses st))
          (tenantsHubs st) (apiUsage st) (tenants_keys_ok st).

(** The schema's uniqueness of [hub_licenses.license_key] and the
    primary key [tenants.id]. *)
Definition license_key_unique (st : Store) (l : HubLicense) : Prop :=
  forall l', In l' (hubLicenses st) -> lic_licenseKey l' = lic_licenseKey l -> l' = l.

Definition tenant_id_unique (st : Store) (t : Tenant) : Prop :=
  forall t', In t' (tenants st) -> tenant_id t' = tenant_id t -> t' = t.

Example Z_to_string_42 : Z_to_string 42 = "42".
Proof. reflexivity. Qed.

Example indexOf_admin : indexOf roleHierarchy "admin" = 3 /\ indexOf roleHierarchy "owner" = -1.
Proof. split; reflexivity. Qed.

Example after_last_dash_serial : after_last_dash "AO-ACME-001-xyz" "" = "xyz".
Proof. reflexivity. Qed.

Example tierLimit_table :
  tierLimit "basic" = JNum 100 /\ tierLimit "pro" = JNum 500
  /\ tierLimit "enterprise" = JNum 2000 /\ tierLimit "gold" = JNum 100.
Proof. repeat split; reflexivity. Qed.

Example apiKey_auth_sample :
  fst (authenticateApiKey acme_store (sample_request (Some "ak_acme") None None "/info" empty_body))
  = Next (set_tenant (sample_request (Some "ak_acme") None None "/info" empty_body)
                     (mkTenantContext 1 (snapshot_of acme) None)).
Proof. reflexivity. Qed.

Example heartbeat_sample :
  length (tenantsHubs (snd (run_chain postHeartbeatRoute acme_store
                                (heartbeat_request "AO-ACME-SECURITY-001-a" "lk_one")))) = 1%nat.
Proof. reflexivity. Qed.

(** ** General lemmas *)

Lemma find_none_intro {A : Type} (f : A -> bool) (l : list A) :
  (forall x, In x l -> f x = false) -> find f l = None.
Proof.
  induction l as [|a l IH]; intros H; simpl; [reflexivity|].
  rewrite (H a (or_introl eq_refl)). apply IH. intros x Hx. apply H. now right.
Qed.

Lemma find_unique_match {A : Type} (f : A -> bool) (l : list A) (x : A) :
  In x l -> f x = true -> (forall y, In y l -> f y = true -> y = x) -> find f l = Some x.
Proof.
  intros Hin Hfx Huniq.
  destruct (find f l) as [y|] eqn:Hfind.
  - apply find_some in Hfind as [Hy Hfy]. now rewrite (Huniq y Hy Hfy).
  - exfalso. pose proof (find_none f l Hfind x Hin) as Hc. congruence.
Qed.

Lemma all_chars_app (p : ascii -> bool) (s1 s2 : string) :
  all_chars p (String.append s1 s2) = all_chars p s1 && all_chars p s2.
Proof.
  induction s1 as [|c s1 IH]; simpl; [reflexivity|]. rewrite IH. apply andb_assoc.
Qed.

Lemma string_length_app (s1 s2 : string) :
  String.length (String.append s1 s2) = (String.length s1 + String.length s2)%nat.
Proof. induction s1 as [|c s1 IH]; simpl; [reflexivity|]. now rewrite IH. Qed.

(** The usage statement is always rejected by the store. *)
Lemma usage_upsert_rejected (v : JsVal) (row : ApiUsageRow) (rows : list ApiUsageRow) :
  apiUsage_insert_on_conflict_do_update usage_target v row rows
  = DbError "there is no unique or exclusion constraint matching the ON CONFLICT specification".
Proof. reflexivity. Qed.

Lemma trackApiUsage_store (st : Store) (r : Request) (tenantId : Z) :
  trackApiUsage st r tenantId = st.
Proof. unfold trackApiUsage. rewrite usage_upsert_rejected. reflexivity. Qed.

Lemma findActiveByApiKey_inactive (st : Store) (t : Tenant) :
  tenant_status t <> "active" ->
  (forall t', In t' (tenants st) -> tenant_apiKey t' = tenant_apiKey t -> t' = t) ->
  findActiveByApiKey st (tenant_apiKey t) = None.
Proof.
  intros Hst Huniq. unfold findActiveByApiKey. apply find_none_intro.
  intros t' Hin.
  destruct (String.eqb (tenant_apiKey t') (tenant_apiKey t)) eqn:Hk; [|reflexivity].
  apply String.eqb_eq in Hk. rewrite (Huniq t' Hin Hk). simpl.
  apply String.eqb_neq. exact Hst.
Qed.

Lemma findActiveByApiKey_dropped (st : Store) (k : string) :
  findActiveByApiKey (drop_tenants_with_key st k) k = None.
Proof.
  unfold findActiveByApiKey, drop_tenants_with_key; simpl.
  apply find_none_intro. intros t Hin. apply filter_In in Hin as [_ Hk].
  destruct (String.eqb (tenant_apiKey t) k); [discriminate|reflexivity].
Qed.

(** Stored API keys hold no NUL. *)
Lemma tenant_key_text (st : Store) (t : Tenant) :
  In t (tenants st) -> pg_text_ok (tenant_apiKey t) = true.
Proof.
  intros Hin. pose proof (tenants_keys_ok st) as H. unfold tenant_keys_ok in H.
  rewrite forallb_forall in H. exact (H t Hin).
Qed.

Lemma findActiveByApiKey_text (st : Store) (k : string) (t : Tenant) :
  findActiveByApiKey st k = Some t -> pg_text_ok k = true.
Proof.
  unfold findActiveByApiKey. intros H. apply find_some in H as [Hin Hf].
  apply andb_prop in Hf as [Hk _]. apply String.eqb_eq in Hk. subst k.
  exact (tenant_key_text st t Hin).
Qed.

Lemma authenticateApiKey_lookup (st : Store) (r : Request) (k : string) :
  extractApiKey r = Some k -> (truthy_str (hdr_x_api_key r) || pg_text_ok k) = true ->
  authenticateApiKey st r
  = match findActiveByApiKey st k with
    | None => (Fail 401 "Invalid API key" "API key not found or tenant is inactive", st)
    | Some t =>
        let r' := set_tenant r (mkTenantContext (tenant_id t) (snapshot_of t) None) in
        (Next r', trackApiUsage st r' (tenant_id t))
    end.
Proof. intros Hk Hb. unfold authenticateApiKey. rewrite Hk, Hb. reflexivity. Qed.

Lemma authenticateApiKey_not_found (st : Store) (r : Request) (k : string) :
  extractApiKey r = Some k -> (truthy_str (hdr_x_api_key r) || pg_text_ok k) = true ->
  findActiveByApiKey st k = None ->
  authenticateApiKey st r
  = (Fail 401 "Invalid API key" "API key not found or tenant is inactive", st).
Proof. intros Hk Hb Hf. rewrite (authenticateApiKey_lookup st r k Hk Hb), Hf. reflexivity. Qed.

(** An API key of a tenant that is not active is answered as an unknown key is. *)
Lemma authenticateApiKey_inactive_as_absent (st : Store) (r : Request) (t : Tenant) :
  tenant_status t <> "active" ->
  (forall t', In t' (tenants st) -> tenant_apiKey t' = tenant_apiKey t -> t' = t) ->
  extractApiKey r = Some (tenant_apiKey t) ->
  fst (authenticateApiKey st r)
  = fst (authenticateApiKey (drop_tenants_with_key st (tenant_apiKey t)) r).
Proof.
  intros Hst Huniq Hk. unfold authenticateApiKey. rewrite Hk.
  destruct (truthy_str (hdr_x_api_key r) || pg_text_ok (tenant_apiKey t)); [|reflexivity].
  rewrite (findActiveByApiKey_inactive st t Hst Huniq), findActiveByApiKey_dropped.
  reflexivity.
Qed.

Lemma indexOf_lower_bound (l : list string) (x : string) : -1 <= indexOf l x.
Proof.
  induction l as [|y l IH]; simpl; [lia|].
  destruct (String.eqb y x); [lia|].
  destruct (indexOf l x <? 0) eqn:H; [lia|]. apply Z.ltb_ge in H. lia.
Qed.

Lemma indexOf_not_in (l : list string) (x : string) : ~ In x l -> indexOf l x = -1.
Proof.
  induction l as [|y l IH]; intros Hn; simpl; [reflexivity|].
  destruct (String.eqb y x) eqn:Hyx.
  - apply String.eqb_eq in Hyx. exfalso. apply Hn. now left.
  - rewrite IH by (intros H; apply Hn; now right). reflexivity.
Qed.

Lemma requireRole_with_user (minRole : string) (st : Store) (r : Request)
    (c : TenantContext) (u : TenantUser) :
  req_tenant r = Some c -> ctx_user c = Some u ->
  requireRole minRole st r
  = if indexOf roleHierarchy (user_role u) <? indexOf roleHierarchy minRole then
      (Fail 403 "Insufficient permissions"
            (String.append "This action requires " (String.append minRole " role or higher")), st)
    else (Next r, st).
Proof. intros Hc Hu. unfold requireRole. rewrite Hc, Hu. reflexivity. Qed.

Lemma truthy_some (s : string) : s <> "" -> truthy_str (Some s) = true.
Proof.
  intros H. simpl. destruct (String.eqb s "") eqn:E; [|reflexivity].
  apply String.eqb_eq in E. contradiction.
Qed.

Lemma license_join_In (st : Store) (l : HubLicense) (t : Tenant) :
  In l (hubLicenses st) -> In t (tenants st) -> tenant_id t = lic_tenantId l ->
  In (l, t) (license_join st).
Proof.
  intros Hl Ht Hid. unfold license_join. apply in_flat_map. exists l. split; [exact Hl|].
  apply in_map. apply filter_In. split; [exact Ht|]. apply Z.eqb_eq. exact Hid.
Qed.

Lemma license_join_inv (st : Store) (l : HubLicense) (t : Tenant) :
  In (l, t) (license_join st) ->
  In l (hubLicenses st) /\ In t (tenants st) /\ tenant_id t = lic_tenantId l.
Proof.
  unfold license_join. intros H. apply in_flat_map in H as [l' [Hl' Hm]].
  apply in_map_iff in Hm as [t' [Heq Ht']]. injection Heq as <- <-.
  apply filter_In in Ht' as [Ht' Hid]. apply Z.eqb_eq in Hid. auto.
Qed.

Lemma findActiveByKeyAndSerial_found (st : Store) (l : HubLicense) (t : Tenant) :
  In l (hubLicenses st) -> In t (tenants st) -> tenant_id t = lic_tenantId l ->
  lic_status l = "active" -> tenant_status t = "active" ->
  license_key_unique st l -> tenant_id_unique st t ->
  findActiveByKeyAndSerial st (lic_licenseKey l) (lic_hubSerial l) = Some (l, t).
Proof.
  intros Hl Ht Hid Hls Hts Hlu Htu. unfold findActiveByKeyAndSerial.
  apply find_unique_match.
  - apply license_join_In; assumption.
  - unfold license_row_matches. rewrite Hls, Hts, !String.eqb_refl. reflexivity.
  - intros [l' t'] Hin Hm. apply license_join_inv in Hin as [Hl' [Ht' Hid']].
    unfold license_row_matches in Hm.
    apply andb_prop in Hm as [Hm _]. apply andb_prop in Hm as [Hm _].
    apply andb_prop in Hm as [Hk _]. apply String.eqb_eq in Hk.
    pose proof (Hlu l' Hl' Hk) as ->.
    rewrite (Htu t' Ht' (eq_trans Hid' (eq_sym Hid))). reflexivity.
Qed.

Lemma findActiveByKeyAndSerial_inactive (st : Store) (l : HubLicense) (t : Tenant) (hs : string) :
  In t (tenants st) -> tenant_id t = lic_tenantId l ->
  lic_status l <> "active" \/ tenant_status t <> "active" ->
  license_key_unique st l -> tenant_id_unique st t ->
  findActiveByKeyAndSerial st (lic_licenseKey l) hs = None.
Proof.
  intros Ht Hid Hinact Hlu Htu. unfold findActiveByKeyAndSerial.
  apply find_none_intro. intros [l' t'] Hin. apply license_join_inv in Hin as [Hl' [Ht' Hid']].
  unfold license_row_matches.
  destruct (String.eqb (lic_licenseKey l') (lic_licenseKey l)) eqn:Hk; [|reflexivity].
  apply String.eqb_eq in Hk. pose proof (Hlu l' Hl' Hk) as ->.
  rewrite (Htu t' Ht' (eq_trans Hid' (eq_sym Hid))). simpl.
  destruct Hinact as [Hs|Hs].
  - apply String.eqb_neq in Hs. rewrite Hs. now rewrite andb_false_r.
  - apply String.eqb_neq in Hs. rewrite Hs. now rewrite andb_false_r.
Qed.

Lemma findActiveByKeyAndSerial_dropped (st : Store) (lk hs : string) :
  findActiveByKeyAndSerial (drop_licenses_with_key st lk) lk hs = None.
Proof.
  unfold findActiveByKeyAndSerial. apply find_none_intro. intros [l t] Hin.
  apply license_join_inv in Hin as [Hl _]. simpl in Hl. apply filter_In in Hl as [_ Hk].
  unfold license_row_matches.
  destruct (String.eqb (lic_licenseKey l) lk); [discriminate|reflexivity].
Qed.

Lemma authenticateHubLicense_lookup (st : Store) (r : Request) (lk hs : string) :
  hdr_x_license_key r = Some lk -> hdr_x_hub_serial r = Some hs -> lk <> "" -> hs <> "" ->
  authenticateHubLicense st r
  = match findActiveByKeyAndSerial st lk hs with
    | None => (Fail 401 "Invalid hub license"
                    "License key/serial combination not found or inactive", st)
    | Some (l, t) =>
        if license_expired (req_now r) l then
          (Fail 401 "License expired" "Hub license has expired, please renew", st)
        else
          let r' := set_tenant r (mkTenantContext (lic_tenantId l) (snapshot_of t) None) in
          (Next r', trackApiUsage st r' (lic_tenantId l))
    end.
Proof.
  intros Hlk Hhs Hne1 Hne2. unfold authenticateHubLicense.
  rewrite Hlk, Hhs, (truthy_some lk Hne1), (truthy_some hs Hne2). reflexivity.
Qed.

Lemma existsb_false_intro {A : Type} (f : A -> bool) (l : list A) :
  (forall x, In x l -> f x = false) -> existsb f l = false.
Proof.
  intros H. apply Bool.not_true_iff_false. intros Hex.
  apply existsb_exists in Hex as [x [Hx Hfx]]. rewrite (H x Hx) in Hfx. discriminate.
Qed.

Lemma authenticateApiKey_next (st : Store) (r r' : Request) (st' : Store) :
  authenticateApiKey st r = (Next r', st') ->
  exists c, r' = set_tenant r c /\ ctx_user c = None /\ st' = st.
Proof.
  unfold authenticateApiKey. destruct (extractApiKey r) as [k|]; [|discriminate].
  destruct (truthy_str (hdr_x_api_key r) || pg_text_ok k); [|discriminate].
  destruct (findActiveByApiKey st k) as [t|]; [|discriminate].
  intros H. injection H as <- <-. eexists; split; [reflexivity|].
  split; [reflexivity|]. apply trackApiUsage_store.
Qed.

Lemma authenticateHubLicense_next (st : Store) (r r' : Request) (st' : Store) :
  authenticateHubLicense st r = (Next r', st') ->
  exists c, r' = set_tenant r c /\ ctx_user c = None /\ st' = st.
Proof.
  unfold authenticateHubLicense.
  destruct (negb (truthy_str (hdr_x_license_key r)) || negb (truthy_str (hdr_x_hub_serial r)));
    [discriminate|].
  destruct (hdr_x_license_key r) as [lk|], (hdr_x_hub_serial r) as [hs|]; try discriminate.
  destruct (findActiveByKeyAndSerial st lk hs) as [[l t]|]; [|discriminate].
  destruct (license_expired (req_now r) l); [discriminate|].
  intros H. injection H as <- <-. eexists; split; [reflexivity|].
  split; [reflexivity|]. apply trackApiUsage_store.
Qed.

(** ** Claims *)

(** C1: an API key that belongs to a suspended or cancelled tenant is not
    found by [findActiveByApiKey] (one query with both conditions), and
    [authenticateApiKey] answers 401 "Invalid API key" without attaching a
    tenant context or calling [next()], exactly as it answers on the store
    without that key. *)
Theorem authenticateApiKey_rejects_inactive_tenant (st : Store) (r : Request) (t : Tenant) :
  In t (tenants st) ->
  tenant_status t = "suspended" \/ tenant_status t = "cancelled" ->
  (forall t', In t' (tenants st) -> tenant_apiKey t' = tenant_apiKey t -> t' = t) ->
  extractApiKey r = Some (tenant_apiKey t) ->
  findActiveByApiKey st (tenant_apiKey t) = None
  /\ authenticateApiKey st r
     = (Fail 401 "Invalid API key" "API key not found or tenant is inactive", st)
  /\ fst (authenticateApiKey st r)
     = fst (authenticateApiKey (drop_tenants_with_key st (tenant_apiKey t)) r).
Proof.
  intros Hin Hstatus Huniq Hk.
  assert (Hna : tenant_status t <> "active")
    by (destruct Hstatus as [H|H]; rewrite H; discriminate).
  assert (Hb : (truthy_str (hdr_x_api_key r) || pg_text_ok (tenant_apiKey t)) = true)
    by (rewrite (tenant_key_text st t Hin); apply orb_true_r).
  split; [exact (findActiveByApiKey_inactive st t Hna Huniq)|].
  split; [exact (authenticateApiKey_not_found st r _ Hk Hb (findActiveByApiKey_inactive st t Hna Huniq))|].
  exact (authenticateApiKey_inactive_as_absent st r t Hna Huniq Hk).
Qed.

Lemma authenticateApiKey_rejects_inactive_tenant_witness :
  extractApiKey (sample_request (Some "ak_acme") None None "/info" empty_body) = Some "ak_acme"
  /\ authenticateApiKey suspended_store (sample_request (Some "ak_acme") None None "/info" empty_body)
     = (Fail 401 "Invalid API key" "API key not found or tenant is inactive", suspended_store).
Proof.
  split; [reflexivity|].
  apply (authenticateApiKey_rejects_inactive_tenant suspended_store
           (sample_request (Some "ak_acme") None None "/info" empty_body) acme_suspended).
  - simpl; left; reflexivity.
  - left; reflexivity.
  - intros t' [<-|[]] _; reflexivity.
  - reflexivity.
Defined.

(** C4 (as the code stands): [trackApiUsage] never changes the store.  Its
    [ON CONFLICT (tenantId, endpoint, method, month)] target matches no
    unique constraint of [api_usage], so every statement is rejected and
    the error swallowed: two record calls for one key leave the usage table
    as it was (no row with count 2). *)
Theorem trackApiUsage_twice_leaves_store (st : Store) (r : Request) (tenantId : Z) :
  trackApiUsage (trackApiUsage st r tenantId) r tenantId = st
  /\ apiUsage (trackApiUsage (trackApiUsage (with_apiUsage st []) r tenantId) r tenantId) = [].
Proof.
  rewrite !trackApiUsage_store. split; reflexivity.
Qed.

(** C5: [requireRole] ranks roles by their position in
    [viewer, user, manager, admin]; with no user attached it answers 403
    "User authentication required" whatever the tenant; a user ranked below
    [minRole] gets 403 "Insufficient permissions"; anyone else is passed
    on.  [requireRole "admin"] refuses a manager and admits an admin. *)
Theorem requireRole_spec (minRole : string) (st : Store) (r : Request) :
  roleHierarchy = ["viewer"; "user"; "manager"; "admin"]
  /\ ((forall c, req_tenant r = Some c -> ctx_user c = None) ->
      requireRole minRole st r
      = (Fail 403 "User authentication required"
              "This endpoint requires user-level authentication", st))
  /\ (forall c u, req_tenant r = Some c -> ctx_user c = Some u ->
      indexOf roleHierarchy (user_role u) < indexOf roleHierarchy minRole ->
      exists msg, requireRole minRole st r = (Fail 403 "Insufficient permissions" msg, st))
  /\ (forall c u, req_tenant r = Some c -> ctx_user c = Some u ->
      indexOf roleHierarchy minRole <= indexOf roleHierarchy (user_role u) ->
      requireRole minRole st r = (Next r, st))
  /\ (forall c u, req_tenant r = Some c -> ctx_user c = Some u -> user_role u = "manager" ->
      exists msg, requireRole "admin" st r = (Fail 403 "Insufficient permissions" msg, st))
  /\ (forall c u, req_tenant r = Some c -> ctx_user c = Some u -> user_role u = "admin" ->
      requireRole "admin" st r = (Next r, st)).
Proof.
  split; [reflexivity|].
  split.
  { intros Hnone. unfold requireRole.
    destruct (req_tenant r) as [c|] eqn:Hc; [|reflexivity].
    rewrite (Hnone c eq_refl). reflexivity. }
  split.
  { intros c u Hc Hu Hlt. rewrite (requireRole_with_user minRole st r c u Hc Hu).
    apply Z.ltb_lt in Hlt. rewrite Hlt. eexists; reflexivity. }
  split.
  { intros c u Hc Hu Hge. rewrite (requireRole_with_user minRole st r c u Hc Hu).
    apply Z.ltb_ge in Hge. rewrite Hge. reflexivity. }
  split.
  { intros c u Hc Hu Hrole. rewrite (requireRole_with_user "admin" st r c u Hc Hu), Hrole.
    eexists; reflexivity. }
  { intros c u Hc Hu Hrole. rewrite (requireRole_with_user "admin" st r c u Hc Hu), Hrole.
    reflexivity. }
Qed.

Lemma requireRole_spec_witness :
  exists msg, requireRole "admin" acme_store manager_request
              = (Fail 403 "Insufficient permissions" msg, acme_store).
Proof.
  destruct (requireRole_spec "admin" acme_store manager_request)
    as [_ [_ [_ [_ [Hmgr _]]]]].
  exact (Hmgr manager_context (mkTenantUser 7 "m@acme.com" "manager" [])
              eq_refl eq_refl eq_refl).
Defined.

(** C10: for a [minRole] outside [viewer, user, manager, admin],
    [indexOf] gives -1 and [requireRole minRole] passes on every request
    whose context has a user, whatever the user's role. *)
Theorem requireRole_unknown_minRole_accepts (minRole : string) (st : Store) (r : Request)
    (c : TenantContext) (u : TenantUser) :
  ~ In minRole roleHierarchy -> req_tenant r = Some c -> ctx_user c = Some u ->
  indexOf roleHierarchy minRole = -1 /\ requireRole minRole st r = (Next r, st).
Proof.
  intros Hn Hc Hu. pose proof (indexOf_not_in roleHierarchy minRole Hn) as Hidx.
  split; [exact Hidx|].
  rewrite (requireRole_with_user minRole st r c u Hc Hu), Hidx.
  pose proof (indexOf_lower_bound roleHierarchy (user_role u)) as Hlb.
  apply Z.ltb_ge in Hlb. rewrite Hlb. reflexivity.
Qed.

Lemma requireRole_unknown_minRole_accepts_witness :
  ~ In "owner" roleHierarchy
  /\ requireRole "owner" acme_store
       (set_tenant (sample_request None None None "/x" empty_body) guest_context)
     = (Next (set_tenant (sample_request None None None "/x" empty_body) guest_context),
        acme_store).
Proof.
  assert (Hn : ~ In "owner" roleHierarchy)
    by (simpl; intros [H|[H|[H|[H|[]]]]]; discriminate).
  split; [exact Hn|].
  apply (requireRole_unknown_minRole_accepts "owner" acme_store _ guest_context
           (mkTenantUser 8 "g@acme.com" "guest" [])); [exact Hn|reflexivity|reflexivity].
Defined.

(** C2: a (license key, hub serial) pair naming an active license of an
    active tenant whose [expiresAt] lies in the past is answered 401
    "License expired", an error distinct from "Invalid hub license"; no
    tenant context is attached and [next()] is not called. *)
Theorem authenticateHubLicense_expired (st : Store) (r : Request) (l : HubLicense) (t : Tenant) :
  In l (hubLicenses st) -> In t (tenants st) -> tenant_id t = lic_tenantId l ->
  lic_status l = "active" -> tenant_status t = "active" ->
  license_key_unique st l -> tenant_id_unique st t ->
  hdr_x_license_key r = Some (lic_licenseKey l) -> hdr_x_hub_serial r = Some (lic_hubSerial l) ->
  lic_licenseKey l <> "" -> lic_hubSerial l <> "" ->
  (exists e, lic_expiresAt l = Some e /\ e < req_now r) ->
  authenticateHubLicense st r
  = (Fail 401 "License expired" "Hub license has expired, please renew", st)
  /\ "License expired" <> "Invalid hub license".
Proof.
  intros Hl Ht Hid Hls Hts Hlu Htu Hlk Hhs Hne1 Hne2 [e [He Hlt]].
  split; [|discriminate].
  rewrite (authenticateHubLicense_lookup st r _ _ Hlk Hhs Hne1 Hne2).
  rewrite (findActiveByKeyAndSerial_found st l t Hl Ht Hid Hls Hts Hlu Htu).
  unfold license_expired. rewrite He. apply Z.gtb_lt in Hlt. rewrite Hlt. reflexivity.
Qed.

Lemma authenticateHubLicense_expired_witness :
  authenticateHubLicense expired_store (heartbeat_request "AO-ACME-SECURITY-009-z" "lk_old")
  = (Fail 401 "License expired" "Hub license has expired, please renew", expired_store)
  /\ "License expired" <> "Invalid hub license".
Proof.
  apply (authenticateHubLicense_expired expired_store _ expired_license acme);
    try reflexivity; try discriminate.
  - simpl; left; reflexivity.
  - simpl; left; reflexivity.
  - intros l' [<-|[]] _; reflexivity.
  - intros t' [<-|[]] _; reflexivity.
  - exists 1600000000000; split; [reflexivity|]. simpl. lia.
Defined.

(** C6: credential failures do not tell which check failed.  For hub
    authentication, a pair whose license is suspended or revoked, or whose
    tenant is not active, gets the same 401 answer as a pair absent from
    the store; for API-key authentication, the key of a tenant that is not
    active gets the same answer as an unknown key. *)
Theorem credential_failures_are_generic :
  (forall (st : Store) (r : Request) (l : HubLicense) (t : Tenant),
      In l (hubLicenses st) -> In t (tenants st) -> tenant_id t = lic_tenantId l ->
      lic_status l = "suspended" \/ lic_status l = "revoked" \/ tenant_status t <> "active" ->
      license_key_unique st l -> tenant_id_unique st t ->
      hdr_x_license_key r = Some (lic_licenseKey l) -> hdr_x_hub_serial r = Some (lic_hubSerial l) ->
      lic_licenseKey l <> "" -> lic_hubSerial l <> "" ->
      authenticateHubLicense st r
      = (Fail 401 "Invalid hub license" "License key/serial combination not found or inactive", st)
      /\ fst (authenticateHubLicense st r)
         = fst (authenticateHubLicense (drop_licenses_with_key st (lic_licenseKey l)) r))
  /\ (forall (st : Store) (r : Request) (t : Tenant),
      tenant_status t <> "active" ->
      (forall t', In t' (tenants st) -> tenant_apiKey t' = tenant_apiKey t -> t' = t) ->
      extractApiKey r = Some (tenant_apiKey t) ->
      fst (authenticateApiKey st r)
      = fst (authenticateApiKey (drop_tenants_with_key st (tenant_apiKey t)) r)).
Proof.
  split.
  - intros st r l t _ Ht Hid Hinact Hlu Htu Hlk Hhs Hne1 Hne2.
    assert (Hi : lic_status l <> "active" \/ tenant_status t <> "active").
    { destruct Hinact as [H|[H|H]]; [left; rewrite H; discriminate
                                    |left; rewrite H; discriminate|right; exact H]. }
    rewrite (authenticateHubLicense_lookup st r _ _ Hlk Hhs Hne1 Hne2).
    rewrite (authenticateHubLicense_lookup _ r _ _ Hlk Hhs Hne1 Hne2).
    rewrite (findActiveByKeyAndSerial_inactive st l t _ Ht Hid Hi Hlu Htu).
    rewrite findActiveByKeyAndSerial_dropped. split; reflexivity.
  - intros st r t Hna Huniq Hk.
    exact (authenticateApiKey_inactive_as_absent st r t Hna Huniq Hk).
Qed.

Lemma credential_failures_are_generic_witness :
  authenticateHubLicense revoked_store (heartbeat_request "AO-ACME-SECURITY-009-z" "lk_old")
  = (Fail 401 "Invalid hub license" "License key/serial combination not found or inactive",
     revoked_store)
  /\ fst (authenticateApiKey suspended_store
            (sample_request (Some "ak_acme") None None "/info" empty_body))
     = fst (authenticateApiKey (drop_tenants_with_key suspended_store "ak_acme")
              (sample_request (Some "ak_acme") None None "/info" empty_body)).
Proof.
  destruct credential_failures_are_generic as [Hhub Hapi]. split.
  - apply (Hhub revoked_store _ revoked_license acme); try reflexivity; try discriminate.
    + simpl; left; reflexivity.
    + simpl; left; reflexivity.
    + right; left; reflexivity.
    + intros l' [<-|[]] _; reflexivity.
    + intros t' [<-|[]] _; reflexivity.
  - apply (Hapi suspended_store _ acme_suspended); [discriminate| |reflexivity].
    intros t' [<-|[]] _; reflexivity.
Defined.

(** C7 (as the code stands): [rateLimitByTier] looks the tier up in an
    object literal, so a tier naming an [Object.prototype] member gets that
    member, not the default 100.  A tenant whose tier is "toString"
    (accepted at signup, where the tier is any string of at most 50
    characters) gets a function as its [X-RateLimit-Limit] value.  The
    request is passed on when there is no tenant context or when the tier
    is a valid header value; a tier holding a control character such as a
    line feed (also accepted at signup) makes [setHeader] throw, and the
    request ends in 500: it is not passed on. *)
Theorem rateLimitByTier_prototype_tier :
  tierLimit "toString" = JFun "toString"
  /\ tierLimit "constructor" = JFun "constructor"
  /\ tierLimit "__proto__" = JObj "[object Object]"
  /\ (exists r', fst (then_mw authenticateApiKey rateLimitByTier acme_store
                            (sample_request (Some "ak_proto") None None "/info" empty_body))
                 = Next r'
                 /\ res_headers r' = [("X-RateLimit-Limit", JFun "toString");
                                      ("X-RateLimit-Tier", JStr "toString")])
  /\ (forall st r, req_tenant r = None -> rateLimitByTier st r = (Next r, st))
  /\ (forall st r c, req_tenant r = Some c ->
        header_value_ok (snap_subscriptionTier (ctx_tenant c)) = true ->
        exists r', rateLimitByTier st r = (Next r', st))
  /\ (forall st r c, req_tenant r = Some c ->
        header_value_ok (snap_subscriptionTier (ctx_tenant c)) = false ->
        rateLimitByTier st r
        = (Fail 500 "Internal Server Error" "Invalid character in header content [X-RateLimit-Tier]", st))
  /\ fst (createTenant "ak_newline" newline_signup beta_store)
     = Done 201 "Tenant created successfully. Save your API key securely!"
  /\ fst (then_mw authenticateApiKey rateLimitByTier (snd (createTenant "ak_newline" newline_signup beta_store))
                  (key_request "ak_newline"))
     = Fail 500 "Internal Server Error" "Invalid character in header content [X-RateLimit-Tier]".
Proof.
  split; [reflexivity|]. split; [reflexivity|]. split; [reflexivity|].
  split; [eexists; split; reflexivity|].
  split; [intros st r Hr; unfold rateLimitByTier; rewrite Hr; reflexivity|].
  split; [intros st r c Hr Hv; unfold rateLimitByTier; rewrite Hr, Hv; eexists; reflexivity|].
  split; [intros st r c Hr Hv; unfold rateLimitByTier; rewrite Hr, Hv; reflexivity|].
  split; vm_compute; reflexivity.
Qed.

Lemma rateLimitByTier_prototype_tier_witness :
  (exists r', rateLimitByTier acme_store beta_request = (Next r', acme_store))
  /\ rateLimitByTier acme_store (set_tenant beta_request (mkTenantContext 3
         (mkSnapshot 3 "Newline Co" "newline-co" newline_tier 5 50 "active") None))
     = (Fail 500 "Internal Server Error" "Invalid character in header content [X-RateLimit-Tier]",
        acme_store).
Proof.
  destruct rateLimitByTier_prototype_tier as [_ [_ [_ [_ [_ [Hok [Hbad _]]]]]]].
  split.
  - apply (Hok acme_store beta_request acme_context); reflexivity.
  - apply (Hbad acme_store _ (mkTenantContext 3
             (mkSnapshot 3 "Newline Co" "newline-co" newline_tier 5 50 "active") None));
      reflexivity.
Defined.

(** C8 counterexample: a request to [POST /api/tenant/hub-licenses]
    without an API key is refused with 401 by [authenticateApiKey], not
    with 403. *)
Lemma hub_license_route_no_key_gets_401 :
  fst (run_chain (postHubLicensesRoute "lk_new" "AO-ACME-SECURITY-003-c") acme_store
                 (sample_request None None None "/hub-licenses" license_body))
  = Fail 401 "API key required" "Provide API key in X-API-Key header or api_key query parameter"
  /\ forall e m, fst (run_chain (postHubLicensesRoute "lk_new" "AO-ACME-SECURITY-003-c") acme_store
                                (sample_request None None None "/hub-licenses" license_body))
                 <> Fail 403 e m.
Proof.
  split; [reflexivity|]. intros e m H. discriminate H.
Qed.

(** C8 (amended): neither authentication pipeline attaches a user to the
    tenant context, so every request to [POST /api/tenant/hub-licenses] is
    refused: with 401 when API-key authentication fails, with 500 when the
    key lookup fails (an [api_key] query value holding NUL) or when the
    tenant's tier is not a valid header value, and otherwise with 403
    "User authentication required" from [requireRole "admin"]; the
    issuance handler never runs and the license table is never written. *)
Theorem hub_license_route_unreachable :
  (forall st r r' st', authenticateApiKey st r = (Next r', st') ->
     exists c, req_tenant r' = Some c /\ ctx_user c = None)
  /\ (forall st r r' st', authenticateHubLicense st r = (Next r', st') ->
     exists c, req_tenant r' = Some c /\ ctx_user c = None)
  /\ (forall k s st r,
        (fst (run_chain (postHubLicensesRoute k s) st r)
         = Fail 401 "API key required"
                "Provide API key in X-API-Key header or api_key query parameter"
         \/ fst (run_chain (postHubLicensesRoute k s) st r)
            = Fail 401 "Invalid API key" "API key not found or tenant is inactive"
         \/ fst (run_chain (postHubLicensesRoute k s) st r)
            = Fail 500 "Authentication failed" "Internal server error during authentication"
         \/ fst (run_chain (postHubLicensesRoute k s) st r)
            = Fail 500 "Internal Server Error" "Invalid character in header content [X-RateLimit-Tier]"
         \/ fst (run_chain (postHubLicensesRoute k s) st r)
            = Fail 403 "User authentication required"
                   "This endpoint requires user-level authentication")
        /\ hubLicenses (snd (run_chain (postHubLicensesRoute k s) st r)) = hubLicenses st).
Proof.
  split.
  { intros st r r' st' H. apply authenticateApiKey_next in H as [c [-> [Hu _]]].
    exists c. split; [reflexivity|exact Hu]. }
  split.
  { intros st r r' st' H. apply authenticateHubLicense_next in H as [c [-> [Hu _]]].
    exists c. split; [reflexivity|exact Hu]. }
  intros k s st r. unfold postHubLicensesRoute. cbn [run_chain].
  unfold authenticateApiKey.
  destruct (extractApiKey r) as [key|].
  - destruct (truthy_str (hdr_x_api_key r) || pg_text_ok key).
    + destruct (findActiveByApiKey st key) as [t|].
      * rewrite trackApiUsage_store. unfold rateLimitByTier. cbn [req_tenant set_tenant].
        destruct (header_value_ok _); simpl;
          (split; [repeat (first [left; reflexivity | right]); reflexivity | reflexivity]).
      * simpl. split; [right; left; reflexivity|reflexivity].
    + simpl. split; [right; right; left; reflexivity|reflexivity].
  - simpl. split; [left; reflexivity|reflexivity].
Qed.

Lemma hub_license_route_unreachable_witness :
  fst (run_chain (postHubLicensesRoute "lk_new" "AO-ACME-SECURITY-003-c") acme_store
                 admin_api_request)
  = Fail 403 "User authentication required" "This endpoint requires user-level authentication".
Proof.
  destruct hub_license_route_unreachable as [_ [_ Hroute]].
  destruct (Hroute "lk_new" "AO-ACME-SECURITY-003-c" acme_store admin_api_request)
    as [[H|[H|[H|[H|H]]]] _]; [discriminate H|discriminate H|discriminate H|discriminate H|exact H].
Defined.

(** C3 (as the code stands): the integration guide issues a license with
    only an [X-API-Key] header and a body of [hubName],
    [deploymentLocation] and [maxCameras], and expects 201 with one new
    license below the cap and a limit error at it.  The route answers that
    request with 403 "User authentication required" whether the tenant is
    below its cap (no license, cap 1) or at it (two licenses, cap 1), and
    writes nothing.  Even with an administrator in the context, the
    handler refuses any body lacking [tenantId] or [hubSerial], the
    guide's body included, as a validation error (400) before it counts
    the licenses, and writes nothing. *)
Theorem hub_license_guide_request_refused :
  (forall k s st r c, req_tenant r = Some c ->
     body_tenantId (req_body r) = None \/ body_hubSerial (req_body r) = None ->
     createHubLicense k s st r = (Fail 400 "Validation error" "", st))
  /\ license_count beta_store 1 < tenant_maxHubs acme
  /\ run_chain (postHubLicensesRoute "lk_new" "AO-ACME-SECURITY-001-q") beta_store guide_request
     = (Fail 403 "User authentication required" "This endpoint requires user-level authentication",
        beta_store)
  /\ createHubLicense "lk_new" "AO-ACME-SECURITY-001-q" beta_store
       (set_tenant guide_request admin_context)
     = (Fail 400 "Validation error" "", beta_store)
  /\ tenant_maxHubs acme <= license_count acme_store 1
  /\ run_chain (postHubLicensesRoute "lk_new" "AO-ACME-SECURITY-003-q") acme_store guide_request
     = (Fail 403 "User authentication required" "This endpoint requires user-level authentication",
        acme_store)
  /\ createHubLicense "lk_new" "AO-ACME-SECURITY-003-q" acme_store
       (set_tenant guide_request admin_context)
     = (Fail 400 "Validation error" "", acme_store).
Proof.
  split.
  { intros k s st r c Hc Hmiss. unfold createHubLicense, parseInsertHubLicense. rewrite Hc.
    destruct Hmiss as [H|H]; rewrite H; [reflexivity|].
    destruct (body_tenantId (req_body r)); reflexivity. }
  repeat split; vm_compute; try reflexivity; discriminate.
Qed.

Lemma hub_license_guide_request_refused_witness :
  createHubLicense "lk_new" "AO-ACME-SECURITY-003-q" acme_store
    (set_tenant guide_request admin_context)
  = (Fail 400 "Validation error" "", acme_store).
Proof.
  destruct hub_license_guide_request_refused as [Hall _].
  apply (Hall _ _ acme_store _ admin_context); [reflexivity|left; reflexivity].
Defined.

Lemma parseInsertHubLicense_some (b : Body) (d : LicenseDraft) :
  parseInsertHubLicense b = Some d ->
  draft_hubName d = body_hubName b /\ draft_deploymentLocation d = body_deploymentLocation b
  /\ draft_maxCameras d = body_maxCameras b /\ draft_features d = body_features b
  /\ fits 255 (body_hubName b) = true /\ fits 255 (body_deploymentLocation b) = true
  /\ int32_ok (body_maxCameras b) = true.
Proof.
  unfold parseInsertHubLicense.
  destruct (body_tenantId b), (body_hubSerial b), (body_activatedAt b), (body_expiresAt b);
    try discriminate.
  destruct (int32_ok (Some z) && fits 100 (Some s) && fits 255 (body_hubName b)
            && fits 255 (body_deploymentLocation b) && fits 20 (body_licenseStatus b)
            && int32_ok (body_maxCameras b)) eqn:Hok; [|discriminate].
  intros H. injection H as <-. rewrite !andb_true_iff in Hok. cbn. tauto.
Qed.

(** X28: once a request reaches the issuance handler with a tenant context
    and a body that passes [insertHubLicenseSchema], the handler counts the
    tenant's licenses in the store at that moment.  If the count is at or
    above the snapshot's [maxHubs], it answers 400 "Hub limit exceeded" and
    leaves the store as it was.  Otherwise, when the generated key and
    serial fit their columns, the body's text holds no NUL, and the key and
    serial are not already in the table, it appends exactly one active
    license for the tenant and answers 201. *)
Theorem createHubLicense_cap_check (licenseKey hubSerial : string) (st : Store) (r : Request)
    (c : TenantContext) (d : LicenseDraft) :
  req_tenant r = Some c ->
  parseInsertHubLicense (req_body r) = Some d ->
  (snap_maxHubs (ctx_tenant c) <= license_count st (ctx_tenantId c) ->
   exists msg, createHubLicense licenseKey hubSerial st r
               = (Fail 400 "Hub limit exceeded" msg, st))
  /\ (license_count st (ctx_tenantId c) < snap_maxHubs (ctx_tenant c) ->
      license_text_ok licenseKey hubSerial (req_body r) = true ->
      (forall x, In x (hubLicenses st) ->
                 lic_hubSerial x <> hubSerial /\ lic_licenseKey x <> licenseKey) ->
      exists l, createHubLicense licenseKey hubSerial st r
                = (Done 201 "license", with_hubLicenses st (app (hubLicenses st) [l]))
                /\ lic_tenantId l = ctx_tenantId c /\ lic_licenseKey l = licenseKey
                /\ lic_hubSerial l = hubSerial /\ lic_status l = "active").
Proof.
  intros Hc Hd.
  destruct (parseInsertHubLicense_some _ _ Hd) as [Hn [Hloc [Hm [Hf [Hn255 [Hl255 Hm32]]]]]].
  unfold createHubLicense. rewrite Hc, Hd. split.
  - intros Hle. apply Z.leb_le in Hle. rewrite Hle. eexists; reflexivity.
  - intros Hlt Htext Hfresh. apply Z.leb_gt in Hlt. rewrite Hlt.
    unfold license_text_ok in Htext. rewrite !andb_true_iff in Htext.
    destruct Htext as [[[[[[H1 H2] H3] H4] H5] H6] H7].
    unfold insert_hubLicense. cbn [lic_hubSerial lic_licenseKey lic_hubName
                                   lic_deploymentLocation lic_status lic_maxCameras].
    rewrite Hn, Hloc, Hm, Hf, H1, H2, H3, H4, H5, H6, H7, Hn255, Hl255.
    replace (int32_ok (Some match body_maxCameras (req_body r) with
                            | Some m => m | None => 16 end)) with true
      by (destruct (body_maxCameras (req_body r)); [exact (eq_sym Hm32)|reflexivity]).
    cbn [andb negb fits String.length pg_text_ok all_chars]. rewrite existsb_false_intro.
    + eexists; repeat split; reflexivity.
    + intros x Hx. destruct (Hfresh x Hx) as [Hs Hk]. simpl.
      apply String.eqb_neq in Hs, Hk. rewrite Hs, Hk. reflexivity.
Qed.

Lemma createHubLicense_cap_check_witness :
  exists l, createHubLicense "lk_new" "AO-BETA-001-q" beta_store beta_request
            = (Done 201 "license", with_hubLicenses beta_store (app (hubLicenses beta_store) [l]))
            /\ lic_tenantId l = 1 /\ lic_licenseKey l = "lk_new"
            /\ lic_hubSerial l = "AO-BETA-001-q" /\ lic_status l = "active".
Proof.
  destruct (createHubLicense_cap_check "lk_new" "AO-BETA-001-q" beta_store beta_request
              acme_context
              (mkLicenseDraft 1 "AO-ACME-SECURITY-003-c" (Some "Main Office Hub") None None
                              (Some 16) None) eq_refl eq_refl) as [_ Hbelow].
  apply Hbelow.
  - vm_compute. reflexivity.
  - reflexivity.
  - intros x [].
Defined.

Lemma after_last_dash_length (s cur : string) :
  (String.length (after_last_dash s cur) <= String.length s + String.length cur)%nat.
Proof.
  revert cur. induction s as [|ch s IH]; intros cur; simpl; [lia|].
  destruct (Ascii.eqb ch "-"%char).
  - specialize (IH ""). simpl in IH. lia.
  - specialize (IH (String.append cur (String ch EmptyString))).
    rewrite string_length_app in IH. simpl in IH. lia.
Qed.

Lemma after_last_dash_chars (p : ascii -> bool) (s cur : string) :
  all_chars p s = true -> all_chars p cur = true -> all_chars p (after_last_dash s cur) = true.
Proof.
  revert cur. induction s as [|ch s IH]; intros cur Hs Hc; simpl in *; [exact Hc|].
  apply andb_prop in Hs as [Hch Hs].
  destruct (Ascii.eqb ch "-"%char).
  - apply IH; [exact Hs|reflexivity].
  - apply IH; [exact Hs|]. rewrite all_chars_app, Hc. simpl. now rewrite Hch.
Qed.

Lemma heartbeat_insert_row_ok (hs : string) (b : Body) :
  heartbeat_insert_ok hs b = true ->
  (fits 255 (Some (String.append "Hub-" (after_last_dash hs ""))) && fits 100 (Some hs)
   && fits 50 (Some (heartbeat_status b)) && fits 45 (body_ipAddress b)
   && fits 50 (body_version b)) = true
  /\ (pg_text_ok (String.append "Hub-" (after_last_dash hs "")) && pg_text_ok hs
      && pg_text_ok (heartbeat_status b) && pg_opt_text_ok (body_ipAddress b)
      && pg_opt_text_ok (body_version b)
      && json_strings_ok (Some (opt_default (body_configuration b) []))) = true.
Proof.
  unfold heartbeat_insert_ok, heartbeat_fields_ok. intros H. rewrite !andb_true_iff in H.
  destruct H as [[H100 Htext] [[[[[[H50 H45] Hv50] Hst] Hip] Hv] Hcfg]].
  assert (Hname : pg_text_ok (String.append "Hub-" (after_last_dash hs "")) = true).
  { unfold pg_text_ok. rewrite all_chars_app, (after_last_dash_chars _ hs "" Htext eq_refl).
    reflexivity. }
  assert (Hlen : fits 255 (Some (String.append "Hub-" (after_last_dash hs ""))) = true).
  { unfold fits in *. apply Nat.leb_le in H100. apply Nat.leb_le. rewrite string_length_app.
    pose proof (after_last_dash_length hs ""). simpl in *. lia. }
  rewrite Hname, Hlen, H100, Htext, H50, H45, Hv50, Hst, Hip, Hv. split; [reflexivity|].
  destruct (body_configuration b); exact Hcfg.
Qed.

Lemma insert_hub_fresh (hs0 : list HubRow) (h : HubRow) (cfg : option (list string)) :
  (fits 255 (Some (hub_name h)) && fits 100 (Some (hub_serialNumber h))
   && fits 50 (Some (hub_status h)) && fits 45 (hub_ipAddress h) && fits 50 (hub_version h)) = true ->
  (pg_text_ok (hub_name h) && pg_text_ok (hub_serialNumber h) && pg_text_ok (hub_status h)
   && pg_opt_text_ok (hub_ipAddress h) && pg_opt_text_ok (hub_version h)
   && json_strings_ok cfg) = true ->
  (forall x, In x hs0 -> ((hub_tenantId x =? hub_tenantId h)
                          && String.eqb (hub_serialNumber x) (hub_serialNumber h)) = false) ->
  insert_hub hs0 h cfg = DbOk (app hs0 [h]).
Proof.
  intros H1 H2 H3. unfold insert_hub. rewrite H1, H2, existsb_false_intro by exact H3.
  reflexivity.
Qed.

(** C9: once hub authentication passes, a heartbeat whose serial has no
    hub row for the tenant appends a new hub row and answers 201, with no
    look at [maxHubs] or at the tenant's hub count.  So heartbeats alone
    can give a tenant more hub rows than [maxHubs]: Acme (cap 1, two
    active licenses) ends with two hub rows after one heartbeat per
    license. *)
Theorem heartbeat_registers_without_cap_check :
  (forall (st : Store) (r r' : Request) (st1 : Store) (c : TenantContext) (hs : string),
     authenticateHubLicense st r = (Next r', st1) ->
     req_tenant r' = Some c -> hdr_x_hub_serial r = Some hs ->
     heartbeat_insert_ok hs (req_body r) = true ->
     (forall h, In h (tenantsHubs st1) -> hub_tenantId h = ctx_tenantId c ->
                hub_serialNumber h <> hs) ->
     exists h, run_chain postHeartbeatRoute st r
               = (Done 201 "Hub registered", with_tenantsHubs st1 (app (tenantsHubs st1) [h]))
               /\ hub_tenantId h = ctx_tenantId c /\ hub_serialNumber h = hs)
  /\ Z.of_nat (length (filter (fun h => hub_tenantId h =? tenant_id acme)
       (tenantsHubs
          (snd (run_chain postHeartbeatRoute
                  (snd (run_chain postHeartbeatRoute acme_store
                          (heartbeat_request "AO-ACME-SECURITY-001-a" "lk_one")))
                  (heartbeat_request "AO-ACME-SECURITY-002-b" "lk_two"))))))
     > tenant_maxHubs acme.
Proof.
  split; [|vm_compute; reflexivity].
  intros st r r' st1 c hs Hauth Hc Hhs Hok Hnone.
  pose proof (authenticateHubLicense_next st r r' st1 Hauth) as [c' [Hr' _]].
  unfold postHeartbeatRoute. cbn [run_chain]. rewrite Hauth.
  assert (Hsame : forall h, In h (tenantsHubs st1) ->
            ((hub_tenantId h =? ctx_tenantId c) && String.eqb (hub_serialNumber h) hs) = false).
  { intros h Hin. destruct (hub_tenantId h =? ctx_tenantId c) eqn:Ht; [|reflexivity].
    apply Z.eqb_eq in Ht. simpl. apply String.eqb_neq. exact (Hnone h Hin Ht). }
  destruct (heartbeat_insert_row_ok hs (req_body r) Hok) as [Hlen Htext].
  unfold hubHeartbeat. rewrite Hc.
  assert (Hs' : hdr_x_hub_serial r' = Some hs) by (rewrite Hr'; exact Hhs).
  rewrite Hs'.
  rewrite (find_none_intro _ _ Hsame).
  subst r'.
  erewrite insert_hub_fresh; [eexists; repeat split; reflexivity|exact Hlen|exact Htext|exact Hsame].
Qed.

Lemma heartbeat_registers_without_cap_check_witness :
  exists h, run_chain postHeartbeatRoute acme_store
              (heartbeat_request "AO-ACME-SECURITY-001-a" "lk_one")
            = (Done 201 "Hub registered", with_tenantsHubs acme_store (app (tenantsHubs acme_store) [h]))
            /\ hub_tenantId h = 1 /\ hub_serialNumber h = "AO-ACME-SECURITY-001-a".
Proof.
  destruct heartbeat_registers_without_cap_check as [Hall _].
  apply (Hall acme_store (heartbeat_request "AO-ACME-SECURITY-001-a" "lk_one")
              (set_tenant (heartbeat_request "AO-ACME-SECURITY-001-a" "lk_one") acme_context)
              acme_store acme_context).
  - vm_compute. reflexivity.
  - reflexivity.
  - reflexivity.
  - reflexivity.
  - intros h [].
Defined.

(** ** Further properties of the code *)

Lemma bytes_of_hex_byte (b : Byte.byte) (s : string) :
  bytes_of_hex (String.append (byte_hex b) s) = option_map (cons b) (bytes_of_hex s).
Proof. destruct b; simpl; destruct (bytes_of_hex s); reflexivity. Qed.

Lemma byte_hex_shape (b : Byte.byte) :
  String.length (byte_hex b) = 2%nat /\ all_chars is_lower_hex (byte_hex b) = true.
Proof. destruct b; split; reflexivity. Qed.

Lemma hex_of_bytes_spec (bs : list Byte.byte) :
  String.length (hex_of_bytes bs) = (2 * length bs)%nat
  /\ all_chars is_lower_hex (hex_of_bytes bs) = true
  /\ bytes_of_hex (hex_of_bytes bs) = Some bs.
Proof.
  induction bs as [|b bs [IHl [IHc IHr]]]; [repeat split|].
  destruct (byte_hex_shape b) as [Hl Hc].
  change (hex_of_bytes (b :: bs)) with (String.append (byte_hex b) (hex_of_bytes bs)).
  rewrite string_length_app, all_chars_app, bytes_of_hex_byte, Hl, Hc, IHc, IHr. simpl.
  repeat split. rewrite IHl. lia.
Qed.

Lemma append_prefix_inj (p s1 s2 : string) :
  String.append p s1 = String.append p s2 -> s1 = s2.
Proof. induction p as [|c p IH]; simpl; [auto|]. intros H. injection H. exact IH. Qed.

(** X1: [generateApiKey] and [generateLicenseKey] turn the 32 random bytes
    into the prefix ("ak_" or "lk_") followed by 64 lowercase hexadecimal
    digits, which decode back to the bytes: distinct random bytes give
    distinct keys, and no API key is ever equal to a license key. *)
Theorem generated_keys_shape (bytes : list Byte.byte) :
  length bytes = 32%nat ->
  (exists h, generateApiKey bytes = String.append "ak_" h
             /\ generateLicenseKey bytes = String.append "lk_" h
             /\ String.length h = 64%nat /\ all_chars is_lower_hex h = true
             /\ bytes_of_hex h = Some bytes)
  /\ (forall bytes', generateApiKey bytes' = generateApiKey bytes -> bytes' = bytes)
  /\ (forall bytes', generateLicenseKey bytes' = generateLicenseKey bytes -> bytes' = bytes)
  /\ (forall bytes', generateApiKey bytes' <> generateLicenseKey bytes).
Proof.
  intros Hlen. destruct (hex_of_bytes_spec bytes) as [Hl [Hc Hr]].
  split; [exists (hex_of_bytes bytes); repeat split; auto; rewrite Hl, Hlen; reflexivity|].
  split; [|split].
  - intros b' H. apply append_prefix_inj in H.
    pose proof (proj2 (proj2 (hex_of_bytes_spec b'))) as Hr'. rewrite H, Hr in Hr'.
    congruence.
  - intros b' H. apply append_prefix_inj in H.
    pose proof (proj2 (proj2 (hex_of_bytes_spec b'))) as Hr'. rewrite H, Hr in Hr'.
    congruence.
  - intros b' H. discriminate H.
Qed.

Lemma generated_keys_shape_witness :
  exists h, generateApiKey (repeat Byte.x2a 32) = String.append "ak_" h
            /\ generateLicenseKey (repeat Byte.x2a 32) = String.append "lk_" h
            /\ String.length h = 64%nat /\ all_chars is_lower_hex h = true
            /\ bytes_of_hex h = Some (repeat Byte.x2a 32).
Proof. exact (proj1 (generated_keys_shape (repeat Byte.x2a 32) eq_refl)). Defined.

Lemma value36_digit36 (d : Z) : 0 <= d < 36 -> value36 (digit36 d) = Some d.
Proof.
  intros Hd.
  assert (Hall : forallb (fun k => match value36 (digit36 (Z.of_nat k)) with
                                   | Some v => v =? Z.of_nat k | None => false end)
                         (seq 0 36) = true) by reflexivity.
  rewrite forallb_forall in Hall.
  specialize (Hall (Z.to_nat d)). rewrite Z2Nat.id in Hall by lia.
  destruct (value36 (digit36 d)) as [v|] eqn:E.
  - apply f_equal. apply Z.eqb_eq. apply Hall. apply in_seq. lia.
  - exfalso. assert (false = true) by (apply Hall; apply in_seq; lia). discriminate.
Qed.

Lemma base36_digits_parse (f : nat) : forall n acc,
  0 <= n < 36 ^ Z.of_nat f ->
  parse36_from (base36_digits f n acc) 0 = parse36_from acc n.
Proof.
  induction f as [|f IH]; intros n acc Hn.
  - simpl in Hn. replace n with 0 by lia. reflexivity.
  - rewrite Nat2Z.inj_succ, Z.pow_succ_r in Hn by lia. simpl.
    assert (Hm : 0 <= n mod 36 < 36) by (apply Z.mod_pos_bound; lia).
    destruct (n <? 36) eqn:Hlt.
    + apply Z.ltb_lt in Hlt. simpl. rewrite value36_digit36 by exact Hm.
      rewrite Z.mod_small by lia. reflexivity.
    + apply Z.ltb_ge in Hlt. rewrite IH.
      * assert (E : 36 * (n / 36) + n mod 36 = n) by (symmetry; apply Z.div_mod; lia).
        cbn [parse36_from]. rewrite value36_digit36 by exact Hm. cbv beta iota.
        rewrite E. reflexivity.
      * split; [apply Z.div_pos; lia|]. apply Z.div_lt_upper_bound; lia.
Qed.

Lemma base36_digits_chars (f : nat) : forall n acc,
  0 <= n -> all_chars is_base36 acc = true ->
  all_chars is_base36 (base36_digits f n acc) = true.
Proof.
  induction f as [|f IH]; intros n acc Hn Hacc; [exact Hacc|]. simpl.
  assert (Hm : 0 <= n mod 36 < 36) by (apply Z.mod_pos_bound; lia).
  assert (Hc : all_chars is_base36 (String (digit36 (n mod 36)) acc) = true).
  { simpl. unfold is_base36 at 1. rewrite value36_digit36 by exact Hm. exact Hacc. }
  destruct (n <? 36); [exact Hc|]. apply IH; [apply Z.div_pos; lia|exact Hc].
Qed.

Lemma base36_digits_nonempty (f : nat) : forall n acc,
  base36_digits (S f) n acc <> EmptyString.
Proof.
  induction f as [|f IH]; intros n acc; simpl.
  - destruct (n <? 36); discriminate.
  - destruct (n <? 36); [discriminate|]. apply IH.
Qed.

Lemma toString36_fuel (n : Z) : 0 <= n -> 0 <= n < 36 ^ Z.of_nat (S (Z.to_nat (Z.log2 n))).
Proof.
  intros Hn. split; [exact Hn|].
  rewrite Nat2Z.inj_succ, Z2Nat.id by apply Z.log2_nonneg.
  destruct (Z.eq_dec n 0) as [->|Hn0]; [apply Z.pow_pos_nonneg; [lia|]; pose proof (Z.log2_nonneg 0); lia|].
  destruct (Z.log2_spec n) as [_ Hup]; [lia|].
  eapply Z.lt_le_trans; [exact Hup|].
  apply Z.pow_le_mono_l. split; [lia|lia].
Qed.

Lemma after_last_dash_app (s1 s2 cur : string) :
  after_last_dash (String.append s1 s2) cur = after_last_dash s2 (after_last_dash s1 cur).
Proof.
  revert cur. induction s1 as [|c s1 IH]; intros cur; simpl; [reflexivity|].
  destruct (Ascii.eqb c "-"%char); apply IH.
Qed.

Lemma append_assoc_str (a b c : string) :
  String.append (String.append a b) c = String.append a (String.append b c).
Proof. induction a as [|x a IH]; simpl; [reflexivity|]. now rewrite IH. Qed.

Lemma after_last_dash_no_dash (s cur : string) :
  all_chars is_base36 s = true -> after_last_dash s cur = String.append cur s.
Proof.
  revert cur. induction s as [|c s IH]; intros cur Hs; simpl.
  - induction cur as [|y cur IHc]; simpl; [reflexivity|]. now rewrite <- IHc.
  - simpl in Hs. apply andb_prop in Hs as [Hc Hs].
    assert (Hd : Ascii.eqb c "-"%char = false).
    { destruct (Ascii.eqb c "-"%char) eqn:E; [|reflexivity].
      apply Ascii.eqb_eq in E. subst c. vm_compute in Hc. discriminate Hc. }
    rewrite Hd, IH by exact Hs. apply append_assoc_str.
Qed.

(** X2: [Date.now().toString(36)], the last part of a hub serial, is a
    non-empty run of base-36 digits ([0-9a-z]) that [parseInt(_, 36)]
    reads back as the timestamp. *)
Theorem toString36_roundtrip (n : Z) :
  0 <= n ->
  toString36 n <> EmptyString
  /\ all_chars is_base36 (toString36 n) = true
  /\ parse36_from (toString36 n) 0 = Some n.
Proof.
  intros Hn. unfold toString36. split; [apply base36_digits_nonempty|]. split.
  - apply base36_digits_chars; [exact Hn|reflexivity].
  - rewrite base36_digits_parse by (apply toString36_fuel; exact Hn). reflexivity.
Qed.

Lemma toString36_roundtrip_witness :
  toString36 1700000000000 <> EmptyString
  /\ all_chars is_base36 (toString36 1700000000000) = true
  /\ parse36_from (toString36 1700000000000) 0 = Some 1700000000000.
Proof. apply toString36_roundtrip. lia. Defined.

Lemma generateHubSerial_last_segment (slug : string) (seq now : Z) :
  0 <= now -> after_last_dash (generateHubSerial slug seq now) "" = toString36 now.
Proof.
  intros Hn. unfold generateHubSerial. rewrite !after_last_dash_app.
  cbn [after_last_dash Ascii.eqb Bool.eqb]. rewrite after_last_dash_no_dash.
  - reflexivity.
  - apply base36_digits_chars; [exact Hn|reflexivity].
Qed.

Lemma hubHeartbeat_new_hub (st : Store) (r : Request) (c : TenantContext) (hs : string) :
  req_tenant r = Some c -> hdr_x_hub_serial r = Some hs ->
  heartbeat_insert_ok hs (req_body r) = true ->
  (forall h, In h (tenantsHubs st) -> hub_tenantId h = ctx_tenantId c -> hub_serialNumber h <> hs) ->
  exists h, hubHeartbeat st r = (Done 201 "Hub registered", with_tenantsHubs st (app (tenantsHubs st) [h]))
            /\ hub_id h = next_serial (map hub_id (tenantsHubs st))
            /\ hub_tenantId h = ctx_tenantId c /\ hub_serialNumber h = hs
            /\ hub_name h = String.append "Hub-" (after_last_dash hs "")
            /\ hub_lastHeartbeat h = Some (req_now r)
            /\ hub_ipAddress h = body_ipAddress (req_body r)
            /\ hub_version h = body_version (req_body r).
Proof.
  intros Hc Hhs Hok Hnone.
  assert (Hsame : forall h, In h (tenantsHubs st) ->
            ((hub_tenantId h =? ctx_tenantId c) && String.eqb (hub_serialNumber h) hs) = false).
  { intros h Hin. destruct (hub_tenantId h =? ctx_tenantId c) eqn:Ht; [|reflexivity].
    apply Z.eqb_eq in Ht. simpl. apply String.eqb_neq. exact (Hnone h Hin Ht). }
  destruct (heartbeat_insert_row_ok hs (req_body r) Hok) as [Hlen Htext].
  unfold hubHeartbeat. rewrite Hc, Hhs.
  rewrite (find_none_intro _ _ Hsame).
  erewrite insert_hub_fresh; [eexists; repeat split; reflexivity|exact Hlen|exact Htext|exact Hsame].
Qed.

(** X3: a hub whose serial came from [generateHubSerial(slug, seq)] at
    time [t] and that has no hub row yet is registered by its first
    heartbeat (when the serial and the heartbeat's values fit their
    columns and hold no NUL) under the name ["Hub-"] followed by
    [t.toString(36)]: the part after the last dash of the serial, whatever
    dashes the slug holds. *)
Theorem heartbeat_names_generated_hub (st : Store) (r : Request) (c : TenantContext)
    (slug : string) (seq t : Z) :
  0 <= t -> req_tenant r = Some c ->
  hdr_x_hub_serial r = Some (generateHubSerial slug seq t) ->
  heartbeat_insert_ok (generateHubSerial slug seq t) (req_body r) = true ->
  (forall h, In h (tenantsHubs st) -> hub_tenantId h = ctx_tenantId c ->
             hub_serialNumber h <> generateHubSerial slug seq t) ->
  exists h, hubHeartbeat st r = (Done 201 "Hub registered", with_tenantsHubs st (app (tenantsHubs st) [h]))
            /\ hub_name h = String.append "Hub-" (toString36 t).
Proof.
  intros Ht Hc Hhs Hok Hnone.
  destruct (hubHeartbeat_new_hub st r c _ Hc Hhs Hok Hnone) as [h [Hrun [_ [_ [_ [Hname _]]]]]].
  exists h. split; [exact Hrun|]. rewrite Hname, generateHubSerial_last_segment by exact Ht.
  reflexivity.
Qed.

Lemma heartbeat_names_generated_hub_witness :
  exists h, hubHeartbeat acme_store
              (set_tenant (heartbeat_request (generateHubSerial "acme-co" 3 1700000000000) "lk_x")
                          acme_context)
            = (Done 201 "Hub registered", with_tenantsHubs acme_store (app (tenantsHubs acme_store) [h]))
            /\ hub_name h = String.append "Hub-" (toString36 1700000000000).
Proof.
  apply (heartbeat_names_generated_hub acme_store _ acme_context "acme-co" 3 1700000000000).
  - lia.
  - reflexivity.
  - reflexivity.
  - vm_compute. reflexivity.
  - intros h [].
Defined.

Lemma authenticateApiKey_cases (st : Store) (r : Request) :
  (exists r', authenticateApiKey st r = (Next r', st))
  \/ (exists e m, authenticateApiKey st r = (Fail 401 e m, st))
  \/ authenticateApiKey st r
     = (Fail 500 "Authentication failed" "Internal server error during authentication", st).
Proof.
  unfold authenticateApiKey. destruct (extractApiKey r) as [k|]; [|right; left; eauto].
  destruct (truthy_str (hdr_x_api_key r) || pg_text_ok k); [|right; right; reflexivity].
  destruct (findActiveByApiKey st k) as [t|]; [|right; left; eauto].
  left. rewrite trackApiUsage_store. eauto.
Qed.

Lemma authenticateHubLicense_cases (st : Store) (r : Request) :
  (exists r', authenticateHubLicense st r = (Next r', st))
  \/ (exists e m, authenticateHubLicense st r = (Fail 401 e m, st)).
Proof.
  unfold authenticateHubLicense.
  destruct (negb (truthy_str (hdr_x_license_key r)) || negb (truthy_str (hdr_x_hub_serial r)));
    [right; eauto|].
  destruct (hdr_x_license_key r) as [lk|]; [|right; eauto].
  destruct (hdr_x_hub_serial r) as [hs|]; [|right; eauto].
  destruct (findActiveByKeyAndSerial st lk hs) as [[l t]|]; [|right; eauto].
  destruct (license_expired (req_now r) l); [right; eauto|].
  left. rewrite trackApiUsage_store. eauto.
Qed.

Lemma requirePermission_no_user (p : string) (st : Store) (r : Request) (c : TenantContext) :
  req_tenant r = Some c -> ctx_user c = None ->
  requirePermission p st r
  = (Fail 403 "User authentication required" "This endpoint requires user-level authentication", st).
Proof. intros Hc Hu. unfold requirePermission. rewrite Hc, Hu. reflexivity. Qed.

Lemma rateLimitByTier_cases (st : Store) (r : Request) :
  (exists r', rateLimitByTier st r = (Next r', st) /\ req_tenant r' = req_tenant r)
  \/ rateLimitByTier st r
     = (Fail 500 "Internal Server Error" "Invalid character in header content [X-RateLimit-Tier]", st).
Proof.
  unfold rateLimitByTier. destruct (req_tenant r) eqn:E.
  - destruct (header_value_ok _); [left|right; reflexivity].
    eexists; split; [reflexivity|]. cbn. exact E.
  - left. exists r. split; [reflexivity|]. exact E.
Qed.

Lemma rateLimitByTier_keeps_tenant (st : Store) (r : Request) (c : TenantContext) :
  req_tenant r = Some c -> header_value_ok (snap_subscriptionTier (ctx_tenant c)) = true ->
  exists r', rateLimitByTier st r = (Next r', st) /\ req_tenant r' = req_tenant r.
Proof.
  intros Hc Hv. unfold rateLimitByTier. rewrite Hc, Hv.
  eexists; split; [reflexivity|]. cbn. exact Hc.
Qed.

(** X4: [requirePermission(p)] lets a request through, unchanged, exactly
    when the context carries a user whose permission list holds [p];
    otherwise it answers 403 ("User authentication required" without a
    user, "Permission denied" with one).  It never touches the store. *)
Theorem requirePermission_spec (p : string) (st : Store) (r : Request) :
  (requirePermission p st r = (Next r, st)
   /\ exists c u, req_tenant r = Some c /\ ctx_user c = Some u /\ In p (user_permissions u))
  \/ ((exists e m, requirePermission p st r = (Fail 403 e m, st))
      /\ ~ exists c u, req_tenant r = Some c /\ ctx_user c = Some u /\ In p (user_permissions u)).
Proof.
  unfold requirePermission.
  destruct (req_tenant r) as [c|] eqn:Hc.
  - destruct (ctx_user c) as [u|] eqn:Hu.
    + destruct (existsb (String.eqb p) (user_permissions u)) eqn:Hin; simpl.
      * left. split; [reflexivity|]. exists c, u. repeat split; auto.
        apply existsb_exists in Hin as [x [Hx Hpx]]. apply String.eqb_eq in Hpx. now subst.
      * right. split; [eauto|]. intros [c' [u' [Hc' [Hu' Hp]]]].
        injection Hc' as <-. rewrite Hu in Hu'. injection Hu' as <-.
        assert (existsb (String.eqb p) (user_permissions u) = true)
          by (apply existsb_exists; exists p; split; [exact Hp|apply String.eqb_refl]).
        congruence.
    + right. split; [eauto|]. intros [c' [u' [Hc' [Hu' _]]]].
      injection Hc' as <-. congruence.
  - right. split; [eauto|]. intros [c' [u' [Hc' _]]]. discriminate.
Qed.

(** X5: no handler placed behind [requirePermission] on the tenant or hub
    routes is ever run: both authentications build a context without a
    user, so every request ends in their 401, in one of the 500s of the
    tenant pipeline (the key lookup failing on a NUL, a tier that is not
    a valid header value), or in the 403 "User authentication required",
    and the store is left as it was. *)
Theorem requirePermission_unreachable (p : string) (h : Middleware) (st : Store) (r : Request) :
  ((exists e m, run_chain [authenticateApiKey; rateLimitByTier; requirePermission p; h] st r
                = (Fail 401 e m, st))
   \/ run_chain [authenticateApiKey; rateLimitByTier; requirePermission p; h] st r
      = (Fail 500 "Authentication failed" "Internal server error during authentication", st)
   \/ run_chain [authenticateApiKey; rateLimitByTier; requirePermission p; h] st r
      = (Fail 500 "Internal Server Error" "Invalid character in header content [X-RateLimit-Tier]", st)
   \/ run_chain [authenticateApiKey; rateLimitByTier; requirePermission p; h] st r
      = (Fail 403 "User authentication required"
              "This endpoint requires user-level authentication", st))
  /\ ((exists e m, run_chain [authenticateHubLicense; requirePermission p; h] st r
                   = (Fail 401 e m, st))
      \/ run_chain [authenticateHubLicense; requirePermission p; h] st r
         = (Fail 403 "User authentication required"
                 "This endpoint requires user-level authentication", st)).
Proof.
  split.
  - destruct (authenticateApiKey_cases st r) as [[r' Ha]|[[e [m Ha]]|Ha]].
    + cbn [run_chain]. rewrite Ha.
      destruct (authenticateApiKey_next st r r' st Ha) as [c [Hr' [Hu _]]].
      destruct (rateLimitByTier_cases st r') as [[r'' [Hl Ht]]|Hl]; rewrite Hl.
      * right; right; right.
        rewrite (requirePermission_no_user p st r'' c); [reflexivity| |exact Hu].
        rewrite Ht, Hr'. reflexivity.
      * right; right; left. reflexivity.
    + left. exists e, m. cbn [run_chain]. rewrite Ha. reflexivity.
    + right; left. cbn [run_chain]. rewrite Ha. reflexivity.
  - destruct (authenticateHubLicense_cases st r) as [[r' Ha]|[e [m Ha]]].
    + right. cbn [run_chain]. rewrite Ha.
      destruct (authenticateHubLicense_next st r r' st Ha) as [c [Hr' [Hu _]]].
      rewrite (requirePermission_no_user p st r' c); [reflexivity| |exact Hu].
      rewrite Hr'. reflexivity.
    + left. exists e, m. cbn [run_chain]. rewrite Ha. reflexivity.
Qed.

Lemma indexOf_tierHierarchy (x : string) :
  indexOf tierHierarchy x
  = if String.eqb x "basic" then 0 else if String.eqb x "pro" then 1
    else if String.eqb x "enterprise" then 2 else -1.
Proof.
  unfold tierHierarchy. cbn [indexOf].
  rewrite !(String.eqb_sym _ x).
  destruct (String.eqb x "basic"); [reflexivity|].
  destruct (String.eqb x "pro"); [reflexivity|].
  destruct (String.eqb x "enterprise"); reflexivity.
Qed.

Lemma tierHierarchy_rank (x : string) :
  (x = "basic" /\ indexOf tierHierarchy x = 0) \/ (x = "pro" /\ indexOf tierHierarchy x = 1)
  \/ (x = "enterprise" /\ indexOf tierHierarchy x = 2)
  \/ (~ In x tierHierarchy /\ indexOf tierHierarchy x = -1).
Proof.
  rewrite indexOf_tierHierarchy.
  destruct (String.eqb_spec x "basic"); [left; auto|].
  destruct (String.eqb_spec x "pro"); [right; left; auto|].
  destruct (String.eqb_spec x "enterprise"); [right; right; left; auto|].
  right; right; right. split; [|reflexivity]. simpl. intuition congruence.
Qed.

Lemma tierHierarchy_rank_out (x : string) :
  indexOf tierHierarchy x = -1 <-> ~ In x tierHierarchy.
Proof.
  destruct (tierHierarchy_rank x) as [[-> ->]|[[-> ->]|[[-> ->]|[Hn ->]]]];
    (split; intros H; [try discriminate|]);
    try (exfalso; apply H; unfold tierHierarchy; simpl; tauto); auto.
Qed.

(** X6: once a tenant context is set, [requireSubscriptionTier(minTier)]
    ranks tiers basic < pro < enterprise: ["basic"] admits the three
    listed tiers, ["pro"] admits pro and enterprise, ["enterprise"] only
    enterprise.  A tenant tier outside the list is refused even for
    ["basic"], and a [minTier] outside the list admits every tenant.  The
    guard answers either [next()] with the request unchanged or 403, and
    never touches the store. *)
Theorem requireSubscriptionTier_spec (minTier : string) (st : Store) (r : Request) (c : TenantContext) :
  req_tenant r = Some c ->
  let tier := snap_subscriptionTier (ctx_tenant c) in
  (requireSubscriptionTier "basic" st r = (Next r, st) <-> In tier tierHierarchy)
  /\ (requireSubscriptionTier "pro" st r = (Next r, st) <-> tier = "pro" \/ tier = "enterprise")
  /\ (requireSubscriptionTier "enterprise" st r = (Next r, st) <-> tier = "enterprise")
  /\ (~ In minTier tierHierarchy -> requireSubscriptionTier minTier st r = (Next r, st))
  /\ (requireSubscriptionTier minTier st r = (Next r, st)
      \/ requireSubscriptionTier minTier st r
         = (Fail 403 "Subscription upgrade required"
                 (String.append "This feature requires "
                                (String.append minTier " subscription or higher")), st)).
Proof.
  intros Hc tier.
  assert (Hg : forall m, requireSubscriptionTier m st r
     = if indexOf tierHierarchy tier <? indexOf tierHierarchy m then
         (Fail 403 "Subscription upgrade required"
               (String.append "This feature requires "
                              (String.append m " subscription or higher")), st)
       else (Next r, st)) by (intros m; unfold requireSubscriptionTier; rewrite Hc; reflexivity).
  clearbody tier.
  split; [|split; [|split; [|split]]].
  - rewrite Hg. change (indexOf tierHierarchy "basic") with 0.
    destruct (tierHierarchy_rank tier) as [[E I]|[[E I]|[[E I]|[N I]]]]; rewrite I; cbn;
      split; intros H; tier_solve.
  - rewrite Hg. change (indexOf tierHierarchy "pro") with 1.
    destruct (tierHierarchy_rank tier) as [[E I]|[[E I]|[[E I]|[N I]]]]; rewrite I; cbn;
      split; intros H; tier_solve.
  - rewrite Hg. change (indexOf tierHierarchy "enterprise") with 2.
    destruct (tierHierarchy_rank tier) as [[E I]|[[E I]|[[E I]|[N I]]]]; rewrite I; cbn;
      split; intros H; tier_solve.
  - intros Hm. rewrite Hg, (proj2 (tierHierarchy_rank_out minTier) Hm).
    destruct (tierHierarchy_rank tier) as [[E I]|[[E I]|[[E I]|[N I]]]]; rewrite I; reflexivity.
  - rewrite Hg. destruct (_ <? _); [right|left]; reflexivity.
Qed.

Lemma requireSubscriptionTier_spec_witness :
  requireSubscriptionTier "enterprise" acme_store beta_request = (Next beta_request, acme_store)
  <-> snap_subscriptionTier (ctx_tenant acme_context) = "enterprise".
Proof.
  exact (proj1 (proj2 (proj2
    (requireSubscriptionTier_spec "enterprise" acme_store beta_request acme_context eq_refl)))).
Defined.

Lemma authenticateApiKey_found (st : Store) (r : Request) (k : string) (t : Tenant) :
  extractApiKey r = Some k -> findActiveByApiKey st k = Some t ->
  authenticateApiKey st r
  = (Next (set_tenant r (mkTenantContext (tenant_id t) (snapshot_of t) None)), st).
Proof.
  intros Hk Ht. unfold authenticateApiKey.
  rewrite Hk, (findActiveByApiKey_text st k t Ht), orb_true_r, Ht, trackApiUsage_store.
  reflexivity.
Qed.

(** X7: on [GET /api/tenant/analytics/usage], a request whose key belongs
    to an active tenant reaches the handler, with that tenant in its
    context, exactly when the tenant's tier is pro or enterprise; any
    other tier (basic, or a name outside the tier list) that is a valid
    header value gets 403 "Subscription upgrade required", and a tier that
    is not a valid header value gets 500 from [rateLimitByTier]; in both
    cases the handler never runs. *)
Theorem analyticsRoute_tier_gate (h : Middleware) (st : Store) (r : Request) (k : string) (t : Tenant) :
  extractApiKey r = Some k -> findActiveByApiKey st k = Some t ->
  exists r', req_tenant r' = Some (mkTenantContext (tenant_id t) (snapshot_of t) None)
    /\ ((tenant_subscriptionTier t = "pro" \/ tenant_subscriptionTier t = "enterprise") ->
        run_chain (analyticsRoute h) st r = run_chain [h] st r')
    /\ (~ (tenant_subscriptionTier t = "pro" \/ tenant_subscriptionTier t = "enterprise") ->
        header_value_ok (tenant_subscriptionTier t) = true ->
        run_chain (analyticsRoute h) st r
        = (Fail 403 "Subscription upgrade required"
                "This feature requires pro subscription or higher", st))
    /\ (header_value_ok (tenant_subscriptionTier t) = false ->
        run_chain (analyticsRoute h) st r
        = (Fail 500 "Internal Server Error" "Invalid character in header content [X-RateLimit-Tier]", st)).
Proof.
  intros Hk Ht.
  set (c := mkTenantContext (tenant_id t) (snapshot_of t) None).
  set (tier := tenant_subscriptionTier t).
  set (r2 := set_header (set_header (set_tenant r c) "X-RateLimit-Limit" (tierLimit tier))
                        "X-RateLimit-Tier" (JStr tier)).
  exists r2. split; [reflexivity|].
  assert (Hrl : rateLimitByTier st (set_tenant r c)
                = if header_value_ok tier then (Next r2, st)
                  else (Fail 500 "Internal Server Error"
                             "Invalid character in header content [X-RateLimit-Tier]", st))
    by reflexivity.
  assert (Hrun : run_chain (analyticsRoute h) st r
                 = match rateLimitByTier st (set_tenant r c) with
                   | (Next r', st') => run_chain [requireSubscriptionTier "pro"; h] st' r'
                   | res => res
                   end).
  { unfold analyticsRoute. cbn [run_chain]. rewrite (authenticateApiKey_found st r k t Hk Ht).
    reflexivity. }
  assert (Hgate : requireSubscriptionTier "pro" st r2
                  = if indexOf tierHierarchy tier <? 1 then
                      (Fail 403 "Subscription upgrade required"
                            "This feature requires pro subscription or higher", st)
                    else (Next r2, st)) by reflexivity.
  rewrite Hrun, Hrl.
  destruct (header_value_ok tier) eqn:Hv; cbv beta iota.
  - cbn [run_chain]. rewrite Hgate.
    destruct (tierHierarchy_rank tier) as [[E I]|[[E I]|[[E I]|[N I]]]]; rewrite I; cbn.
    + split; [intros [H|H]; rewrite E in H; discriminate|].
      split; [intros _ _; reflexivity|intros H; discriminate].
    + split; [intros _; reflexivity|].
      split; [intros H; exfalso; apply H; left; exact E|intros H; discriminate].
    + split; [intros _; reflexivity|].
      split; [intros H; exfalso; apply H; right; exact E|intros H; discriminate].
    + split; [intros H; exfalso; apply N; destruct H as [H|H]; rewrite H; tier_in|].
      split; [intros _ _; reflexivity|intros H; discriminate].
  - split; [intros [H|H]; rewrite H in Hv; vm_compute in Hv; discriminate|].
    split; [intros _ H; discriminate|intros _; reflexivity].
Qed.

Lemma analyticsRoute_tier_gate_witness :
  exists r', req_tenant r' = Some (mkTenantContext (tenant_id acme) (snapshot_of acme) None)
    /\ ((tenant_subscriptionTier acme = "pro" \/ tenant_subscriptionTier acme = "enterprise") ->
        run_chain (analyticsRoute analytics_handler) acme_store admin_api_request
        = run_chain [analytics_handler] acme_store r')
    /\ (~ (tenant_subscriptionTier acme = "pro" \/ tenant_subscriptionTier acme = "enterprise") ->
        header_value_ok (tenant_subscriptionTier acme) = true ->
        run_chain (analyticsRoute analytics_handler) acme_store admin_api_request
        = (Fail 403 "Subscription upgrade required"
                "This feature requires pro subscription or higher", acme_store))
    /\ (header_value_ok (tenant_subscriptionTier acme) = false ->
        run_chain (analyticsRoute analytics_handler) acme_store admin_api_request
        = (Fail 500 "Internal Server Error" "Invalid character in header content [X-RateLimit-Tier]",
           acme_store)).
Proof.
  apply (analyticsRoute_tier_gate analytics_handler acme_store admin_api_request "ak_acme" acme);
    reflexivity.
Defined.

(** Character facts, checked over all 256 characters. *)
Lemma ascii_forall (p : ascii -> bool) :
  forallb (fun n => p (ascii_of_nat n)) (seq 0 256) = true -> forall c, p c = true.
Proof.
  intros H c. rewrite forallb_forall in H.
  rewrite <- (ascii_nat_embedding c). apply H. apply in_seq.
  pose proof (nat_ascii_bounded c). lia.
Qed.

Lemma slug_or_dash_fixed (c : ascii) :
  slug_or_dash c = true -> js_lower c = c /\ dash_others c = c.
Proof.
  intros H.
  assert (A : forall c, implb (slug_or_dash c)
                          (Ascii.eqb (js_lower c) c && Ascii.eqb (dash_others c) c) = true)
    by (apply ascii_forall; vm_compute; reflexivity).
  specialize (A c). rewrite H in A. simpl in A.
  apply andb_prop in A as [A1 A2]. apply Ascii.eqb_eq in A1, A2. auto.
Qed.

Lemma dash_others_slug (c : ascii) : slug_or_dash (dash_others c) = true.
Proof. revert c. apply ascii_forall. vm_compute. reflexivity. Qed.

Lemma slug_or_dash_not_space (c : ascii) : slug_or_dash c = true -> js_space c = false.
Proof.
  intros H.
  assert (A : forall c, implb (slug_or_dash c) (negb (js_space c)) = true)
    by (apply ascii_forall; vm_compute; reflexivity).
  specialize (A c). rewrite H in A. simpl in A. now destruct (js_space c).
Qed.

Lemma map_chars_id (f : ascii -> ascii) (p : ascii -> bool) (s : string) :
  (forall c, p c = true -> f c = c) -> all_chars p s = true -> map_chars f s = s.
Proof.
  intros Hf. induction s as [|c s IH]; simpl; [reflexivity|].
  intros H. apply andb_prop in H as [Hc Hs]. rewrite Hf, IH; auto.
Qed.

Lemma map_chars_all (f : ascii -> ascii) (p : ascii -> bool) (s : string) :
  (forall c, p (f c) = true) -> all_chars p (map_chars f s) = true.
Proof. intros Hf. induction s as [|c s IH]; simpl; [reflexivity|]. now rewrite Hf, IH. Qed.

Lemma map_chars_length (f : ascii -> ascii) (s : string) :
  String.length (map_chars f s) = String.length s.
Proof. induction s as [|c s IH]; simpl; [reflexivity|]. now rewrite IH. Qed.

Lemma collapse_dashes_all (p : ascii -> bool) (s : string) (b : bool) :
  all_chars p s = true -> all_chars p (collapse_dashes s b) = true.
Proof.
  revert b. induction s as [|c s IH]; intros b H; simpl; [reflexivity|].
  simpl in H. apply andb_prop in H as [Hc Hs].
  destruct (Ascii.eqb c "-"%char); [destruct b|]; simpl; try rewrite Hc; simpl; auto.
Qed.

Lemma collapse_dashes_length (s : string) (b : bool) :
  (String.length (collapse_dashes s b) <= String.length s)%nat.
Proof.
  revert b. induction s as [|c s IH]; intros b; simpl; [lia|].
  pose proof (IH true); pose proof (IH false).
  destruct (Ascii.eqb c "-"%char); [destruct b|]; simpl; lia.
Qed.

Lemma collapse_dashes_in_run (s : string) : starts_with_dash (collapse_dashes s true) = false.
Proof.
  induction s as [|c s IH]; simpl; [reflexivity|].
  destruct (Ascii.eqb c "-"%char) eqn:E; [exact IH|]. simpl. exact E.
Qed.

Lemma no_double_dash_cons (c : ascii) (s : string) :
  no_double_dash (String c s)
  = negb (Ascii.eqb c "-"%char && starts_with_dash s) && no_double_dash s.
Proof. destruct s as [|d s]; simpl; [now destruct (Ascii.eqb c "-"%char)|reflexivity]. Qed.

Lemma collapse_dashes_no_double (s : string) (b : bool) :
  no_double_dash (collapse_dashes s b) = true.
Proof.
  revert b. induction s as [|c s IH]; intros b; simpl; [reflexivity|].
  destruct (Ascii.eqb c "-"%char) eqn:E; [destruct b; [apply IH|]|];
    rewrite no_double_dash_cons, IH, ?E.
  - now rewrite collapse_dashes_in_run.
  - reflexivity.
Qed.

Lemma collapse_dashes_id (s : string) (b : bool) :
  no_double_dash s = true -> (b = true -> starts_with_dash s = false) ->
  collapse_dashes s b = s.
Proof.
  revert b. induction s as [|c s IH]; intros b H Hb; simpl; [reflexivity|].
  rewrite no_double_dash_cons in H. apply andb_prop in H as [H1 H2].
  destruct (Ascii.eqb c "-"%char) eqn:E.
  - destruct b; [specialize (Hb eq_refl); simpl in Hb; congruence|].
    rewrite IH; [reflexivity|exact H2|]. intros _. simpl in H1.
    now destruct (starts_with_dash s).
  - rewrite IH; [reflexivity|exact H2|discriminate].
Qed.

Lemma rev_str_app (a b : string) :
  rev_str (String.append a b) = String.append (rev_str b) (rev_str a).
Proof.
  induction a as [|c a IH]; simpl.
  - induction (rev_str b) as [|x s IHs]; simpl; [reflexivity|now rewrite <- IHs].
  - rewrite IH. apply append_assoc_str.
Qed.

Lemma rev_str_involutive (s : string) : rev_str (rev_str s) = s.
Proof.
  induction s as [|c s IH]; simpl; [reflexivity|]. rewrite rev_str_app, IH. reflexivity.
Qed.

Lemma all_chars_rev (p : ascii -> bool) (s : string) :
  all_chars p (rev_str s) = all_chars p s.
Proof.
  induction s as [|c s IH]; simpl; [reflexivity|].
  rewrite all_chars_app, IH. simpl. now rewrite andb_true_r, andb_comm.
Qed.

Lemma rev_str_length (s : string) : String.length (rev_str s) = String.length s.
Proof. induction s as [|c s IH]; simpl; [reflexivity|]. rewrite string_length_app, IH. simpl. lia. Qed.

Lemma trim_start_id (s : string) :
  all_chars (fun c => negb (js_space c)) s = true -> trim_start s = s.
Proof.
  destruct s as [|c s]; simpl; [reflexivity|]. intros H.
  apply andb_prop in H as [H _]. now destruct (js_space c).
Qed.

Lemma trim_start_length (s : string) : (String.length (trim_start s) <= String.length s)%nat.
Proof. induction s as [|c s IH]; simpl; [lia|]. destruct (js_space c); simpl; lia. Qed.

Lemma trim_start_all (p : ascii -> bool) (s : string) :
  all_chars p s = true -> all_chars p (trim_start s) = true.
Proof.
  induction s as [|c s IH]; simpl; [reflexivity|]. intros H.
  destruct (js_space c); [|exact H]. apply andb_prop in H as [_ H]. auto.
Qed.

Lemma all_chars_impl (p q : ascii -> bool) (s : string) :
  (forall c, p c = true -> q c = true) -> all_chars p s = true -> all_chars q s = true.
Proof.
  intros Hpq. induction s as [|c s IH]; simpl; [reflexivity|]. intros H.
  apply andb_prop in H as [H1 H2]. now rewrite Hpq, IH.
Qed.

Lemma js_trim_id (s : string) : all_chars slug_or_dash s = true -> js_trim s = s.
Proof.
  intros H.
  assert (Hn : all_chars (fun c => negb (js_space c)) s = true).
  { apply (all_chars_impl slug_or_dash); [|exact H].
    intros c Hc. now rewrite slug_or_dash_not_space. }
  unfold js_trim. rewrite (trim_start_id s Hn), trim_start_id, rev_str_involutive;
    [reflexivity|]. now rewrite all_chars_rev.
Qed.

Lemma slugify_pre (name : string) :
  all_chars slug_or_dash (collapse_dashes (map_chars dash_others (map_chars js_lower name)) false)
  = true.
Proof. apply collapse_dashes_all, map_chars_all, dash_others_slug. Qed.

Lemma slugify_eq (name : string) :
  slugify name = collapse_dashes (map_chars dash_others (map_chars js_lower name)) false.
Proof. unfold slugify. apply js_trim_id, slugify_pre. Qed.

(** X8: the slug of a company name made of Latin-1 characters, after
    [toLowerCase], the two [replace] calls and [trim('-')], is made only
    of [a-z], [0-9] and dashes, never holds two dashes in a row, and is
    no longer than the name. *)
Theorem slugify_shape (name : string) :
  all_chars slug_or_dash (slugify name) = true
  /\ no_double_dash (slugify name) = true
  /\ (String.length (slugify name) <= String.length name)%nat.
Proof.
  rewrite slugify_eq. split; [apply slugify_pre|]. split; [apply collapse_dashes_no_double|].
  eapply Nat.le_trans; [apply collapse_dashes_length|]. now rewrite !map_chars_length.
Qed.

Lemma slugify_pg_text (name : string) : pg_text_ok (slugify name) = true.
Proof.
  unfold pg_text_ok. apply (all_chars_impl slug_or_dash).
  - intros c Hc. destruct (Ascii.eqb_spec c Ascii.zero) as [->|_]; [|reflexivity].
    vm_compute in Hc. discriminate.
  - rewrite slugify_eq. apply slugify_pre.
Qed.

(** X9: computing the slug of a slug gives it back unchanged. *)
Theorem slugify_idempotent (name : string) : slugify (slugify name) = slugify name.
Proof.
  assert (Hs : all_chars slug_or_dash (slugify name) = true) by (rewrite slugify_eq; apply slugify_pre).
  assert (Hd : no_double_dash (slugify name) = true)
    by (rewrite slugify_eq; apply collapse_dashes_no_double).
  rewrite (slugify_eq (slugify name)).
  rewrite (map_chars_id js_lower slug_or_dash) by (auto; intros c Hc; apply slug_or_dash_fixed, Hc).
  rewrite (map_chars_id dash_others slug_or_dash) by (auto; intros c Hc; apply slug_or_dash_fixed, Hc).
  apply collapse_dashes_id; [exact Hd|discriminate].
Qed.

(** X10: [trim('-')] removes no dash: a Latin-1 name whose first
    character does not lower-case to [a-z] or [0-9] (a space,
    punctuation, an accented capital) gets a slug that starts with a
    dash. *)
Theorem slugify_leading_dash (c : ascii) (rest : string) :
  slug_char (js_lower c) = false -> starts_with_dash (slugify (String c rest)) = true.
Proof.
  intros Hc. rewrite slugify_eq.
  assert (Hd : dash_others (js_lower c) = "-"%char) by (unfold dash_others; now rewrite Hc).
  simpl. rewrite Hd. reflexivity.
Qed.

Lemma slugify_leading_dash_witness :
  slug_char (js_lower " "%char) = false /\ starts_with_dash (slugify " Acme ") = true.
Proof. split; [reflexivity|]. apply slugify_leading_dash. reflexivity. Defined.

(** X11: the signup body must carry a [slug] (and a [name]): the insert
    schema requires both, although the handler computes the slug itself
    and discards the one sent; without them the answer is 400
    "Validation error" and no tenant is created. *)
Theorem signup_requires_name_and_slug (apiKey : string) (b : TenantBody) (st : Store) :
  tb_name b = None \/ tb_slug b = None ->
  createTenant apiKey b st = (Fail 400 "Validation error" "", st).
Proof.
  intros H. unfold createTenant, parseInsertTenant.
  destruct H as [H|H]; rewrite H; [reflexivity|]. destruct (tb_name b); reflexivity.
Qed.

Lemma signup_requires_name_and_slug_witness :
  (tb_name (signup_body "Acme Security" None) = None
   \/ tb_slug (signup_body "Acme Security" None) = None)
  /\ createTenant "ak_new" (signup_body "Acme Security" None) acme_store
     = (Fail 400 "Validation error" "", acme_store).
Proof.
  split; [right; reflexivity|].
  apply signup_requires_name_and_slug. right. reflexivity.
Defined.

Lemma add_tenant_fields (st : Store) (t : Tenant) :
  pg_text_ok (tenant_apiKey t) = true ->
  tenants (add_tenant st t) = app (tenants st) [t]
  /\ hubLicenses (add_tenant st t) = hubLicenses st
  /\ tenantsHubs (add_tenant st t) = tenantsHubs st.
Proof.
  intros H. unfold add_tenant.
  destruct (Bool.bool_dec (pg_text_ok (tenant_apiKey t)) true) as [Ht|Hf].
  - repeat split.
  - contradiction.
Qed.

Lemma add_tenant_tenants (st : Store) (t : Tenant) :
  pg_text_ok (tenant_apiKey t) = true -> tenants (add_tenant st t) = app (tenants st) [t].
Proof. intros H. exact (proj1 (add_tenant_fields st t H)). Qed.

Lemma insert_tenant_ok (st st' : Store) (v : TenantBody) (t : Tenant) :
  insert_tenant st v t = DbOk st' -> pg_text_ok (tenant_apiKey t) = true /\ st' = add_tenant st t.
Proof.
  unfold insert_tenant.
  destruct (negb (fits 100 _ && _)); [discriminate|].
  destruct (negb (pg_text_ok (tenant_name t) && _ && _ && _ && _ && _ && _ && _ && _)) eqn:Htext;
    [discriminate|].
  destruct (existsb _ (tenants st)); [discriminate|].
  intros H. injection H as <-. split; [|reflexivity].
  apply negb_false_iff in Htext. rewrite !andb_true_iff in Htext. tauto.
Qed.

Lemma insert_tenant_fresh (st : Store) (v : TenantBody) (t : Tenant) :
  (fits 100 (Some (tenant_slug t)) && fits 128 (Some (tenant_apiKey t))) = true ->
  (pg_text_ok (tenant_name t) && pg_text_ok (tenant_slug t)
   && pg_text_ok (tenant_apiKey t) && pg_text_ok (tenant_subscriptionTier t)
   && pg_text_ok (tenant_status t)
   && pg_opt_text_ok (tb_billingEmail v) && pg_opt_text_ok (tb_contactPhone v)
   && json_strings_ok (tb_address v) && json_strings_ok (tb_settings v)) = true ->
  (forall x, In x (tenants st) ->
     (String.eqb (tenant_slug x) (tenant_slug t) || String.eqb (tenant_apiKey x) (tenant_apiKey t))
     = false) ->
  insert_tenant st v t = DbOk (add_tenant st t).
Proof.
  intros Hlen Htext Hfree. unfold insert_tenant. rewrite Hlen, Htext.
  rewrite existsb_false_intro by exact Hfree. reflexivity.
Qed.

Lemma createTenant_done (apiKey : string) (b : TenantBody) (st st' : Store) (s : Z) (m : string) :
  createTenant apiKey b st = (Done s m, st') ->
  exists n t, tb_name b = Some n /\ tenants st' = app (tenants st) [t]
              /\ tenant_slug t = slugify n /\ tenant_apiKey t = apiKey
              /\ hubLicenses st' = hubLicenses st /\ tenantsHubs st' = tenantsHubs st.
Proof.
  unfold createTenant, parseInsertTenant.
  destruct (tb_name b) as [n|] eqn:Hn; [|discriminate].
  destruct (tb_slug b) as [sl|]; [|discriminate].
  destruct (fits 255 (Some n) && _ && _ && _ && _ && _ && _ && _); [|discriminate].
  rewrite Hn. cbn [opt_default].
  destruct (existsb _ (tenants st)); [discriminate|].
  destruct (insert_tenant st b _) as [st1|] eqn:Hins; [|discriminate].
  apply insert_tenant_ok in Hins. destruct Hins as [Hk ->].
  intros H. injection H as _ _ <-.
  destruct (add_tenant_fields st _ Hk) as [H1 [H2 H3]].
  do 2 eexists. repeat split; [exact H1| | | exact H2 | exact H3]; reflexivity.
Qed.

Lemma createTenant_parsed (apiKey : string) (b : TenantBody) (st : Store) (n : string) :
  parseInsertTenant b = Some b -> tb_name b = Some n ->
  createTenant apiKey b st
  = if existsb (fun t => String.eqb (tenant_slug t) (slugify n)) (tenants st) then
      (Fail 400 "Tenant name already exists" "Please choose a different company name", st)
    else
      let t := {| tenant_id := next_serial (map tenant_id (tenants st));
                  tenant_name := n; tenant_slug := slugify n; tenant_apiKey := apiKey;
                  tenant_subscriptionTier := opt_default (tb_subscriptionTier b) "basic";
                  tenant_maxHubs := opt_default (tb_maxHubs b) 5;
                  tenant_maxCameras := opt_default (tb_maxCameras b) 50;
                  tenant_status := "active" |} in
      match insert_tenant st b t with
      | DbOk st' => (Done 201 "Tenant created successfully. Save your API key securely!", st')
      | DbError _ => (Fail 500 "Failed to create tenant" "", st)
      end.
Proof. intros Hp Hn. unfold createTenant. rewrite Hp, Hn. reflexivity. Qed.

(** X12: two company names with the same slug cannot both sign up: once
    a signup has succeeded, any valid signup whose name gives the same
    slug ("Acme Inc" and "ACME, inc" both give "acme-inc") gets 400
    "Tenant name already exists" and leaves the store as it was. *)
Theorem signup_duplicate_slug (k1 k2 : string) (b1 b2 : TenantBody) (st st1 : Store)
    (m n1 n2 : string) :
  createTenant k1 b1 st = (Done 201 m, st1) -> tb_name b1 = Some n1 ->
  parseInsertTenant b2 = Some b2 -> tb_name b2 = Some n2 -> slugify n2 = slugify n1 ->
  createTenant k2 b2 st1
  = (Fail 400 "Tenant name already exists" "Please choose a different company name", st1).
Proof.
  intros H1 Hn1 Hp2 Hn2 Hslug.
  destruct (createTenant_done k1 b1 st st1 201 m H1) as [n [t [Hn [Ht [Hs _]]]]].
  rewrite Hn1 in Hn. injection Hn as <-.
  rewrite (createTenant_parsed k2 b2 st1 n2 Hp2 Hn2).
  replace (existsb _ (tenants st1)) with true; [reflexivity|].
  symmetry. apply existsb_exists. exists t. split.
  - rewrite Ht. apply in_or_app. right. now left.
  - rewrite Hs, Hslug. apply String.eqb_refl.
Qed.

Lemma signup_duplicate_slug_witness :
  createTenant "ak_2" (signup_body "ACME, inc" (Some "x"))
               (snd (createTenant "ak_1" (signup_body "Acme Inc" (Some "x")) acme_store))
  = (Fail 400 "Tenant name already exists" "Please choose a different company name",
     snd (createTenant "ak_1" (signup_body "Acme Inc" (Some "x")) acme_store)).
Proof.
  apply (signup_duplicate_slug "ak_1" "ak_2" (signup_body "Acme Inc" (Some "x"))
           (signup_body "ACME, inc" (Some "x")) acme_store _
           "Tenant created successfully. Save your API key securely!" "Acme Inc" "ACME, inc").
  - vm_compute. reflexivity.
  - reflexivity.
  - reflexivity.
  - reflexivity.
  - vm_compute. reflexivity.
Defined.

Lemma find_app_last {A : Type} (f : A -> bool) (l : list A) (x : A) :
  (forall y, In y l -> f y = false) -> f x = true -> find f (app l [x]) = Some x.
Proof.
  induction l as [|a l IH]; intros H Hx; simpl; [now rewrite Hx|].
  rewrite (H a (or_introl eq_refl)). apply IH; auto. intros y Hy. apply H. now right.
Qed.

(** X13: a valid signup whose slug is free, fits the [varchar(100)]
    column, whose generated key is new and fits [varchar(128)], and whose
    text holds no NUL answers 201 and appends one tenant: status "active"
    whatever the body says, the slug computed from the name (the body's
    slug is discarded), the tier, hub and camera defaults of the schema.
    The returned key then authenticates: [authenticateApiKey] passes a
    request carrying it on with the new tenant in its context. *)
Theorem signup_then_authenticate (apiKey : string) (b : TenantBody) (st : Store) (n : string)
    (r : Request) :
  parseInsertTenant b = Some b -> tb_name b = Some n ->
  signup_text_ok apiKey b = true ->
  (forall t, In t (tenants st) -> tenant_slug t <> slugify n /\ tenant_apiKey t <> apiKey) ->
  (String.length (slugify n) <= 100)%nat ->
  extractApiKey r = Some apiKey ->
  exists t st', createTenant apiKey b st
                = (Done 201 "Tenant created successfully. Save your API key securely!", st')
    /\ tenants st' = app (tenants st) [t]
    /\ tenant_name t = n /\ tenant_slug t = slugify n /\ tenant_status t = "active"
    /\ tenant_subscriptionTier t = opt_default (tb_subscriptionTier b) "basic"
    /\ tenant_maxHubs t = opt_default (tb_maxHubs b) 5
    /\ tenant_maxCameras t = opt_default (tb_maxCameras b) 50
    /\ authenticateApiKey st' r
       = (Next (set_tenant r (mkTenantContext (tenant_id t) (snapshot_of t) None)), st').
Proof.
  intros Hp Hn Htext Hfree Hlen Hk.
  unfold signup_text_ok in Htext. rewrite !andb_true_iff in Htext.
  destruct Htext as [[[[[[[H128 Hkey] Hname] Htier] Hemail] Hphone] Haddr] Hset].
  rewrite Hn in Hname. cbn [pg_opt_text_ok] in Hname.
  rewrite (createTenant_parsed apiKey b st n Hp Hn).
  rewrite existsb_false_intro
    by (intros t Ht; apply String.eqb_neq; exact (proj1 (Hfree t Ht))).
  cbv zeta. rewrite insert_tenant_fresh.
  2:{ cbn [tenant_slug tenant_apiKey]. rewrite H128, andb_true_r.
      unfold fits. apply Nat.leb_le. exact Hlen. }
  2:{ cbn [tenant_name tenant_slug tenant_apiKey tenant_subscriptionTier tenant_status].
      rewrite Hname, slugify_pg_text, Hkey, Hemail, Hphone, Haddr, Hset.
      destruct (tb_subscriptionTier b) as [tier|]; cbn [opt_default pg_opt_text_ok] in *;
        [rewrite Htier|]; reflexivity. }
  2:{ intros x Hx. destruct (Hfree x Hx) as [H1 H2]. cbn [tenant_slug tenant_apiKey].
      apply String.eqb_neq in H1, H2. now rewrite H1, H2. }
  eexists; eexists; split; [reflexivity|].
  split; [apply add_tenant_tenants; exact Hkey|].
  repeat split; try reflexivity.
  apply authenticateApiKey_found with (k := apiKey); [exact Hk|].
  unfold findActiveByApiKey. rewrite add_tenant_tenants by exact Hkey.
  apply find_app_last.
  - intros t Ht. destruct (Hfree t Ht) as [_ H2]. apply String.eqb_neq in H2. now rewrite H2.
  - cbn. now rewrite String.eqb_refl.
Qed.

Lemma signup_then_authenticate_witness :
  exists t st', createTenant "ak_new" (signup_body "Beta Labs" (Some "beta")) acme_store
                = (Done 201 "Tenant created successfully. Save your API key securely!", st')
    /\ tenants st' = app (tenants acme_store) [t]
    /\ tenant_name t = "Beta Labs" /\ tenant_slug t = slugify "Beta Labs"
    /\ tenant_status t = "active"
    /\ tenant_subscriptionTier t = opt_default (tb_subscriptionTier (signup_body "Beta Labs" (Some "beta"))) "basic"
    /\ tenant_maxHubs t = opt_default (tb_maxHubs (signup_body "Beta Labs" (Some "beta"))) 5
    /\ tenant_maxCameras t = opt_default (tb_maxCameras (signup_body "Beta Labs" (Some "beta"))) 50
    /\ authenticateApiKey st' (key_request "ak_new")
       = (Next (set_tenant (key_request "ak_new") (mkTenantContext (tenant_id t) (snapshot_of t) None)), st').
Proof.
  apply signup_then_authenticate.
  - reflexivity.
  - reflexivity.
  - reflexivity.
  - intros t Ht. vm_compute in Ht.
    repeat (destruct Ht as [<-|Ht]; [split; discriminate|]). destruct Ht.
  - vm_compute. lia.
  - reflexivity.
Defined.

(** X14: the computed slug is stored in a [varchar(100)] column while the
    name may have 255 characters: a valid signup whose slug is free but
    longer than 100 characters fails at the insert and answers 500
    "Failed to create tenant", the store unchanged. *)
Theorem signup_long_slug_fails (apiKey : string) (b : TenantBody) (st : Store) (n : string) :
  parseInsertTenant b = Some b -> tb_name b = Some n ->
  (forall t, In t (tenants st) -> tenant_slug t <> slugify n) ->
  (100 < String.length (slugify n))%nat ->
  createTenant apiKey b st = (Fail 500 "Failed to create tenant" "", st).
Proof.
  intros Hp Hn Hfree Hlen.
  rewrite (createTenant_parsed apiKey b st n Hp Hn).
  rewrite existsb_false_intro by (intros t Ht; apply String.eqb_neq; exact (Hfree t Ht)).
  cbv zeta. unfold insert_tenant. cbn [tenant_slug].
  replace (fits 100 (Some (slugify n))) with false
    by (unfold fits; symmetry; apply Nat.leb_gt; exact Hlen).
  reflexivity.
Qed.

Lemma signup_long_slug_fails_witness :
  createTenant "ak_new" (signup_body (repeat_char 101 "a"%char) (Some "a")) acme_store
  = (Fail 500 "Failed to create tenant" "", acme_store).
Proof.
  apply (signup_long_slug_fails _ _ _ (repeat_char 101 "a"%char)).
  - vm_compute. reflexivity.
  - reflexivity.
  - intros t Ht. vm_compute in Ht.
    repeat (destruct Ht as [<-|Ht]; [discriminate|]). destruct Ht.
  - vm_compute. lia.
Defined.

Lemma list_ascii_app (a b : string) :
  list_ascii_of_string (String.append a b) = app (list_ascii_of_string a) (list_ascii_of_string b).
Proof. induction a as [|c a IH]; simpl; [reflexivity|]. now rewrite IH. Qed.

Lemma parse_digits_app (l1 l2 : list ascii) (a : Z) :
  parse_digits (app l1 l2) a
  = match parse_digits l1 a with Some v => parse_digits l2 v | None => None end.
Proof.
  revert a. induction l1 as [|c l1 IH]; intros a; simpl; [reflexivity|].
  destruct (_ && _); [apply IH|reflexivity].
Qed.

Lemma digits_of_nat_parse (fuel : nat) : forall n acc a,
  (n < fuel)%nat ->
  exists p, 10 <= p /\ ((n < 10)%nat -> p = 10)
    /\ parse_digits (list_ascii_of_string (digits_of_nat fuel n acc)) a
       = parse_digits (list_ascii_of_string acc) (a * p + Z.of_nat n).
Proof.
  induction fuel as [|f IH]; intros n acc a Hn; [lia|].
  assert (Hdm : (n = 10 * (n / 10) + n mod 10)%nat) by (apply Nat.div_mod; lia).
  assert (Hm : (n mod 10 < 10)%nat) by (apply Nat.mod_upper_bound; lia).
  assert (Hch : forall a, parse_digits (list_ascii_of_string (String (ascii_of_nat (48 + n mod 10)%nat) acc)) a
                = parse_digits (list_ascii_of_string acc) (10 * a + Z.of_nat (n mod 10)%nat)).
  { intros a'. cbn [list_ascii_of_string parse_digits].
    rewrite nat_ascii_embedding by lia.
    replace (Z.of_nat (48 + n mod 10)%nat - 48) with (Z.of_nat (n mod 10)%nat) by lia.
    replace ((0 <=? Z.of_nat (n mod 10)%nat) && (Z.of_nat (n mod 10)%nat <=? 9)) with true
      by (symmetry; apply andb_true_iff; split; [apply Z.leb_le|apply Z.leb_le]; lia).
    reflexivity. }
  cbn [digits_of_nat].
  destruct (Nat.ltb n 10) eqn:Hlt.
  - apply Nat.ltb_lt in Hlt. exists 10. split; [lia|]. split; [reflexivity|].
    rewrite Hch. f_equal. rewrite Nat.mod_small by lia. lia.
  - apply Nat.ltb_ge in Hlt.
    destruct (IH (n / 10)%nat (String (ascii_of_nat (48 + n mod 10)%nat) acc) a) as [p [Hp [_ Hpar]]].
    { apply Nat.lt_le_trans with n; [apply Nat.div_lt; lia|lia]. }
    exists (10 * p). split; [lia|]. split; [lia|].
    rewrite Hpar, Hch. f_equal.
    rewrite Hdm at 3. rewrite Nat2Z.inj_add, Nat2Z.inj_mul. nia.
Qed.

Lemma Z_to_string_parse (z : Z) (a : Z) :
  0 <= z ->
  exists p, 10 <= p /\ (z < 10 -> p = 10)
    /\ parse_digits (list_ascii_of_string (Z_to_string z)) a = Some (a * p + z).
Proof.
  intros Hz. unfold Z_to_string.
  replace (z <? 0) with false by (symmetry; apply Z.ltb_ge; exact Hz).
  destruct (digits_of_nat_parse (S (Z.to_nat (Z.abs z))) (Z.to_nat (Z.abs z)) "" a)
    as [p [Hp [H10 Hpar]]]; [lia|].
  exists p. split; [exact Hp|]. split; [intros Hlt; apply H10; lia|].
  rewrite Hpar. simpl. f_equal. lia.
Qed.

Lemma js_number_of_string_parse (s : string) :
  js_number_of_string s = parse_digits (list_ascii_of_string s) 0.
Proof. unfold js_number_of_string. destruct (list_ascii_of_string s); reflexivity. Qed.

(** The value the camera check compares with [maxCameras]. *)
Lemma camera_check_value (count_as_text : bool) (c k : Z) :
  0 <= c -> 0 <= k ->
  exists v, (forall m, js_gt_num (js_add_num (pg_count count_as_text c) k) m = (v >? m))
    /\ c + k <= v
    /\ (count_as_text = false -> v = c + k)
    /\ (count_as_text = true -> k < 10 -> v = 10 * c + k).
Proof.
  intros Hc Hk. destruct count_as_text.
  - destruct (Z_to_string_parse c 0 Hc) as [p1 [Hp1 [_ H1]]].
    destruct (Z_to_string_parse k (0 * p1 + c) Hk) as [p2 [Hp2 [H10 H2]]].
    exists (c * p2 + k). cbn [pg_count js_add_num js_gt_num].
    split; [|split; [|split]].
    + intros m. rewrite js_number_of_string_parse, list_ascii_app, parse_digits_app, H1, H2.
      replace ((0 * p1 + c) * p2 + k) with (c * p2 + k) by lia. reflexivity.
    + nia.
    + discriminate.
    + intros _ Hlt. rewrite (H10 Hlt). lia.
  - exists (c + k). cbn [pg_count js_add_num js_gt_num]. split; [reflexivity|]. split; [lia|].
    split; [reflexivity|discriminate].
Qed.

Lemma camera_rows_spec (tid hubId : Z) (cs : list CameraInput) : forall id new,
  camera_rows tid hubId id cs = Some new ->
  length new = length cs
  /\ Forall (fun x => cam_tenantId x = tid /\ cam_hubId x = hubId) new.
Proof.
  induction cs as [|ci cs IH]; intros id new H; simpl in H.
  - injection H as <-. split; [reflexivity|constructor].
  - destruct (camera_row_of tid hubId id ci) as [row|] eqn:Hrow; [|discriminate].
    destruct (camera_rows tid hubId (id + 1) cs) as [rows|] eqn:Hrows; [|discriminate].
    injection H as <-. destruct (IH (id + 1) rows Hrows) as [Hl Hf].
    split; [simpl; now rewrite Hl|]. constructor; [|exact Hf].
    unfold camera_row_of in Hrow.
    destruct (ci_name ci), (ci_ipAddress ci); try discriminate.
    destruct (fits 255 (Some _) && _ && _ && _ && _ && _); [|discriminate]. injection Hrow as <-. split; reflexivity.
Qed.


Lemma find_hub_some (st : Store) (tid : Z) (hs : string) (h : HubRow) :
  find_hub st tid hs = Some h ->
  In h (tenantsHubs st) /\ hub_tenantId h = tid /\ hub_serialNumber h = hs.
Proof.
  unfold find_hub. intros H. apply find_some in H as [Hin Hf].
  apply andb_prop in Hf as [H1 H2]. apply Z.eqb_eq in H1. apply String.eqb_eq in H2. auto.
Qed.

Lemma addCameras_done (count_as_text : bool) (cams : option (list CameraInput))
    (hst hst' : HubStore) (r : Request) (s : Z) (m : string) :
  addCameras count_as_text cams hst r = (Done s m, hst') ->
  exists c hs hub cs new,
    req_tenant r = Some c /\ hdr_x_hub_serial r = Some hs
    /\ find_hub (hs_db hst) (ctx_tenantId c) hs = Some hub /\ cams = Some cs
    /\ js_gt_num (js_add_num (pg_count count_as_text (camera_count hst (ctx_tenantId c)))
                             (Z.of_nat (length cs))) (snap_maxCameras (ctx_tenant c)) = false
    /\ hst' = with_cameras hst (app (hs_cameras hst) new)
    /\ length new = length cs
    /\ Forall (fun x => cam_tenantId x = ctx_tenantId c /\ cam_hubId x = hub_id hub) new.
Proof.
  unfold addCameras.
  destruct (req_tenant r) as [c|] eqn:Hc; [|discriminate].
  destruct (hdr_x_hub_serial r) as [hs|] eqn:Hhs; [|discriminate].
  destruct (find_hub (hs_db hst) (ctx_tenantId c) hs) as [hub|] eqn:Hhub; [|discriminate].
  destruct cams as [cs|]; [|discriminate].
  destruct (js_gt_num _ _) eqn:Hgt; [discriminate|].
  unfold insert_cameras. destruct cs as [|ci cs']; [discriminate|].
  destruct (camera_rows _ _ _ _) as [new|] eqn:Hrows; [|discriminate].
  intros H. injection H as _ _ <-.
  destruct (camera_rows_spec _ _ _ _ _ Hrows) as [Hl Hf].
  exists c, hs, hub, (ci :: cs'), new. repeat split; auto.
Qed.

(** X15: the rows [POST /api/hub/cameras] inserts all belong to the
    tenant of the authenticated license and to that tenant's hub named
    by the [X-Hub-Serial] header, whatever [tenantId] or [hubId] the
    report carries; one row is added per reported camera, after the
    existing ones, and the other tables are untouched. *)
Theorem addCameras_attribution (count_as_text : bool) (cams : option (list CameraInput))
    (hst hst' : HubStore) (r : Request) (s : Z) (m : string) :
  addCameras count_as_text cams hst r = (Done s m, hst') ->
  exists c hub cs new,
    req_tenant r = Some c /\ cams = Some cs
    /\ In hub (tenantsHubs (hs_db hst)) /\ hub_tenantId hub = ctx_tenantId c
    /\ hdr_x_hub_serial r = Some (hub_serialNumber hub)
    /\ hs_cameras hst' = app (hs_cameras hst) new /\ length new = length cs
    /\ Forall (fun x => cam_tenantId x = ctx_tenantId c /\ cam_hubId x = hub_id hub) new
    /\ hs_db hst' = hs_db hst /\ hs_events hst' = hs_events hst.
Proof.
  intros H.
  destruct (addCameras_done _ _ _ _ _ _ _ H)
    as [c [hs [hub [cs [new [Hc [Hhs [Hhub [Hcs [_ [-> [Hl Hf]]]]]]]]]]]].
  destruct (find_hub_some _ _ _ _ Hhub) as [Hin [Ht Hser]].
  exists c, hub, cs, new. repeat split; auto. now rewrite Hser.
Qed.

Lemma addCameras_attribution_witness :
  exists c hub cs new,
    req_tenant (hub_request "AO-ACME-SECURITY-001-a") = Some c
    /\ Some [camera_input "Gate"; camera_input "Lobby"] = Some cs
    /\ In hub (tenantsHubs (hs_db (hub_store 0))) /\ hub_tenantId hub = ctx_tenantId c
    /\ hdr_x_hub_serial (hub_request "AO-ACME-SECURITY-001-a") = Some (hub_serialNumber hub)
    /\ hs_cameras (snd (addCameras true (Some [camera_input "Gate"; camera_input "Lobby"])
                                   (hub_store 0) (hub_request "AO-ACME-SECURITY-001-a")))
       = app (hs_cameras (hub_store 0)) new
    /\ length new = length cs
    /\ Forall (fun x => cam_tenantId x = ctx_tenantId c /\ cam_hubId x = hub_id hub) new
    /\ hs_db (snd (addCameras true (Some [camera_input "Gate"; camera_input "Lobby"])
                              (hub_store 0) (hub_request "AO-ACME-SECURITY-001-a")))
       = hs_db (hub_store 0)
    /\ hs_events (snd (addCameras true (Some [camera_input "Gate"; camera_input "Lobby"])
                                  (hub_store 0) (hub_request "AO-ACME-SECURITY-001-a")))
       = hs_events (hub_store 0).
Proof.
  apply (addCameras_attribution true _ (hub_store 0) _ _ 201 "cameras").
  vm_compute. reflexivity.
Defined.

Lemma camera_count_app (hst : HubStore) (new : list CameraRow) (tid : Z) :
  Forall (fun x => cam_tenantId x = tid) new ->
  camera_count (with_cameras hst (app (hs_cameras hst) new)) tid
  = camera_count hst tid + Z.of_nat (length new).
Proof.
  intros Hf. unfold camera_count. cbn [with_cameras hs_cameras].
  rewrite filter_app, List.length_app, Nat2Z.inj_add. f_equal. f_equal.
  induction Hf as [|x l Hx Hl IH]; simpl; [reflexivity|].
  rewrite Hx, Z.eqb_refl. simpl. now rewrite IH.
Qed.

(** X16: [POST /api/hub/cameras] never takes a tenant past its camera
    cap: after a successful report the tenant has at most [maxCameras]
    cameras.  This holds whether the driver returns [count( * )] as a
    number or as its decimal text: the text [count + cameras.length]
    builds reads as a number at least as large as the sum. *)
Theorem addCameras_respects_cap (count_as_text : bool) (cams : option (list CameraInput))
    (hst hst' : HubStore) (r : Request) (s : Z) (m : string) (c : TenantContext) :
  addCameras count_as_text cams hst r = (Done s m, hst') -> req_tenant r = Some c ->
  camera_count hst' (ctx_tenantId c) <= snap_maxCameras (ctx_tenant c).
Proof.
  intros H Hc.
  destruct (addCameras_done _ _ _ _ _ _ _ H)
    as [c' [hs [hub [cs [new [Hc' [_ [_ [_ [Hgt [-> [Hl Hf]]]]]]]]]]]].
  rewrite Hc in Hc'. injection Hc' as <-.
  rewrite camera_count_app by (eapply Forall_impl; [|exact Hf]; intros x [Hx _]; exact Hx).
  assert (H0 : 0 <= camera_count hst (ctx_tenantId c)) by (unfold camera_count; lia).
  destruct (camera_check_value count_as_text (camera_count hst (ctx_tenantId c))
              (Z.of_nat (length cs)) H0 ltac:(lia)) as [v [Hv [Hle _]]].
  rewrite Hv, Z.gtb_ltb in Hgt. apply Z.ltb_ge in Hgt. rewrite Hl. lia.
Qed.

Lemma addCameras_respects_cap_witness :
  camera_count (snd (addCameras true (Some [camera_input "Gate"]) (hub_store 3)
                                (hub_request "AO-ACME-SECURITY-001-a"))) 1 <= 50.
Proof.
  apply (addCameras_respects_cap true (Some [camera_input "Gate"]) (hub_store 3) _
           (hub_request "AO-ACME-SECURITY-001-a") 201 "cameras" acme_context).
  - vm_compute. reflexivity.
  - reflexivity.
Defined.

Lemma addCameras_checked (count_as_text : bool) (cs : list CameraInput) (hst : HubStore)
    (r : Request) (c : TenantContext) (hs : string) (hub : HubRow) :
  req_tenant r = Some c -> hdr_x_hub_serial r = Some hs ->
  find_hub (hs_db hst) (ctx_tenantId c) hs = Some hub ->
  addCameras count_as_text (Some cs) hst r
  = if js_gt_num (js_add_num (pg_count count_as_text (camera_count hst (ctx_tenantId c)))
                             (Z.of_nat (length cs))) (snap_maxCameras (ctx_tenant c)) then
      (Fail 400 "Camera limit exceeded"
            (String.append "Your subscription allows maximum "
                           (String.append (Z_to_string (snap_maxCameras (ctx_tenant c))) " cameras")),
       hst)
    else
      match insert_cameras (hs_cameras hst) (ctx_tenantId c) (hub_id hub) cs with
      | DbOk rows => (Done 201 "cameras", with_cameras hst rows)
      | DbError _ => (Fail 500 "Failed to add cameras" "", hst)
      end.
Proof. intros Hc Hhs Hhub. unfold addCameras. rewrite Hc, Hhs, Hhub. reflexivity. Qed.

(** X17: with the driver returning [count( * )] as text (as PostgreSQL
    drivers do for [bigint]), [count + cameras.length] is a string
    concatenation: with [n] cameras stored and fewer than ten reported,
    the check compares [10 * n + k] with [maxCameras].  A report that
    keeps the tenant under its cap is refused with 400 "Camera limit
    exceeded" once [10 * n + k] passes the cap (5 stored, 1 reported,
    cap 50), while a driver returning a number would not refuse it. *)
Theorem addCameras_text_count_rejects (cs : list CameraInput) (hst : HubStore) (r : Request)
    (c : TenantContext) (hs : string) (hub : HubRow) :
  req_tenant r = Some c -> hdr_x_hub_serial r = Some hs ->
  find_hub (hs_db hst) (ctx_tenantId c) hs = Some hub ->
  (length cs < 10)%nat ->
  snap_maxCameras (ctx_tenant c) < 10 * camera_count hst (ctx_tenantId c) + Z.of_nat (length cs) ->
  addCameras true (Some cs) hst r
  = (Fail 400 "Camera limit exceeded"
          (String.append "Your subscription allows maximum "
                         (String.append (Z_to_string (snap_maxCameras (ctx_tenant c))) " cameras")),
     hst)
  /\ (camera_count hst (ctx_tenantId c) + Z.of_nat (length cs) <= snap_maxCameras (ctx_tenant c) ->
      forall e msg, fst (addCameras false (Some cs) hst r) <> Fail 400 e msg).
Proof.
  intros Hc Hhs Hhub Hlen Hgt.
  assert (H0 : 0 <= camera_count hst (ctx_tenantId c)) by (unfold camera_count; lia).
  split.
  - rewrite (addCameras_checked true cs hst r c hs hub Hc Hhs Hhub).
    destruct (camera_check_value true (camera_count hst (ctx_tenantId c))
                (Z.of_nat (length cs)) H0 ltac:(lia)) as [v [Hv [_ [_ Hten]]]].
    rewrite Hv, (Hten eq_refl) by lia.
    replace (_ >? _) with true by (symmetry; rewrite Z.gtb_ltb; apply Z.ltb_lt; lia).
    reflexivity.
  - intros Hsum e msg.
    rewrite (addCameras_checked false cs hst r c hs hub Hc Hhs Hhub).
    destruct (camera_check_value false (camera_count hst (ctx_tenantId c))
                (Z.of_nat (length cs)) H0 ltac:(lia)) as [v [Hv [_ [Hnum _]]]].
    rewrite Hv, (Hnum eq_refl).
    replace (_ >? _) with false by (symmetry; rewrite Z.gtb_ltb; apply Z.ltb_ge; lia).
    destruct (insert_cameras _ _ _ _); discriminate.
Qed.

Lemma addCameras_text_count_rejects_witness :
  addCameras true (Some [camera_input "Gate"]) (hub_store 5) (hub_request "AO-ACME-SECURITY-001-a")
  = (Fail 400 "Camera limit exceeded"
          (String.append "Your subscription allows maximum "
                         (String.append (Z_to_string 50) " cameras")),
     hub_store 5)
  /\ (camera_count (hub_store 5) 1 + 1 <= 50 ->
      forall e msg, fst (addCameras false (Some [camera_input "Gate"]) (hub_store 5)
                                    (hub_request "AO-ACME-SECURITY-001-a")) <> Fail 400 e msg).
Proof.
  apply (addCameras_text_count_rejects [camera_input "Gate"] (hub_store 5)
           (hub_request "AO-ACME-SECURITY-001-a") acme_context "AO-ACME-SECURITY-001-a" acme_hub).
  - reflexivity.
  - reflexivity.
  - reflexivity.
  - simpl. lia.
  - vm_compute. reflexivity.
Defined.

(** X18: a hub request whose [X-Hub-Serial] names no hub row of the
    authenticated tenant (no heartbeat yet, or a row of another tenant
    with the same serial) gets 404 "Hub not found" from both
    [POST /api/hub/cameras] and [POST /api/hub/events], and nothing is
    stored. *)
Theorem hub_reports_need_registered_hub (count_as_text : bool) (cams : option (list CameraInput))
    (evs : option (list EventInput)) (hst : HubStore) (r : Request) (c : TenantContext) (hs : string) :
  req_tenant r = Some c -> hdr_x_hub_serial r = Some hs ->
  (forall h, In h (tenantsHubs (hs_db hst)) -> hub_tenantId h = ctx_tenantId c ->
             hub_serialNumber h <> hs) ->
  addCameras count_as_text cams hst r = (Fail 404 "Hub not found" "", hst)
  /\ addEvents evs hst r = (Fail 404 "Hub not found" "", hst).
Proof.
  intros Hc Hhs Hnone.
  assert (Hf : find_hub (hs_db hst) (ctx_tenantId c) hs = None).
  { unfold find_hub. apply find_none_intro. intros h Hin.
    destruct (hub_tenantId h =? ctx_tenantId c) eqn:Ht; [|reflexivity].
    apply Z.eqb_eq in Ht. simpl. apply String.eqb_neq. exact (Hnone h Hin Ht). }
  unfold addCameras, addEvents. rewrite Hc, Hhs, Hf. split; reflexivity.
Qed.

Lemma hub_reports_need_registered_hub_witness :
  addCameras true (Some [camera_input "Gate"]) (hub_store 0) (hub_request "AO-ACME-SECURITY-002-b")
  = (Fail 404 "Hub not found" "", hub_store 0)
  /\ addEvents (Some [event_input "Door"]) (hub_store 0) (hub_request "AO-ACME-SECURITY-002-b")
     = (Fail 404 "Hub not found" "", hub_store 0).
Proof.
  apply (hub_reports_need_registered_hub true _ _ (hub_store 0) _ acme_context "AO-ACME-SECURITY-002-b").
  - reflexivity.
  - reflexivity.
  - intros h [<-|[]] _. discriminate.
Defined.

(** X19: an empty report is never stored: with [cameras: []] the answer
    is 400 (the text count can pass the cap on its own) or 500 "Failed to
    add cameras", as Drizzle refuses [values([])]; with [events: []] it is
    404 or 500 "Failed to add events".  No table changes. *)
Theorem hub_reports_empty_lists (count_as_text : bool) (hst : HubStore) (r : Request) :
  (fst (addCameras count_as_text (Some []) hst r) = Fail 404 "Hub not found" ""
   \/ fst (addCameras count_as_text (Some []) hst r) = Fail 500 "Failed to add cameras" ""
   \/ exists msg, fst (addCameras count_as_text (Some []) hst r) = Fail 400 "Camera limit exceeded" msg)
  /\ snd (addCameras count_as_text (Some []) hst r) = hst
  /\ (addEvents (Some []) hst r = (Fail 404 "Hub not found" "", hst)
      \/ addEvents (Some []) hst r = (Fail 500 "Failed to add events" "", hst)).
Proof.
  unfold addCameras, addEvents.
  destruct (req_tenant r) as [c|]; [|simpl; auto].
  destruct (hdr_x_hub_serial r) as [hs|]; [|simpl; auto].
  destruct (find_hub (hs_db hst) (ctx_tenantId c) hs) as [hub|]; [|simpl; auto].
  destruct (js_gt_num _ _); simpl; [split; [right; right; eauto|auto]|auto].
Qed.





(** X21: a heartbeat from a hub that already has a row, whose status,
    [ipAddress] and [version] fit their [varchar] columns and whose text
    holds no NUL ([heartbeat_fields_ok]), updates that row in place and
    answers 200 "Heartbeat received": the table keeps its
    length, rows with another id are untouched, and the hub's row keeps
    its id, tenant, name and serial while its status becomes the reported
    one, or "online" when the report has none or an empty one, and its
    last heartbeat becomes the request time. *)
Theorem heartbeat_updates_in_place (st : Store) (r : Request) (c : TenantContext) (hs : string)
    (h0 : HubRow) :
  req_tenant r = Some c -> hdr_x_hub_serial r = Some hs ->
  find_hub st (ctx_tenantId c) hs = Some h0 ->
  heartbeat_fields_ok (heartbeat_status (req_body r)) (req_body r) = true ->
  exists hs', hubHeartbeat st r = (Done 200 "Heartbeat received", with_tenantsHubs st hs')
    /\ length hs' = length (tenantsHubs st)
    /\ Forall2 (fun old new =>
         (hub_id old <> hub_id h0 -> new = old)
         /\ (hub_id old = hub_id h0 ->
             hub_id new = hub_id old /\ hub_tenantId new = hub_tenantId old
             /\ hub_name new = hub_name old /\ hub_serialNumber new = hub_serialNumber old
             /\ hub_lastHeartbeat new = Some (req_now r)
             /\ ((body_status (req_body r) = None \/ body_status (req_body r) = Some "") ->
                 hub_status new = "online")
             /\ (forall s, body_status (req_body r) = Some s -> s <> "" -> hub_status new = s)))
       (tenantsHubs st) hs'.
Proof.
  intros Hc Hhs Hf Hok. unfold find_hub in Hf.
  unfold hubHeartbeat. rewrite Hc, Hhs, Hf, Hok. cbn [negb].
  eexists. split; [reflexivity|]. split; [apply length_map|].
  clear Hf. induction (tenantsHubs st) as [|x l IH]; [constructor|].
  simpl. constructor; [|exact IH].
  destruct (Z.eqb_spec (hub_id x) (hub_id h0)) as [E|E]; split; intros H; try contradiction.
  - repeat split; cbn [hub_id hub_tenantId hub_name hub_serialNumber hub_lastHeartbeat hub_status];
      try reflexivity.
    + intros [Hn|Hn]; unfold heartbeat_status; rewrite Hn; reflexivity.
    + intros s Hs Hne. unfold heartbeat_status. rewrite Hs. simpl. destruct (String.eqb_spec s ""); [contradiction|reflexivity].
  - reflexivity.
Qed.

Lemma heartbeat_updates_in_place_witness :
  exists hs', hubHeartbeat (with_tenantsHubs acme_store [acme_hub]) (status_request (Some ""))
              = (Done 200 "Heartbeat received", with_tenantsHubs (with_tenantsHubs acme_store [acme_hub]) hs')
    /\ length hs' = length [acme_hub]
    /\ Forall2 (fun old new =>
         (hub_id old <> hub_id acme_hub -> new = old)
         /\ (hub_id old = hub_id acme_hub ->
             hub_id new = hub_id old /\ hub_tenantId new = hub_tenantId old
             /\ hub_name new = hub_name old /\ hub_serialNumber new = hub_serialNumber old
             /\ hub_lastHeartbeat new = Some (req_now (status_request (Some "")))
             /\ ((body_status (req_body (status_request (Some ""))) = None
                  \/ body_status (req_body (status_request (Some ""))) = Some "") ->
                 hub_status new = "online")
             /\ (forall s, body_status (req_body (status_request (Some ""))) = Some s -> s <> "" ->
                 hub_status new = s)))
       [acme_hub] hs'.
Proof.
  apply (heartbeat_updates_in_place (with_tenantsHubs acme_store [acme_hub]) (status_request (Some ""))
           acme_context "AO-ACME-SECURITY-001-a" acme_hub); reflexivity.
Defined.

(** X22: [authenticateHubLicense] accepts an active license of an active
    tenant, given with its serial, that has no expiry date or whose expiry
    date is not before the request time: expiry is strict, so a request
    at the very millisecond of [expiresAt] still passes.  The request goes
    on with the license's tenant as context, without a user. *)
Theorem authenticateHubLicense_accepts (st : Store) (r : Request) (lk hs : string)
    (l : HubLicense) (t : Tenant) :
  hdr_x_license_key r = Some lk -> lk <> "" -> hdr_x_hub_serial r = Some hs -> hs <> "" ->
  findActiveByKeyAndSerial st lk hs = Some (l, t) ->
  (lic_expiresAt l = None \/ exists e, lic_expiresAt l = Some e /\ req_now r <= e) ->
  authenticateHubLicense st r
  = (Next (set_tenant r (mkTenantContext (lic_tenantId l) (snapshot_of t) None)), st).
Proof.
  intros Hlk Hlk0 Hhs Hhs0 Hf Hexp.
  unfold authenticateHubLicense. rewrite Hlk, Hhs, (truthy_some lk Hlk0), (truthy_some hs Hhs0).
  simpl negb. cbv iota. rewrite Hf.
  replace (license_expired (req_now r) l) with false.
  - rewrite trackApiUsage_store. reflexivity.
  - unfold license_expired. destruct Hexp as [-> | [e [-> He]]]; [reflexivity|].
    symmetry. rewrite Z.gtb_ltb. apply Z.ltb_ge. exact He.
Qed.

Lemma authenticateHubLicense_accepts_witness :
  authenticateHubLicense boundary_store (heartbeat_request "AO-ACME-SECURITY-009-z" "lk_edge")
  = (Next (set_tenant (heartbeat_request "AO-ACME-SECURITY-009-z" "lk_edge")
                      (mkTenantContext 1 (snapshot_of acme) None)), boundary_store).
Proof.
  apply (authenticateHubLicense_accepts boundary_store _ "lk_edge" "AO-ACME-SECURITY-009-z"
           boundary_license acme).
  - reflexivity.
  - discriminate.
  - reflexivity.
  - discriminate.
  - reflexivity.
  - right. exists 1700000000000. split; [reflexivity|]. simpl. lia.
Defined.

(** X23: a hub request missing [X-License-Key] or [X-Hub-Serial], or
    sending one of them empty, gets 401 "Hub authentication required"
    before any lookup, whatever the store holds. *)
Theorem authenticateHubLicense_missing_headers (st : Store) (r : Request) :
  truthy_str (hdr_x_license_key r) = false \/ truthy_str (hdr_x_hub_serial r) = false ->
  authenticateHubLicense st r
  = (Fail 401 "Hub authentication required" "Provide X-License-Key and X-Hub-Serial headers", st).
Proof.
  intros H. unfold authenticateHubLicense.
  destruct H as [H|H]; rewrite H; simpl; [reflexivity|].
  now rewrite orb_true_r.
Qed.

Lemma authenticateHubLicense_missing_headers_witness :
  authenticateHubLicense acme_store (sample_request None (Some "lk_one") (Some "") "/heartbeat" empty_body)
  = (Fail 401 "Hub authentication required" "Provide X-License-Key and X-Hub-Serial headers", acme_store).
Proof. apply authenticateHubLicense_missing_headers. right. reflexivity. Defined.

(** X24: the [X-API-Key] header takes precedence over the [api_key] query
    value: a non-empty header that matches no active tenant gets 401
    "Invalid API key" even when the query value is a valid key, while an
    empty header counts as absent and the query value is used. *)
Theorem api_key_header_precedence (st : Store) (r : Request) (kh kq : string) (t : Tenant) :
  (hdr_x_api_key r = Some kh -> kh <> "" -> findActiveByApiKey st kh = None ->
   authenticateApiKey st r
   = (Fail 401 "Invalid API key" "API key not found or tenant is inactive", st))
  /\ (hdr_x_api_key r = Some "" -> query_api_key r = Some kq -> kq <> "" ->
      findActiveByApiKey st kq = Some t ->
      authenticateApiKey st r
      = (Next (set_tenant r (mkTenantContext (tenant_id t) (snapshot_of t) None)), st)).
Proof.
  split.
  - intros Hh Hne Hf. unfold authenticateApiKey.
    assert (Hk : extractApiKey r = Some kh).
    { unfold extractApiKey, js_or. rewrite Hh, (truthy_some kh Hne). now rewrite (truthy_some kh Hne). }
    rewrite Hk, Hf, Hh, (truthy_some kh Hne). reflexivity.
  - intros Hh Hq Hne Hf. apply authenticateApiKey_found with (k := kq); [|exact Hf].
    unfold extractApiKey, js_or. rewrite Hh, Hq. change (truthy_str (Some "")) with false.
    cbv iota. now rewrite (truthy_some kq Hne).
Qed.

Lemma api_key_header_precedence_witness :
  authenticateApiKey acme_store (two_key_request "ak_wrong" "ak_acme")
  = (Fail 401 "Invalid API key" "API key not found or tenant is inactive", acme_store).
Proof.
  apply (proj1 (api_key_header_precedence acme_store (two_key_request "ak_wrong" "ak_acme")
                  "ak_wrong" "ak_acme" acme)).
  - reflexivity.
  - discriminate.
  - reflexivity.
Defined.

(** X25: for a tier that is neither in the rate-limit table nor a
    property every object inherits, and that Node accepts as a header
    value, [rateLimitByTier] falls back to 100: it passes the request on with the headers [X-RateLimit-Limit: 100]
    and [X-RateLimit-Tier: tier] appended, and changes nothing else. *)
Theorem rateLimitByTier_default_limit (st : Store) (r : Request) (c : TenantContext) :
  req_tenant r = Some c ->
  let tier := snap_subscriptionTier (ctx_tenant c) in
  ~ In tier ["basic"; "pro"; "enterprise"] -> ~ In tier ("__proto__" :: object_prototype_methods) ->
  header_value_ok tier = true ->
  exists r', rateLimitByTier st r = (Next r', st)
    /\ res_headers r' = app (res_headers r) [("X-RateLimit-Limit", JNum 100); ("X-RateLimit-Tier", JStr tier)]
    /\ req_tenant r' = req_tenant r /\ req_body r' = req_body r.
Proof.
  intros Hc tier Hn Hp Hh. unfold rateLimitByTier. rewrite Hc. fold tier.
  assert (Hv : rateLimits_get tier = JUndef).
  { unfold rateLimits_get.
    destruct (String.eqb_spec tier "basic"); [exfalso; apply Hn; simpl; auto|].
    destruct (String.eqb_spec tier "pro"); [exfalso; apply Hn; simpl; auto|].
    destruct (String.eqb_spec tier "enterprise"); [exfalso; apply Hn; simpl; auto|].
    destruct (String.eqb_spec tier "__proto__"); [exfalso; apply Hp; simpl; auto|].
    destruct (existsb (String.eqb tier) object_prototype_methods) eqn:E; [|reflexivity].
    exfalso. apply Hp. right. apply existsb_exists in E as [x [Hx Ex]].
    apply String.eqb_eq in Ex. now subst. }
  unfold tierLimit. rewrite Hv, Hh. simpl.
  eexists. split; [reflexivity|]. split; [|split; [exact Hc|reflexivity]].
  simpl. rewrite <- app_assoc. reflexivity.
Qed.

Lemma rateLimitByTier_default_limit_witness :
  exists r', rateLimitByTier acme_store (set_tenant admin_api_request free_context)
             = (Next r', acme_store)
    /\ res_headers r' = app (res_headers (set_tenant admin_api_request free_context))
                            [("X-RateLimit-Limit", JNum 100); ("X-RateLimit-Tier", JStr "free")]
    /\ req_tenant r' = req_tenant (set_tenant admin_api_request free_context)
    /\ req_body r' = req_body (set_tenant admin_api_request free_context).
Proof.
  apply (rateLimitByTier_default_limit acme_store (set_tenant admin_api_request free_context)
           free_context).
  - reflexivity.
  - simpl. intuition discriminate.
  - simpl. intuition discriminate.
  - reflexivity.
Defined.

Lemma digits_prefix_parse (s : string) : forall acc seen v,
  parse_digits (list_ascii_of_string s) acc = Some v -> (seen = true \/ s <> EmptyString) ->
  digits_prefix s acc seen = Some v.
Proof.
  induction s as [|c s IH]; intros acc seen v H Hs; simpl in H |- *.
  - injection H as <-. destruct Hs as [->|Hs]; [reflexivity|contradiction].
  - destruct (_ && _); [|discriminate]. apply IH; [exact H|now left].
Qed.

Lemma digits_of_nat_nonempty (f : nat) : forall n acc, digits_of_nat (S f) n acc <> EmptyString.
Proof.
  induction f as [|f IH]; intros n acc; simpl.
  - destruct (Nat.ltb n 10); discriminate.
  - destruct (Nat.ltb n 10); [discriminate|]. apply IH.
Qed.

Lemma round_double_neg (n : Z) : n < 0 -> round_double n < 0.
Proof.
  intros Hn. unfold round_double. cbv zeta.
  destruct (Z.abs n <? 2 ^ 53) eqn:Hs; [exact Hn|]. apply Z.ltb_ge in Hs.
  rewrite Z.abs_neq in * by lia. rewrite (Z.sgn_neg n Hn).
  assert (H53 : 53 <= Z.log2 (- n)).
  { rewrite <- (Z.log2_pow2 53) by lia. apply Z.log2_le_mono. exact Hs. }
  assert (Hle : 2 ^ (Z.log2 (- n) - 52) <= - n).
  { apply Z.le_trans with (2 ^ Z.log2 (- n)).
    - apply Z.pow_le_mono_r; lia.
    - apply Z.log2_spec. lia. }
  assert (Hpos : 0 < 2 ^ (Z.log2 (- n) - 52)) by (apply Z.pow_pos_nonneg; lia).
  assert (Hq : 0 < - n / 2 ^ (Z.log2 (- n) - 52)) by (apply Z.div_str_pos; lia).
  set (q := - n / 2 ^ (Z.log2 (- n) - 52)) in *.
  set (m := 2 ^ (Z.log2 (- n) - 52)) in *.
  destruct (_ <? _); [|destruct (_ <? _); [|destruct (Z.even q)]]; nia.
Qed.

Lemma parseInt_negative (n : Z) :
  0 < n -> parseInt (Some (String "-"%char (Z_to_string n))) = Some (round_double (- n)).
Proof.
  intros Hn. unfold parseInt. cbn [trim_start]. change (js_space "-"%char) with false. cbv iota.
  destruct (Z_to_string_parse n 0 ltac:(lia)) as [p [_ [_ Hp]]].
  rewrite (digits_prefix_parse _ 0 false n); [reflexivity| |].
  - rewrite Hp. replace (0 * p + n) with n by lia. reflexivity.
  - right. unfold Z_to_string. replace (n <? 0) with false by (symmetry; apply Z.ltb_ge; lia).
    apply digits_of_nat_nonempty.
Qed.

Lemma In_skipn_l {A : Type} (x : A) (m : nat) (l : list A) : In x (skipn m l) -> In x l.
Proof. intros H. rewrite <- (firstn_skipn m l). apply in_or_app. now right. Qed.

Lemma listEvents_ok (hst : HubStore) (r : Request) (lq oq sq : option string)
    (es : list EventRow) (c : TenantContext) :
  listEvents hst r lq oq sq = DbOk es -> req_tenant r = Some c ->
  let after := skipn (Z.to_nat (parseInt_or oq 0))
                     (sort_desc (filter (event_matches c sq) (hs_events hst))) in
  es = (if parseInt_or lq 50 <? 0 then after else firstn (Z.to_nat (parseInt_or lq 50)) after).
Proof.
  intros H Hc. unfold listEvents in H. rewrite Hc in H. cbv zeta in H |- *.
  destruct ((0 <=? parseInt_or lq 50) && _); [discriminate|].
  destruct (parseInt_or oq 0 <? 0); [discriminate|].
  destruct (2 ^ 63 <=? parseInt_or oq 0); [discriminate|].
  injection H as <-. reflexivity.
Qed.

Lemma listEvents_length (hst : HubStore) (r : Request) (lq oq sq : option string)
    (es : list EventRow) :
  0 <= parseInt_or lq 50 ->
  listEvents hst r lq oq sq = DbOk es -> (length es <= Z.to_nat (parseInt_or lq 50))%nat.
Proof.
  intros Hl H. destruct (req_tenant r) as [c|] eqn:Hc;
    [|unfold listEvents in H; rewrite Hc in H; discriminate].
  rewrite (listEvents_ok hst r lq oq sq es c H Hc). cbv zeta.
  replace (parseInt_or lq 50 <? 0) with false by (symmetry; apply Z.ltb_ge; exact Hl).
  rewrite length_firstn. lia.
Qed.

(** X26: [parseInt(limit) || 50] treats [limit=0] like no limit (0 is
    falsy), so [GET /api/tenant/events?limit=0] returns the same page as
    no [limit]: up to 50 events.  A negative [limit] ([limit=-5]) is left
    out of the query by Drizzle, which writes [LIMIT] only for a number
    [>= 0]: the route then returns every event of the tenant, newest
    first, however many there are. *)
Theorem listEvents_limit_parsing (hst : HubStore) (r : Request) (off sev : option string) :
  listEvents hst r (Some "0") off sev = listEvents hst r None off sev
  /\ (forall es, listEvents hst r None off sev = DbOk es -> (length es <= 50)%nat)
  /\ (forall n c, 0 < n -> req_tenant r = Some c ->
      listEvents hst r (Some (String "-"%char (Z_to_string n))) None sev
      = DbOk (sort_desc (filter (event_matches c sev) (hs_events hst)))).
Proof.
  split; [reflexivity|]. split.
  - intros es H. refine (listEvents_length hst r None off sev es _ H).
    unfold parseInt_or. simpl. lia.
  - intros n c Hn Hr. unfold listEvents. rewrite Hr. cbv zeta.
    assert (Hneg : round_double (- n) < 0) by (apply round_double_neg; lia).
    assert (Hl : parseInt_or (Some (String "-"%char (Z_to_string n))) 50 = round_double (- n)).
    { unfold parseInt_or. rewrite (parseInt_negative n Hn).
      replace (round_double (- n) =? 0) with false by (symmetry; apply Z.eqb_neq; lia).
      reflexivity. }
    rewrite Hl.
    replace (0 <=? round_double (- n)) with false by (symmetry; apply Z.leb_gt; lia).
    replace (round_double (- n) <? 0) with true by (symmetry; apply Z.ltb_lt; lia).
    reflexivity.
Qed.

Lemma listEvents_limit_parsing_witness :
  0 < 5 /\ req_tenant (hub_request "AO-ACME-SECURITY-001-a") = Some acme_context
  /\ listEvents (hub_store 0) (hub_request "AO-ACME-SECURITY-001-a")
                (Some (String "-"%char (Z_to_string 5))) None None
     = DbOk (sort_desc (filter (event_matches acme_context None) (hs_events (hub_store 0)))).
Proof.
  split; [lia|]. split; [reflexivity|].
  apply (proj2 (proj2 (listEvents_limit_parsing (hub_store 0) (hub_request "AO-ACME-SECURITY-001-a")
                          None None))).
  - lia.
  - reflexivity.
Defined.

Lemma insert_desc_In (e x : EventRow) (l : list EventRow) :
  In x (insert_desc e l) <-> x = e \/ In x l.
Proof.
  induction l as [|y l IH]; simpl; [intuition congruence|].
  destruct (ev_timestamp y <? ev_timestamp e); simpl; [intuition congruence|].
  rewrite IH. intuition congruence.
Qed.

Lemma sort_desc_In (x : EventRow) (l : list EventRow) : In x (sort_desc l) <-> In x l.
Proof.
  induction l as [|y l IH]; simpl; [tauto|]. rewrite insert_desc_In, IH. intuition congruence.
Qed.

Lemma insert_desc_sorted (e : EventRow) (l : list EventRow) :
  Sorted newer_first l -> Sorted newer_first (insert_desc e l).
Proof.
  induction l as [|y l IH]; intros H; simpl; [repeat constructor|].
  destruct (ev_timestamp y <? ev_timestamp e) eqn:E.
  - apply Z.ltb_lt in E. constructor; [exact H|]. constructor. unfold newer_first. lia.
  - apply Z.ltb_ge in E. apply Sorted_inv in H as [Hl Hh]. constructor; [exact (IH Hl)|].
    destruct l as [|z l]; simpl; [constructor; unfold newer_first; lia|].
    destruct (ev_timestamp z <? ev_timestamp e); constructor; [unfold newer_first; lia|].
    now inversion Hh.
Qed.

Lemma sort_desc_sorted (l : list EventRow) : Sorted newer_first (sort_desc l).
Proof. induction l as [|y l IH]; simpl; [constructor|]. now apply insert_desc_sorted. Qed.

Lemma skipn_sorted (n : nat) (l : list EventRow) :
  Sorted newer_first l -> Sorted newer_first (skipn n l).
Proof.
  revert l. induction n as [|n IH]; intros l H; [exact H|].
  destruct l as [|x l]; [constructor|]. simpl. apply IH. now apply Sorted_inv in H.
Qed.

Lemma firstn_sorted (n : nat) (l : list EventRow) :
  Sorted newer_first l -> Sorted newer_first (firstn n l).
Proof.
  revert l. induction n as [|n IH]; intros l H; [constructor|].
  destruct l as [|x l]; [constructor|]. simpl. apply Sorted_inv in H as [Hl Hh].
  constructor; [exact (IH l Hl)|].
  destruct l as [|y l]; destruct n; simpl; try constructor. now inversion Hh.
Qed.

Lemma In_firstn_skipn (x : EventRow) (n m : nat) (l : list EventRow) :
  In x (firstn n (skipn m l)) -> In x l.
Proof.
  intros H. rewrite <- (firstn_skipn m l). apply in_or_app. right.
  rewrite <- (firstn_skipn n (skipn m l)). apply in_or_app. now left.
Qed.

(** X27: [GET /api/tenant/events] only ever returns events of the
    requesting tenant, of the requested severity when one is given,
    newest first; when the parsed [limit] is not negative it returns at
    most [limit] of them. *)
Theorem listEvents_isolation (hst : HubStore) (r : Request) (lq oq sq : option string)
    (es : list EventRow) (c : TenantContext) :
  listEvents hst r lq oq sq = DbOk es -> req_tenant r = Some c ->
  (forall e, In e es ->
     In e (hs_events hst) /\ ev_tenantId e = ctx_tenantId c
     /\ (forall s, sq = Some s -> s <> "" -> ev_severity e = s))
  /\ (0 <= parseInt_or lq 50 -> (length es <= Z.to_nat (parseInt_or lq 50))%nat)
  /\ Sorted newer_first es.
Proof.
  intros H Hc. pose proof (listEvents_ok hst r lq oq sq es c H Hc) as Hes. cbv zeta in Hes.
  split; [|split].
  - intros e He.
    assert (Hin : In e (sort_desc (filter (event_matches c sq) (hs_events hst)))).
    { rewrite Hes in He. destruct (parseInt_or lq 50 <? 0).
      - exact (In_skipn_l _ _ _ He).
      - exact (In_firstn_skipn _ _ _ _ He). }
    apply sort_desc_In, filter_In in Hin as [Hin Hk].
    unfold event_matches in Hk. apply andb_prop in Hk as [Ht Hs]. apply Z.eqb_eq in Ht.
    split; [exact Hin|]. split; [exact Ht|]. intros s Hsq Hne. subst sq.
    rewrite (truthy_some s Hne) in Hs. simpl in Hs. now apply String.eqb_eq in Hs.
  - intros Hl. exact (listEvents_length hst r lq oq sq es Hl H).
  - rewrite Hes. destruct (parseInt_or lq 50 <? 0).
    + apply skipn_sorted, sort_desc_sorted.
    + apply firstn_sorted, skipn_sorted, sort_desc_sorted.
Qed.

Lemma listEvents_isolation_witness :
  let hst := mkHubStore (hs_db (hub_store 0)) []
               [mkEventRow 1 1 1 "motion" "high" "Door" 10; mkEventRow 2 2 5 "motion" "high" "Other" 20;
                mkEventRow 3 1 1 "motion" "low" "Yard" 30] in
  (forall e, In e [mkEventRow 1 1 1 "motion" "high" "Door" 10] ->
     In e (hs_events hst) /\ ev_tenantId e = ctx_tenantId acme_context
     /\ (forall s, Some "high" = Some s -> s <> "" -> ev_severity e = s))
  /\ (0 <= parseInt_or (Some "10") 50 ->
      (length [mkEventRow 1 1 1 "motion" "high" "Door" 10] <= Z.to_nat (parseInt_or (Some "10") 50))%nat)
  /\ Sorted newer_first [mkEventRow 1 1 1 "motion" "high" "Door" 10].
Proof.
  intros hst.
  apply (listEvents_isolation hst (hub_request "AO-ACME-SECURITY-001-a") (Some "10") None (Some "high")).
  - vm_compute. reflexivity.
  - reflexivity.
Defined.
